(** * Gold Shop Manager: a shallow embedding of [main.py]

    The development follows the program: Python integers are [Z] (they do
    not wrap), [//] and [%] are [Z.div] and [Z.modulo] (both floor towards
    minus infinity, like Python's), Python [str] values are [string]s
    holding their UTF-8 encoding, SQL [NULL] and Python [None] are [None],
    a table is the list of its rows, and a raised exception is an error
    result.  Names are those of the source. *)

From Stdlib Require Import ZArith List String Ascii Bool Lia Floats.
From Stdlib Require Import Decimal DecimalString DecimalZ.
From Stdlib Require Import Permutation Sorted.
Import ListNotations.

Local Open Scope string_scope.
Local Open Scope Z_scope.

(** ** Python built-ins used by the program *)

(** [l[i]]: a negative index counts from the end; out of range raises
    [IndexError]. *)
Definition py_getitem {A : Type} (l : list A) (i : Z) : option A :=
  let n := Z.of_nat (List.length l) in
  if 0 <=? i then nth_error l (Z.to_nat i)
  else if - n <=? i then nth_error l (Z.to_nat (i + n))
  else None.

(** [str(n)] for an integer: decimal digits, a minus sign when negative. *)
Definition py_str (n : Z) : string :=
  NilZero.string_of_int (Z.to_int n).

Fixpoint zeros (n : nat) : string :=
  match n with
  | O => ""
  | S k => String "0" (zeros k)
  end.

(** Left padding with zeros up to [width] characters. *)
Definition zfill (width : nat) (digits : string) : string :=
  zeros (width - String.length digits) ++ digits.

(** The format specification [{n:0<width>d}]: the sign comes first and
    counts in the width. *)
Definition fmt_0d (width : nat) (n : Z) : string :=
  if n <? 0 then "-" ++ zfill (width - 1) (py_str (- n))
  else zfill width (py_str n).

(** ** Persian date converter *)

Definition g_d_m : list Z :=
  [0; 31; 59; 90; 120; 151; 181; 212; 243; 273; 304; 334].

(** The arithmetic of [gregorian_to_jalali] once [g_d_m[gm - 1]] is known. *)
Definition jalali_of_days (days0 : Z) : Z * Z * Z :=
  let jy := -1595 + 33 * (days0 / 12053) in
  let days := days0 mod 12053 in
  let jy := jy + 4 * (days / 1461) in
  let days := days mod 1461 in
  let '(jy, days) :=
    if days >? 365 then (jy + (days - 1) / 365, (days - 1) mod 365)
    else (jy, days) in
  if days <? 186 then (jy, 1 + days / 31, 1 + days mod 31)
  else (jy, 7 + (days - 186) / 30, 1 + (days - 186) mod 30).

(** [gregorian_to_jalali(gy, gm, gd)]; [None] is the [IndexError] of the
    table lookup. *)
Definition gregorian_to_jalali (gy gm gd : Z) : option (Z * Z * Z) :=
  let gy2 := if gm >? 2 then gy + 1 else gy in
  match py_getitem g_d_m (gm - 1) with
  | None => None
  | Some before =>
      Some (jalali_of_days
              (355666 + 365 * gy + (gy2 + 3) / 4 - (gy2 + 99) / 100
               + (gy2 + 399) / 400 + gd + before))
  end.

(** What [datetime.datetime.now()] returns. *)
Record datetime : Type := mk_datetime {
  year : Z; month : Z; day : Z;
  hour : Z; minute : Z; second : Z; microsecond : Z
}.

Definition get_jalali_date_string (now : datetime) : option string :=
  match gregorian_to_jalali (year now) (month now) (day now) with
  | None => None
  | Some (jy, jm, jd) =>
      Some (fmt_0d 4 jy ++ "/" ++ fmt_0d 2 jm ++ "/" ++ fmt_0d 2 jd)
  end.

Definition get_jalali_datetime_string (now : datetime) : option string :=
  match gregorian_to_jalali (year now) (month now) (day now) with
  | None => None
  | Some (jy, jm, jd) =>
      Some (fmt_0d 4 jy ++ "/" ++ fmt_0d 2 jm ++ "/" ++ fmt_0d 2 jd ++ " "
            ++ fmt_0d 2 (hour now) ++ ":" ++ fmt_0d 2 (minute now))
  end.

Definition months : list string :=
  ["فروردین"; "اردیبهشت"; "خرداد"; "تیر"; "مرداد"; "شهریور";
   "مهر"; "آبان"; "آذر"; "دی"; "بهمن"; "اسفند"].

Definition unknown_month : string := "نامعلوم".

(** [months[jm - 1] if 1 <= jm <= 12 else unknown]; [None] is an
    [IndexError]. *)
Definition month_name (jm : Z) : option string :=
  if (1 <=? jm) && (jm <=? 12) then py_getitem months (jm - 1)
  else Some unknown_month.

Definition get_jalali_date_persian_string (now : datetime) : option string :=
  match gregorian_to_jalali (year now) (month now) (day now) with
  | None => None
  | Some (jy, jm, jd) =>
      match month_name jm with
      | None => None
      | Some name => Some (py_str jd ++ " " ++ name ++ " " ++ py_str jy)
      end
  end.

(** The Gregorian calendar's own rules, for "a valid Gregorian date". *)
Definition is_leap (y : Z) : bool :=
  (y mod 4 =? 0) && (negb (y mod 100 =? 0) || (y mod 400 =? 0)).

Definition days_in_month (y m : Z) : Z :=
  if m =? 2 then (if is_leap y then 29 else 28)
  else if (m =? 4) || (m =? 6) || (m =? 9) || (m =? 11) then 30
  else 31.

Definition valid_gregorian (gy gm gd : Z) : Prop :=
  1 <= gm <= 12 /\ 1 <= gd <= days_in_month gy gm.

(** ** Strings *)

(** Truth value of a [str] or [None]: [None] and the empty string are
    false. *)
Definition truthy (o : option string) : bool :=
  match o with
  | Some s => negb (s =? "")%string
  | None => false
  end.

(** [a or b] on optional strings. *)
Definition or_else (a b : option string) : option string :=
  if truthy a then a else b.

Definition byte_is (c : ascii) (n : N) : bool := N.eqb (N_of_ascii c) n.

Definition byte_in (c : ascii) (lo hi : N) : bool :=
  (lo <=? N_of_ascii c)%N && (N_of_ascii c <=? hi)%N.

(** The code points for which [str.isspace] holds, below U+0080. *)
Definition ascii_space (c : ascii) : bool :=
  byte_in c 9 13 || byte_in c 28 32.

(** [str.lstrip()] on the UTF-8 bytes.  The other white-space code points
    are U+0085 and U+00A0 (C2 85, C2 A0), U+1680 (E1 9A 80), U+2000 to
    U+200A, U+2028, U+2029 and U+202F (E2 80 xx), U+205F (E2 81 9F) and
    U+3000 (E3 80 80). *)
Fixpoint lstrip (s : string) : string :=
  match s with
  | EmptyString => EmptyString
  | String c1 r1 =>
      if ascii_space c1 then lstrip r1
      else
        match r1 with
        | String c2 r2 =>
            if byte_is c1 194 && (byte_is c2 133 || byte_is c2 160)
            then lstrip r2
            else
              match r2 with
              | String c3 r3 =>
                  if (byte_is c1 225 && byte_is c2 154 && byte_is c3 128)
                     || (byte_is c1 226 && byte_is c2 128
                         && (byte_in c3 128 138 || byte_is c3 168
                             || byte_is c3 169 || byte_is c3 175))
                     || (byte_is c1 226 && byte_is c2 129 && byte_is c3 159)
                     || (byte_is c1 227 && byte_is c2 128 && byte_is c3 128)
                  then lstrip r3
                  else s
              | EmptyString => s
              end
        | EmptyString => s
        end
  end.

(** The same scan from the end, on the reversed bytes: a well-formed UTF-8
    string ends on a character boundary. *)
Fixpoint lstrip_rev (s : list ascii) : list ascii :=
  match s with
  | [] => []
  | c1 :: r1 =>
      if ascii_space c1 then lstrip_rev r1
      else
        match r1 with
        | c2 :: r2 =>
            if byte_is c2 194 && (byte_is c1 133 || byte_is c1 160)
            then lstrip_rev r2
            else
              match r2 with
              | c3 :: r3 =>
                  if (byte_is c3 225 && byte_is c2 154 && byte_is c1 128)
                     || (byte_is c3 226 && byte_is c2 128
                         && (byte_in c1 128 138 || byte_is c1 168
                             || byte_is c1 169 || byte_is c1 175))
                     || (byte_is c3 226 && byte_is c2 129 && byte_is c1 159)
                     || (byte_is c3 227 && byte_is c2 128 && byte_is c1 128)
                  then lstrip_rev r3
                  else s
              | [] => s
              end
        | [] => s
        end
  end.

Definition rstrip (s : string) : string :=
  string_of_list_ascii
    (List.rev (lstrip_rev (List.rev (list_ascii_of_string s)))).

(** [s.strip()] *)
Definition strip (s : string) : string := rstrip (lstrip s).

(** [s.startswith(p)] *)
Fixpoint startswith (s p : string) {struct p} : bool :=
  match p with
  | EmptyString => true
  | String a p' =>
      match s with
      | EmptyString => false
      | String b s' => Ascii.eqb a b && startswith s' p'
      end
  end.

(** SQLite compares [TEXT] values with [memcmp] on their bytes. *)
Definition text_eqb (a b : string) : bool := (a =? b)%string.
Definition text_ltb (a b : string) : bool := String.ltb a b.

(** [column = ?] where either side may be [NULL]: a comparison with
    [NULL] is not true. *)
Definition sql_eq (col param : option string) : bool :=
  match col, param with
  | Some a, Some b => text_eqb a b
  | _, _ => false
  end.

(** [column < ?] *)
Definition sql_lt (col param : option string) : bool :=
  match col, param with
  | Some a, Some b => text_ltb a b
  | _, _ => false
  end.

(** ** Exceptions *)

Inductive exn : Type :=
| IntegrityError   (* sqlite3: a UNIQUE constraint failed *)
| TypeError
| OverflowError
| OSError.

Inductive result (A : Type) : Type :=
| Ok (a : A)
| Raise (e : exn).
Arguments Ok {A} a.
Arguments Raise {A} e.

(** Arguments that reach [int(...)]: the values a caller can pass as a
    product id. *)
Inductive pyval : Type :=
| VNone
| VInt (n : Z)
| VStr (s : string).

(** [int(s)] for a string is the interpreter's; the development is
    parametric in it. *)
Class PyInt : Type := int_of_str : string -> option Z.

(** [int(v)]; [None] stands for the exception it raises. *)
Definition py_int `{PyInt} (v : pyval) : option Z :=
  match v with
  | VNone => None
  | VInt n => Some n
  | VStr s => int_of_str s
  end.

(** ** The two tables *)

(** The columns of [products] after [id], in the order of [create_tables];
    every column can hold [NULL]. *)
Record fields : Type := mk_fields {
  product_code : option string;
  name : option string;
  category : option string;
  base_number : option string;
  weight : option float;
  quantity : option Z;
  purity : option string;
  image : option string;
  thumb : option string;
  notes : option string;
  created_at : option string;
  sold_invoice : option string;
  sold_at : option string
}.

(** A row of [products], and also the dict that [get_all_products] builds
    from it. *)
Record product : Type := mk_product {
  id : Z;
  cols : fields
}.

Record base : Type := mk_base {
  base_id : Z;
  b_category : option string;
  b_base_number : option string;
  b_image : option string
}.

(** The database file: both tables with the counters that
    [AUTOINCREMENT] keeps, so that an id is never used twice. *)
Record database : Type := mk_database {
  products : list product;
  products_seq : Z;
  bases : list base;
  bases_seq : Z
}.

(** A database as [create_tables] leaves a new file. *)
Definition empty_database : database := mk_database [] 0 [] 0.

Definition set_products (db : database) (rows : list product) : database :=
  mk_database rows (products_seq db) (bases db) (bases_seq db).

(** [product_code TEXT UNIQUE]: no two rows hold the same non-NULL code. *)
Fixpoint codes_of (rows : list product) : list string :=
  match rows with
  | [] => []
  | r :: rows' =>
      match product_code (cols r) with
      | Some c => c :: codes_of rows'
      | None => codes_of rows'
      end
  end.

Fixpoint distinct (l : list string) : bool :=
  match l with
  | [] => true
  | x :: l' => negb (existsb (text_eqb x) l') && distinct l'
  end.

Definition unique_codes (rows : list product) : bool :=
  distinct (codes_of rows).

(** [UNIQUE(category, base_number)]: rows with a [NULL] in the pair never
    clash. *)
Definition same_pair (a b : base) : bool :=
  sql_eq (b_category a) (b_category b)
  && sql_eq (b_base_number a) (b_base_number b).

Fixpoint unique_pairs (rows : list base) : bool :=
  match rows with
  | [] => true
  | r :: rows' => negb (existsb (same_pair r) rows') && unique_pairs rows'
  end.

(** [COALESCE(sold_invoice, "") = ""] and its negation
    [sold_invoice IS NOT NULL AND sold_invoice != ''] *)
Definition unsold (r : product) : bool := negb (truthy (sold_invoice (cols r))).
Definition sold (r : product) : bool := truthy (sold_invoice (cols r)).

(** [ORDER BY id DESC] *)
Fixpoint insert_desc (p : product) (l : list product) : list product :=
  match l with
  | [] => [p]
  | q :: l' => if id q <=? id p then p :: l else q :: insert_desc p l'
  end.

Definition order_by_id_desc (rows : list product) : list product :=
  fold_right insert_desc [] rows.

(** ** DBHelper *)

Definition max_id (rows : list product) : Z :=
  fold_right (fun r m => Z.max (id r) m) 0 rows.

(** The [INSERT] of [add_product]; the result carries [lastrowid]. *)
Definition insert_product (f : fields) (db : database)
  : result (database * Z) :=
  let new_id := Z.max (products_seq db) (max_id (products db)) + 1 in
  let rows := (products db ++ [mk_product new_id f])%list in
  if unique_codes rows
  then Ok (mk_database rows new_id (bases db) (bases_seq db), new_id)
  else Raise IntegrityError.

(** [add_product(p)]: an empty or missing [sold_invoice] or [sold_at] is
    stored as [NULL]. *)
Definition add_product (p : fields) (db : database) : result (database * Z) :=
  insert_product
    (mk_fields (product_code p) (name p) (category p) (base_number p)
       (weight p) (quantity p) (purity p) (image p) (thumb p) (notes p)
       (created_at p)
       (if truthy (sold_invoice p) then sold_invoice p else None)
       (if truthy (sold_at p) then sold_at p else None))
    db.

(** [UPDATE products SET ... WHERE id=?] *)
Definition update_where_id (pid : Z) (f : fields -> fields)
  (rows : list product) : list product :=
  map (fun r => if id r =? pid then mk_product (id r) (f (cols r)) else r)
    rows.

(** [update_product(pid, p)] writes the thirteen columns of [p]. *)
Definition update_product (pid : Z) (p : fields) (db : database)
  : result database :=
  let rows := update_where_id pid (fun _ => p) (products db) in
  if unique_codes rows then Ok (set_products db rows)
  else Raise IntegrityError.

(** [fetchone()] after [SELECT ... FROM products WHERE id=?] *)
Definition select_by_id (pid : Z) (db : database) : option product :=
  find (fun r => id r =? pid) (products db).

Definition delete_where_id (pid : Z) (rows : list product) : list product :=
  filter (fun r => negb (id r =? pid)) rows.

Definition get_all_products (include_sold : bool) (db : database)
  : list product :=
  order_by_id_desc
    (if include_sold then products db else filter unsold (products db)).

Definition get_product_by_code (code : string) (db : database)
  : option product :=
  find (fun r => sql_eq (product_code (cols r)) (Some code)) (products db).

(** [delete_product] and [delete_old_sold_products] also remove files.
    The file system is the set of paths that exist, with the paths whose
    removal the system refuses. *)
Record filesystem : Type := mk_filesystem {
  present : list string;
  locked : list string
}.

Definition path_in (p : string) (l : list string) : bool :=
  existsb (String.eqb p) l.

(** [os.path.exists(p)] *)
Definition os_path_exists (p : string) (fs : filesystem) : bool :=
  path_in p (present fs).

(** [os.remove(p)] *)
Definition os_remove (p : string) (fs : filesystem) : result filesystem :=
  if path_in p (locked fs) || negb (path_in p (present fs)) then Raise OSError
  else Ok (mk_filesystem
             (filter (fun q => negb (String.eqb p q)) (present fs))
             (locked fs)).

(** [if p and os.path.exists(p): os.remove(p)] *)
Definition remove_if_exists (p : option string) (fs : filesystem)
  : result filesystem :=
  match p with
  | Some path =>
      if truthy p && os_path_exists path fs then os_remove path fs else Ok fs
  | None => Ok fs
  end.

(** The same inside [try: ... except Exception: pass]. *)
Definition try_remove (p : option string) (fs : filesystem) : filesystem :=
  match remove_if_exists p fs with
  | Ok fs' => fs'
  | Raise _ => fs
  end.

Definition delete_product `{PyInt} (pid : pyval)
  (w : database * filesystem) : database * filesystem :=
  let '(db, fs) := w in
  match py_int pid with
  | None => w
  | Some pid_int =>
      let fs' :=
        match select_by_id pid_int db with
        | Some row => try_remove (thumb (cols row))
                        (try_remove (image (cols row)) fs)
        | None => fs
        end in
      (set_products db (delete_where_id pid_int (products db)), fs')
  end.

(** The [UPDATE] of [mark_as_sold]. *)
Definition sold_columns (invoice : string) (img_to_set thumb_to_set : option string)
  (stamp : string) (f : fields) : fields :=
  mk_fields (product_code f) (name f) (category f) (base_number f)
    (weight f) (Some 0) (purity f) img_to_set thumb_to_set (notes f)
    (created_at f) (Some invoice) (Some stamp).

(** [mark_as_sold(pid, invoice, sold_image, sold_thumb, ...)] at the time
    [now].  The metadata file that it may write afterwards is not a row of
    a table, and a failure there is caught. *)
Definition mark_as_sold `{PyInt} (pid : pyval) (invoice : string)
  (sold_image sold_thumb : option string) (now : datetime) (db : database)
  : database :=
  match py_int pid with
  | None => db
  | Some pid_int =>
      match select_by_id pid_int db with
      | None => db
      | Some r =>
          let img_to_set :=
            if truthy sold_image then sold_image else image (cols r) in
          let thumb_to_set :=
            if truthy sold_thumb then sold_thumb else thumb (cols r) in
          match get_jalali_datetime_string now with
          | None => db
          | Some stamp =>
              set_products db
                (update_where_id pid_int
                   (sold_columns invoice img_to_set thumb_to_set stamp)
                   (products db))
          end
      end
  end.

Definition set_bases (db : database) (rows : list base) (seq : Z) : database :=
  mk_database (products db) (products_seq db) rows seq.

Definition pair_is (c b : option string) (r : base) : bool :=
  sql_eq (b_category r) c && sql_eq (b_base_number r) b.

Definition max_base_id (rows : list base) : Z :=
  fold_right (fun r m => Z.max (base_id r) m) 0 rows.

(** [set_base_image(category, base_number, image_path)]: the [UPDATE],
    and the [INSERT] when [rowcount] is zero; an exception is printed and
    nothing is committed. *)
Definition set_base_image (c b p : option string) (db : database) : database :=
  if existsb (pair_is c b) (bases db)
  then set_bases db
         (map (fun r => if pair_is c b r
                        then mk_base (base_id r) (b_category r)
                               (b_base_number r) p
                        else r)
            (bases db))
         (bases_seq db)
  else
    let new_id := Z.max (bases_seq db) (max_base_id (bases db)) + 1 in
    let rows := (bases db ++ [mk_base new_id c b p])%list in
    if unique_pairs rows then set_bases db rows new_id else db.

(** [get_base_image(category, base_number)] *)
Definition get_base_image (c : string) (b : option string) (db : database)
  : option string :=
  match find (pair_is (Some (strip c)) b) (bases db) with
  | Some r => b_image r
  | None => None
  end.

(** ** The library's dates: [datetime - timedelta(days=n)] and
    [isoformat()], as CPython's [datetime] computes them *)

Definition DAYS_IN_MONTH : list Z :=
  [-1; 31; 28; 31; 30; 31; 30; 31; 31; 30; 31; 30; 31].

Definition DAYS_BEFORE_MONTH : list Z :=
  [-1; 0; 31; 59; 90; 120; 151; 181; 212; 243; 273; 304; 334].

Definition days_before_year (y0 : Z) : Z :=
  let y := y0 - 1 in y * 365 + y / 4 - y / 100 + y / 400.

Definition days_before_month (y m : Z) : Z :=
  nth (Z.to_nat m) DAYS_BEFORE_MONTH 0
  + (if (m >? 2) && is_leap y then 1 else 0).

Definition ymd2ord (y m d : Z) : Z :=
  days_before_year y + days_before_month y m + d.

Definition ord2ymd (n0 : Z) : Z * Z * Z :=
  let n := n0 - 1 in
  let n400 := n / 146097 in
  let n := n mod 146097 in
  let y := n400 * 400 + 1 in
  let n100 := n / 36524 in
  let n := n mod 36524 in
  let n4 := n / 1461 in
  let n := n mod 1461 in
  let n1 := n / 365 in
  let n := n mod 365 in
  let y := y + n100 * 100 + n4 * 4 + n1 in
  if (n1 =? 4) || (n100 =? 4) then (y - 1, 12, 31)
  else
    let leapyear := (n1 =? 3) && (negb (n4 =? 24) || (n100 =? 3)) in
    let m := Z.shiftr (n + 50) 5 in
    let preceding :=
      nth (Z.to_nat m) DAYS_BEFORE_MONTH 0
      + (if (m >? 2) && leapyear then 1 else 0) in
    if preceding >? n then
      let m := m - 1 in
      let preceding :=
        preceding
        - (nth (Z.to_nat m) DAYS_IN_MONTH 0
           + (if (m =? 2) && leapyear then 1 else 0)) in
      (y, m, n - preceding + 1)
    else (y, m, n - preceding + 1).

Definition MAXORDINAL : Z := 3652059.

(** [now - datetime.timedelta(days=n)]: the date moves, the time of day
    stays. *)
Definition minus_days (now : datetime) (n : Z) : result datetime :=
  if (n <? -999999999) || (999999999 <? n) then Raise OverflowError
  else
    let o := ymd2ord (year now) (month now) (day now) - n in
    if (0 <? o) && (o <=? MAXORDINAL) then
      let '(y, m, d) := ord2ymd o in
      Ok (mk_datetime y m d (hour now) (minute now) (second now)
            (microsecond now))
    else Raise OverflowError.

Definition isoformat (t : datetime) : string :=
  fmt_0d 4 (year t) ++ "-" ++ fmt_0d 2 (month t) ++ "-" ++ fmt_0d 2 (day t)
  ++ "T" ++ fmt_0d 2 (hour t) ++ ":" ++ fmt_0d 2 (minute t) ++ ":"
  ++ fmt_0d 2 (second t)
  ++ (if microsecond t =? 0 then "" else "." ++ fmt_0d 6 (microsecond t)).

(** ** [posixpath] *)

Module posixpath.

Definition sep : ascii := "/"%char.

(** [s.split('/')] *)
Fixpoint split (s : string) : list string :=
  match s with
  | EmptyString => [EmptyString]
  | String c s' =>
      if Ascii.eqb c sep then EmptyString :: split s'
      else
        match split s' with
        | h :: t => String c h :: t
        | [] => [String c EmptyString]
        end
  end.

(** ['/'.join(comps)] *)
Definition join_comps (comps : list string) : string := String.concat "/" comps.

(** [s.endswith('/')] *)
Fixpoint endswith_sep (s : string) : bool :=
  match s with
  | EmptyString => false
  | String c EmptyString => Ascii.eqb c sep
  | String _ s' => endswith_sep s'
  end.

(** [join(a, b)] *)
Definition join2 (a b : string) : string :=
  if startswith b "/" then b
  else if (a =? "")%string || endswith_sep a then a ++ b
  else a ++ "/" ++ b.

(** [join(a, *p)] *)
Definition join (a : string) (p : list string) : string :=
  fold_left join2 p a.

(** The loop of [normpath] over the components, [new_comps] being kept in
    reverse. *)
Fixpoint norm_comps (initial_slashes : bool) (new_comps : list string)
  (comps : list string) : list string :=
  match comps with
  | [] => new_comps
  | comp :: rest =>
      if (comp =? "")%string || (comp =? ".")%string
      then norm_comps initial_slashes new_comps rest
      else if negb (comp =? "..")%string
              || (negb initial_slashes
                  && match new_comps with [] => true | _ => false end)
              || match new_comps with
                 | last :: _ => (last =? "..")%string
                 | [] => false
                 end
      then norm_comps initial_slashes (comp :: new_comps) rest
      else
        match new_comps with
        | _ :: popped => norm_comps initial_slashes popped rest
        | [] => norm_comps initial_slashes new_comps rest
        end
  end.

Definition initial_slashes (path : string) : nat :=
  if startswith path "/" then
    if startswith path "//" && negb (startswith path "///") then 2%nat
    else 1%nat
  else 0%nat.

Definition normpath (path : string) : string :=
  if (path =? "")%string then "."
  else
    let slashes := initial_slashes path in
    let comps :=
      List.rev (norm_comps (negb (Nat.eqb slashes 0)) [] (split path)) in
    let p := join_comps comps in
    let p :=
      match slashes with
      | O => p
      | S O => "/" ++ p
      | _ => "//" ++ p
      end in
    if (p =? "")%string then "." else p.

(** [abspath(path)] in the working directory [cwd]. *)
Definition abspath (cwd path : string) : string :=
  normpath (if startswith path "/" then path else join2 cwd path).

Fixpoint common_len (a b : list string) : nat :=
  match a, b with
  | x :: a', y :: b' => if (x =? y)%string then S (common_len a' b') else O
  | _, _ => O
  end.

Definition nonempty_comps (p : string) : list string :=
  filter (fun x => negb (x =? "")%string) (split p).

(** [relpath(path, start)]; an empty [path] raises [ValueError]. *)
Definition relpath (cwd path start : string) : option string :=
  if (path =? "")%string then None
  else
    let start_list := nonempty_comps (abspath cwd start) in
    let path_list := nonempty_comps (abspath cwd path) in
    let i := common_len start_list path_list in
    let rel_list :=
      (repeat ".." (List.length start_list - i) ++ skipn i path_list)%list in
    match rel_list with
    | [] => Some "."
    | first :: others => Some (join first others)
    end.

(** [dirname(p)] *)
Fixpoint last_sep (s : string) : option nat :=
  match s with
  | EmptyString => None
  | String c s' =>
      match last_sep s' with
      | Some i => Some (S i)
      | None => if Ascii.eqb c sep then Some O else None
      end
  end.

Fixpoint all_sep (s : string) : bool :=
  match s with
  | EmptyString => true
  | String c s' => Ascii.eqb c sep && all_sep s'
  end.

Fixpoint drop_seps (l : list ascii) : list ascii :=
  match l with
  | c :: l' => if Ascii.eqb c sep then drop_seps l' else l
  | [] => []
  end.

Definition rstrip_sep (s : string) : string :=
  string_of_list_ascii (List.rev (drop_seps (List.rev (list_ascii_of_string s)))).

Definition dirname (p : string) : string :=
  let i := match last_sep p with Some k => S k | None => O end in
  let head := substring 0 i p in
  if negb (head =? "")%string && negb (all_sep head) then rstrip_sep head
  else head.

Fixpoint has_sep (s : string) : bool :=
  match s with
  | EmptyString => false
  | String c s' => Ascii.eqb c sep || has_sep s'
  end.

(** [basename(p)]: what follows the last separator. *)
Fixpoint basename (p : string) : string :=
  match p with
  | EmptyString => EmptyString
  | String c p' =>
      if has_sep p' then basename p'
      else if Ascii.eqb c sep then p'
      else p
  end.

End posixpath.

(** ** Auto-deletion of old sold products *)

(** The rows that the [SELECT] of [delete_old_sold_products] returns. *)
Definition old_sold (cutoff_date : string) (r : product) : bool :=
  sold r && sql_lt (created_at (cols r)) (Some cutoff_date).

(** One turn of the loop over [old_products], with its
    [try: ... except Exception: continue]. *)
Definition delete_old_row (db_path : string) (st : database * filesystem * Z)
  (r : product) : database * filesystem * Z :=
  let '(db, fs, deleted_count) := st in
  match remove_if_exists (image (cols r)) fs with
  | Raise _ => st
  | Ok fs1 =>
      match remove_if_exists (thumb (cols r)) fs1 with
      | Raise _ => (db, fs1, deleted_count)
      | Ok fs2 =>
          let db' := set_products db (delete_where_id (id r) (products db)) in
          let fs3 :=
            match sold_invoice (cols r) with
            | None => fs2
            | Some invoice =>
                let sold_dir :=
                  posixpath.join (posixpath.dirname db_path) ["sold"; invoice] in
                let meta_file :=
                  posixpath.join sold_dir
                    ["metadata_" ++ py_str (id r) ++ ".json"] in
                if os_path_exists sold_dir fs2 && os_path_exists meta_file fs2
                then match os_remove meta_file fs2 with
                     | Ok fs' => fs'
                     | Raise _ => fs2
                     end
                else fs2
            end in
          (db', fs3, deleted_count + 1)
      end
  end.

(** [delete_old_sold_products(db_path, months)] called at the time [now],
    on a database file that opens.  The result is the new state and the
    returned count. *)
Definition delete_old_sold_products (db_path : string) (months : Z)
  (now : datetime) (w : database * filesystem) : database * filesystem * Z :=
  let '(db, fs) := w in
  match minus_days now (months * 30) with
  | Raise _ => (db, fs, 0)
  | Ok cutoff =>
      let cutoff_date := isoformat cutoff in
      let old_products := filter (old_sold cutoff_date) (products db) in
      fold_left (delete_old_row db_path) old_products (db, fs, 0)
  end.

(** ** The application *)

Definition prefix_map : list (string * string) :=
  [("النگو", "L"); ("گوشواره", "G"); ("دستبند", "D"); ("گردنبند", "N");
   ("انگشتر", "R"); ("پلاک", "P"); ("پارسیان", "PS"); ("زنجیر", "Z");
   ("شمش", "SH"); ("سکه", "S"); ("متفرقه", "M"); ("ابشده", "A")].

(** [prefix_map.get(category, 'X')] *)
Definition prefix_of (category : string) : string :=
  match find (fun kv => (fst kv =? category)%string) prefix_map with
  | Some kv => snd kv
  | None => "X"
  end.

Definition lower (c : ascii) : ascii :=
  if byte_in c 65 90 then ascii_of_N (N_of_ascii c + 32) else c.

(** The characters of [s] after the prefix [pref], letters compared
    without case. *)
Fixpoint after_prefix (pref s : string) : option string :=
  match pref, s with
  | EmptyString, _ => Some s
  | String a pref', String b s' =>
      if Ascii.eqb (lower a) (lower b) then after_prefix pref' s' else None
  | String _ _, EmptyString => None
  end.

Definition is_digit (c : ascii) : bool := byte_in c 48 57.

Fixpoint all_digits (s : string) : bool :=
  match s with
  | EmptyString => true
  | String c s' => is_digit c && all_digits s'
  end.

Fixpoint digits_value (acc : Z) (s : string) : Z :=
  match s with
  | EmptyString => acc
  | String c s' => digits_value (10 * acc + Z.of_N (N_of_ascii c - 48)) s'
  end.

(** [int(m.group(1))] for [m = re.match("^" + pref + "(\d+)$", pc, re.I)]
    where [pc] is stripped.  Product codes are written by this program
    only, from the ASCII prefixes above and ASCII digits; letters and
    digits are read here as ASCII. *)
Definition code_number (pref pc : string) : option Z :=
  match after_prefix pref pc with
  | Some ds =>
      if negb (ds =? "")%string && all_digits ds
      then Some (digits_value 0 ds)
      else None
  | None => None
  end.

Definition get_next_seq_for_category (category : string) (db : database) : Z :=
  let pref := prefix_of category in
  let prods := get_all_products true db in
  let max_n :=
    fold_left
      (fun max_n p =>
         let pc :=
           strip (match product_code (cols p) with
                  | Some c => c
                  | None => ""
                  end) in
         if (pc =? "")%string then max_n
         else match code_number pref pc with
              | Some n => if n >? max_n then n else max_n
              | None => max_n
              end)
      prods 0 in
  max_n + 1.

(** [while self.db.get_product_by_code(code) is not None: seq += 1], with
    a bound on the number of turns; [None] when the bound is reached. *)
Fixpoint unused_code (turns : nat) (db : database) (prefix : string) (seq : Z)
  : option string :=
  let code := prefix ++ py_str seq in
  match get_product_by_code code db with
  | None => Some code
  | Some _ =>
      match turns with
      | O => None
      | S turns' => unused_code turns' db prefix (seq + 1)
      end
  end.

(** An entry of [_batch_entries]. *)
Record entry : Type := mk_entry {
  e_name : option string;
  e_weight : option float;
  e_purity : option string;
  e_image : option string;
  e_thumb : option string;
  e_notes : option string
}.

(** [w or 0.0] *)
Definition weight_or_zero (w : option float) : float :=
  match w with
  | Some x => if PrimFloat.eqb x 0%float then 0%float else x
  | None => 0%float
  end.

(** [text.strip() or default] for the text of an input widget. *)
Definition strip_or (text default : string) : string :=
  if (strip text =? "")%string then default else strip text.

(** The body of the loop of [save_batch_products] for the entry [e] at
    index [idx].  The outer [None] is the bound of [unused_code]. *)
Definition save_entry (category base_number : string) (now : datetime)
  (idx : nat) (e : entry) (db : database) : option (result database) :=
  let seq := get_next_seq_for_category category db in
  let prefix := prefix_of category in
  match unused_code (List.length (products db)) db prefix seq with
  | None => None
  | Some code =>
      match get_jalali_datetime_string now with
      | None => Some (Raise TypeError)
      | Some stamp =>
          let p :=
            mk_fields (Some code)
              (or_else (e_name e)
                 (Some ("محصول " ++ py_str (Z.of_nat idx + 1))))
              (Some category) (Some base_number)
              (Some (weight_or_zero (e_weight e))) (Some 1)
              (e_purity e) (e_image e) (e_thumb e) (e_notes e)
              (Some stamp) None None in
          match add_product p db with
          | Ok (db', _) => Some (Ok db')
          | Raise e => Some (Raise e)
          end
      end
  end.

Fixpoint save_entries (category base_number : string) (now : datetime)
  (idx : nat) (entries : list entry) (db : database) : option database :=
  match entries with
  | [] => Some db
  | e :: rest =>
      match save_entry category base_number now idx e db with
      | None => None
      | Some (Raise _) => Some db
      | Some (Ok db') => save_entries category base_number now (S idx) rest db'
      end
  end.

(** [save_batch_products()], given the texts of the category and base
    number inputs and the entries. *)
Definition save_batch_products (category_text base_number_text : string)
  (entries : list entry) (now : datetime) (db : database) : option database :=
  save_entries (strip_or category_text "عمومی") (strip_or base_number_text "-")
    now 0 entries db.

(** [convert_to_english_numbers(text)]: U+06F0 to U+06F9 are the bytes
    DB B0 to DB B9, U+0660 to U+0669 are D9 A0 to D9 A9. *)
Fixpoint convert_to_english_numbers (text : string) : string :=
  match text with
  | EmptyString => EmptyString
  | String c1 EmptyString => text
  | String c1 (String c2 r2 as r1) =>
      if byte_is c1 219 && byte_in c2 176 185
      then String (ascii_of_N (N_of_ascii c2 - 176 + 48))
             (convert_to_english_numbers r2)
      else if byte_is c1 217 && byte_in c2 160 169
      then String (ascii_of_N (N_of_ascii c2 - 160 + 48))
             (convert_to_english_numbers r2)
      else String c1 (convert_to_english_numbers r1)
  end.

(** What the sale finds outside the database: whether the directory of
    the invoice can be made, and what [copy_to_sold] returns for the image
    and for the thumbnail. *)
Record sale_env : Type := mk_sale_env {
  sold_dir_made : bool;
  copied_image : option string;
  copied_thumb : option string
}.

Definition with_quantity (f : fields) (q : option Z) (stamp : option string)
  : fields :=
  mk_fields (product_code f) (name f) (category f) (base_number f)
    (weight f) q (purity f) (image f) (thumb f) (notes f)
    stamp (sold_invoice f) (sold_at f).

(** [do_sell_with_invoice(invoice_str, ...)] inside [sell_current_product],
    for the product [prod] that was current when the dialog opened. *)
Definition do_sell_with_invoice `{PyInt} (prod : product)
  (invoice_str : string) (env : sale_env) (now : datetime) (db : database)
  : database :=
  let invoice := convert_to_english_numbers (strip invoice_str) in
  if (invoice =? "")%string then db
  else if negb (sold_dir_made env) then db
  else
    let f := cols prod in
    match quantity f with
    | Some q =>
        if negb (q =? 0) && (q >? 1) then
          let new_q := q - 1 in
          match (if truthy (created_at f) then Some (created_at f)
                 else match get_jalali_datetime_string now with
                      | Some s => Some (Some s)
                      | None => None
                      end) with
          | None => db
          | Some stamp0 =>
              match update_product (id prod) (with_quantity f (Some new_q) stamp0)
                      db with
              | Raise _ => db
              | Ok db1 =>
                  let sold_code :=
                    match product_code f with Some c => c | None => "None" end
                    ++ "-S" ++ fmt_0d 2 (hour now) ++ fmt_0d 2 (minute now)
                    ++ fmt_0d 2 (second now) in
                  match name f, get_jalali_datetime_string now with
                  | Some nm, Some stamp =>
                      let sold_entry :=
                        mk_fields (Some sold_code) (Some (nm ++ " (فروش)"))
                          (category f) (base_number f)
                          (Some (weight_or_zero (weight f))) (Some 0)
                          (purity f) (copied_image env) (copied_thumb env)
                          (Some ("فروش فاکتور: " ++ invoice ++ " | "
                                 ++ match or_else (notes f) (Some "") with
                                    | Some n => n
                                    | None => ""
                                    end))
                          (Some stamp) (Some invoice) (Some stamp) in
                      match add_product sold_entry db1 with
                      | Ok (db2, _) => db2
                      | Raise _ => db1
                      end
                  | _, _ => db1
                  end
              end
          end
        else
          mark_as_sold (VInt (id prod)) invoice
            (or_else (copied_image env) (image f))
            (or_else (copied_thumb env) (thumb f)) now db
    | None =>
        mark_as_sold (VInt (id prod)) invoice
          (or_else (copied_image env) (image f))
          (or_else (copied_thumb env) (thumb f)) now db
    end.

(** The [UPDATE] of [restore_sold_product] and [restore_invoice_products]. *)
Definition restored_columns (f : fields) : fields :=
  mk_fields (product_code f) (name f) (category f) (base_number f)
    (weight f) (Some 1) (purity f) (image f) (thumb f) (notes f)
    (created_at f) None None.

Definition find_product (include_sold : bool) (pid : Z) (db : database)
  : option product :=
  find (fun x => id x =? pid) (get_all_products include_sold db).

(** [restore_sold_product(product_id)], confirmed in its dialog. *)
Definition restore_sold_product (product_id : Z) (db : database) : database :=
  match find_product true product_id db with
  | None => db
  | Some _ =>
      set_products db (update_where_id product_id restored_columns (products db))
  end.

(** [restore_invoice_products(invoice)], confirmed in its dialog. *)
Definition restore_invoice_products (invoice : string) (db : database)
  : database :=
  let chosen :=
    filter (fun p => match sold_invoice (cols p) with
                     | Some i => (i =? invoice)%string
                     | None => false
                     end)
      (get_all_products true db) in
  fold_left
    (fun d p => set_products d (update_where_id (id p) restored_columns (products d)))
    chosen db.

(** [confirm_delete(pid)], confirmed in its dialog. *)
Definition confirm_delete `{PyInt} (pid : Z) (w : database * filesystem)
  : database * filesystem :=
  match find_product true pid (fst w) with
  | None => w
  | Some _ => delete_product (VInt pid) w
  end.

(** The state of the running application: the database and the product
    dict kept in [current_product]. *)
Record app : Type := mk_app {
  db : database;
  current_product : option product
}.

Definition initial : app := mk_app empty_database None.

(** What the user can do, with what the environment answers. *)
Inductive event : Type :=
| SaveBatch (category_text base_number_text : string) (entries : list entry)
    (now : datetime)
| OpenDetail (pid : Z)
| QuickSell (pid : Z)
| Sell (invoice_str : string) (env : sale_env) (now : datetime)
| RestoreSold (product_id : Z)
| RestoreInvoice (invoice : string)
| ConfirmDelete (pid : Z) (fs : filesystem)
| AutoCleanup (db_path : string) (now : datetime) (fs : filesystem)
| PickBaseImage (category : string) (base_number : option string)
    (dest : string)
| DeleteAllData.

(** The effect of an event; [None] only if [unused_code] reached its
    bound. *)
Definition run `{PyInt} (e : event) (a : app) : option app :=
  match e with
  | SaveBatch c b entries now =>
      match save_batch_products c b entries now (db a) with
      | Some d => Some (mk_app d (current_product a))
      | None => None
      end
  | OpenDetail pid =>
      match find_product true pid (db a) with
      | Some prod => Some (mk_app (db a) (Some prod))
      | None => Some a
      end
  | QuickSell pid =>
      match find_product false pid (db a) with
      | Some prod => Some (mk_app (db a) (Some prod))
      | None => Some a
      end
  | Sell invoice_str env now =>
      match current_product a with
      | Some prod =>
          Some (mk_app (do_sell_with_invoice prod invoice_str env now (db a))
                  (current_product a))
      | None => Some a
      end
  | RestoreSold pid =>
      Some (mk_app (restore_sold_product pid (db a)) (current_product a))
  | RestoreInvoice invoice =>
      Some (mk_app (restore_invoice_products invoice (db a))
              (current_product a))
  | ConfirmDelete pid fs =>
      Some (mk_app (fst (confirm_delete pid (db a, fs))) (current_product a))
  | AutoCleanup db_path now fs =>
      Some (mk_app
              (fst (fst (delete_old_sold_products db_path 3 now (db a, fs))))
              (current_product a))
  | PickBaseImage c b dest =>
      Some (mk_app (set_base_image (Some (strip c)) b (Some dest) (db a))
              (current_product a))
  | DeleteAllData => Some (mk_app empty_database (current_product a))
  end.

(** The states the application can be in, starting from a new database. *)
Inductive reachable `{PyInt} : app -> Prop :=
| reachable_initial : reachable initial
| reachable_run (e : event) (a a' : app) :
    reachable a -> run e a = Some a' -> reachable a'.

(** One event after the other. *)
Fixpoint run_all `{PyInt} (es : list event) (a : app) : option app :=
  match es with
  | [] => Some a
  | e :: es' =>
      match run e a with
      | Some a1 => run_all es' a1
      | None => None
      end
  end.

(** ** Export *)

(** A value handed to [csv.writer]. *)
Inductive cell : Type :=
| CNone
| CInt (n : Z)
| CFloat (x : float)
| CStr (s : string).

Definition of_text (o : option string) : cell :=
  match o with Some s => CStr s | None => CNone end.

Definition of_int (o : option Z) : cell :=
  match o with Some n => CInt n | None => CNone end.

Definition of_real (o : option float) : cell :=
  match o with Some x => CFloat x | None => CNone end.

(** [p[key]] and [p.get(key)] on a dict built by [get_all_products]; a
    missing key gives [None] here. *)
Definition getitem (p : product) (key : string) : option cell :=
  let f := cols p in
  if (key =? "id")%string then Some (CInt (id p))
  else if (key =? "product_code")%string then Some (of_text (product_code f))
  else if (key =? "name")%string then Some (of_text (name f))
  else if (key =? "category")%string then Some (of_text (category f))
  else if (key =? "base_number")%string then Some (of_text (base_number f))
  else if (key =? "weight")%string then Some (of_real (weight f))
  else if (key =? "quantity")%string then Some (of_int (quantity f))
  else if (key =? "purity")%string then Some (of_text (purity f))
  else if (key =? "image")%string then Some (of_text (image f))
  else if (key =? "thumb")%string then Some (of_text (thumb f))
  else if (key =? "notes")%string then Some (of_text (notes f))
  else if (key =? "created_at")%string then Some (of_text (created_at f))
  else if (key =? "sold_invoice")%string then Some (of_text (sold_invoice f))
  else if (key =? "sold_at")%string then Some (of_text (sold_at f))
  else None.

Definition csv_header : list string :=
  ["id"; "product_code"; "name"; "category"; "base_number"; "weight";
   "quantity"; "purity"; "notes"; "image"; "sold_invoice"; "created_at";
   "sold_at"].

(** The list given to [writer.writerow] for the product [p]. *)
Definition csv_row (p : product) : list (option cell) :=
  [getitem p "id"; getitem p "product_code"; getitem p "name";
   getitem p "category"; getitem p "base_number"; getitem p "weight";
   getitem p "quantity"; getitem p "purity"; getitem p "notes";
   getitem p "image"; getitem p "sold_invoice"; getitem p "created_at";
   getitem p "sold_at"].

(** [export_all_csv()]: the rows written, when the file can be written;
    [None] when there is no product and no file is made. *)
Definition export_all_csv (d : database)
  : option (list string * list (list (option cell))) :=
  match get_all_products true d with
  | [] => None
  | prods => Some (csv_header, map csv_row prods)
  end.

(** ** Restore from a backup *)

Inductive restored : Type :=
| Skipped
| Written (dests : list string)
| Failed.

(** One turn of the loop of [_on_restore_selected] over [zf.namelist()]:
    the paths written for [member], with the user data directory [ud] and
    the working directory [cwd]. *)
Definition restore_member (cwd ud member : string) : restored :=
  let images_dir := posixpath.join2 ud "images" in
  let thumbs_dir := posixpath.join2 ud "thumbs" in
  let db_path := posixpath.join2 ud "goldshop.db" in
  let normalized := posixpath.normpath member in
  if startswith normalized ".." then Skipped
  else if (member =? posixpath.basename db_path)%string then
    Written [posixpath.join2 ud member; db_path]
  else if startswith member "images/" then
    match posixpath.relpath cwd member "images" with
    | Some rel => Written [posixpath.join2 images_dir rel]
    | None => Failed
    end
  else if startswith member "thumbs/" then
    match posixpath.relpath cwd member "thumbs" with
    | Some rel => Written [posixpath.join2 thumbs_dir rel]
    | None => Failed
    end
  else Skipped.



(** The components of an absolute path once [.], [..] and empty
    components are resolved. *)
Definition resolve (p : string) : list string :=
  List.rev (posixpath.norm_comps true [] (posixpath.split p)).



(** ** An interpreter and a shop for the examples *)

(** [int(s)] on ASCII decimal numerals: white space around, an optional
    minus sign, digits. *)
Definition decimal_int : PyInt :=
  fun s =>
    let t := strip s in
    match t with
    | String "-" ds =>
        if negb (ds =? "")%string && all_digits ds
        then Some (- digits_value 0 ds)
        else None
    | _ =>
        if negb (t =? "")%string && all_digits t
        then Some (digits_value 0 t)
        else None
    end.

Definition today : datetime := mk_datetime 2026 11 3 10 0 0 0.

Definition ring : entry :=
  mk_entry (Some "انگشتر طلا") (Some 2.5%float) (Some "750")
    (Some "/data/images/a.jpg") (Some "/data/thumbs/t_a.jpg") None.

Definition ring_files : filesystem :=
  mk_filesystem ["/data/images/a.jpg"; "/data/thumbs/t_a.jpg"] [].

(** The ring as [save_batch_products] stores it today. *)
Definition ring_row : product :=
  mk_product 1
    (mk_fields (Some "R1") (Some "انگشتر طلا") (Some "انگشتر") (Some "12")
       (Some 2.5%float) (Some 1) (Some "750") (Some "/data/images/a.jpg")
       (Some "/data/thumbs/t_a.jpg") None (Some "1405/08/12 10:00") None None).

(** The ring once sold today on the invoice that the dialog proposes. *)
Definition ring_sold : product :=
  mk_product 1
    (mk_fields (Some "R1") (Some "انگشتر طلا") (Some "انگشتر") (Some "12")
       (Some 2.5%float) (Some 0) (Some "750") (Some "/data/images/a.jpg")
       (Some "/data/thumbs/t_a.jpg") None (Some "1405/08/12 10:00")
       (Some "1405/08/12") (Some "1405/08/12 10:00")).

Definition shop_with_ring : app :=
  mk_app (mk_database [ring_row] 1 [] 0) None.

Definition shop_ring_sold : app :=
  mk_app (mk_database [ring_sold] 1 [] 0) (Some ring_row).

(** ** Predicates of the statements and of their proofs *)

(** The columns that [mark_as_sold] leaves alone. *)
Definition kept_columns (f f' : fields) : Prop :=
  product_code f' = product_code f
  /\ name f' = name f
  /\ category f' = category f
  /\ base_number f' = base_number f
  /\ weight f' = weight f
  /\ purity f' = purity f
  /\ notes f' = notes f
  /\ created_at f' = created_at f.

(** [d'] has some of the rows of [d], in the same order, and the same
    table of bases. *)
Definition shrinks (d d' : database) : Prop :=
  (exists keep, products d' = filter keep (products d))
  /\ bases d' = bases d.

(** A sold row has quantity zero. *)
Definition sold_zero (r : product) : Prop :=
  sold r = true -> quantity (cols r) = Some 0.

Definition all_sold_zero (d : database) : Prop :=
  Forall sold_zero (products d).

(** The invariant of the running application: the rows, and the product
    dict that the sale will read. *)
Definition sales_invariant (a : app) : Prop :=
  all_sold_zero (db a)
  /\ forall prod, current_product a = Some prod -> sold_zero prod.

Definition mem (c : string) (l : list string) : bool := existsb (text_eqb c) l.

(** A component that [normpath] keeps in an absolute path: not empty,
    not [.], not [..], no separator in it. *)
Definition plain (c : string) : Prop :=
  c <> "" /\ c <> "." /\ c <> ".." /\ posixpath.has_sep c = false.

(** A component that [join] appends after a separator. *)
Definition component (c : string) : Prop :=
  c <> "" /\ posixpath.has_sep c = false.


(** The first character of the strings [{y:04d}] for the [n] years from
    [lo] on. *)
Definition head_is (p : ascii -> bool) (s : string) : bool :=
  match s with
  | String c _ => p c
  | EmptyString => false
  end.

Definition heads_in_range (p : ascii -> bool) (lo n : Z) : bool :=
  forallb (fun i => head_is p (fmt_0d 4 (lo + Z.of_nat i)))
    (seq 0 (Z.to_nat n)).

Definition after_one (c : ascii) : bool :=
  match Ascii.compare "1" c with
  | Lt => true
  | _ => false
  end.

(** ** More of the program: stages of the calendar arithmetic *)

(** The last step of [gregorian_to_jalali]: month and day from the day of
    the year, counted from 0. *)
Definition month_day (doy : Z) : Z * Z :=
  if doy <? 186 then (1 + doy / 31, 1 + doy mod 31)
  else (7 + (doy - 186) / 30, 1 + (doy - 186) mod 30).

(** The step before: year within the four-year cycle and day of the year,
    from the day within the cycle. *)
Definition year_day (b : Z) : Z * Z :=
  if b >? 365 then ((b - 1) / 365, (b - 1) mod 365) else (0, b).

(** All bytes below 128: the text has ASCII characters only. *)
Fixpoint all_ascii (s : string) : bool :=
  match s with
  | EmptyString => true
  | String c s' => (N_of_ascii c <? 128)%N && all_ascii s'
  end.

(** ** ArMDTextField: the logical buffer *)

Module ArMDTextField.

(** A Python [str] as its code points: [len] and slices count
    characters. *)
Definition text : Type := list N.

Definition len (t : text) : Z := Z.of_nat (List.length t).

(** [max_chars or 1024] *)
Definition limit (max_chars : Z) : Z :=
  if max_chars =? 0 then 1024 else max_chars.

(** [s or ""] *)
Definition or_empty (s : option text) : text :=
  match s with
  | Some t => t
  | None => []
  end.

(** The position that [insert_text] and [do_backspace] edit at:
    [cursor_index()], or the length of the buffer when that raises. *)
Definition cursor (ci : option Z) (plain : text) : Z :=
  match ci with
  | Some i => i
  | None => len plain
  end.

(** [insert_text(substring, from_undo)]: the new [arabic_buf]. *)
Definition insert_text (arabic_buf : text) (max_chars : Z)
  (substring : option text) (from_undo : bool) (ci : option Z) : text :=
  if negb from_undo
     && (len arabic_buf + len (or_empty substring) >? limit max_chars)
  then arabic_buf
  else
    let substring := or_empty substring in
    let plain := arabic_buf in
    let ci := cursor ci plain in
    let ci := if ci <? 0 then 0 else ci in
    let ci := if ci >? len plain then len plain else ci in
    (firstn (Z.to_nat ci) plain ++ substring
     ++ skipn (Z.to_nat ci) plain)%list.

(** [do_backspace()]: the new [arabic_buf]. *)
Definition do_backspace (arabic_buf : text) (ci : option Z) : text :=
  let plain := arabic_buf in
  let ci := cursor ci plain in
  if (ci <=? 0) && (len plain =? 0) then arabic_buf
  else if ci <=? 0 then removelast plain
  else (firstn (Z.to_nat (Z.max 0 (ci - 1))) plain
        ++ skipn (Z.to_nat ci) plain)%list.

End ArMDTextField.

(** ** DBHelper: the counts of the main screen *)

(** [get_total_products_count()] *)
Definition get_total_products_count (d : database) : Z :=
  Z.of_nat (List.length (filter unsold (products d))).

(** Two values of a [GROUP BY] column fall in one group: equal texts, or
    both [NULL]. *)
Definition same_group (a b : option string) : bool :=
  match a, b with
  | Some x, Some y => text_eqb x y
  | None, None => true
  | _, _ => false
  end.

(** One more row for the group of [k]. *)
Fixpoint count_in (k : option string) (groups : list (option string * Z))
  : list (option string * Z) :=
  match groups with
  | [] => [(k, 1)]
  | (k', n) :: rest =>
      if same_group k k' then (k', n + 1) :: rest
      else (k', n) :: count_in k rest
  end.

(** [SELECT category, COUNT( * ) ... GROUP BY category]: one row per
    group.  The engine chooses the order of the rows; here a group stands
    where its first row stood. *)
Definition group_counts (keys : list (option string))
  : list (option string * Z) :=
  fold_left (fun groups k => count_in k groups) keys [].

(** [get_category_counts()]: the dict, as the list of its items. *)
Definition get_category_counts (d : database) : list (option string * Z) :=
  group_counts (map (fun r => category (cols r)) (filter unsold (products d))).

(** [counts.get(c, 0)] *)
Definition counts_get (counts : list (option string * Z)) (c : option string)
  : Z :=
  match find (fun kv => same_group c (fst kv)) counts with
  | Some kv => snd kv
  | None => 0
  end.

(** ** Backup *)

(** A file that [os.walk(top)] finds: [top], the directories below it
    that lead to the file, and the file name, joined. *)
Definition walked (top : string) (below : list string) : string :=
  posixpath.join top below.

(** The name under which [zf.write(full, arcname=arc)] stores a file:
    [normpath(arc)] without leading separators. *)
Fixpoint lstrip_sep (s : string) : string :=
  match s with
  | String c s' => if Ascii.eqb c posixpath.sep then lstrip_sep s' else s
  | EmptyString => EmptyString
  end.

Definition stored_name (arc : string) : string :=
  lstrip_sep (posixpath.normpath arc).

(** The member of the archive that [backup_all] makes for the file
    [full] of the directory [dir], stored under [sub] ("images" or
    "thumbs"); [None] is the [ValueError] of [relpath]. *)
Definition backup_member (cwd sub dir full : string) : option string :=
  match posixpath.relpath cwd full dir with
  | Some rel => Some (stored_name (posixpath.join2 sub rel))
  | None => None
  end.

(** The member for the database file: [arcname=basename(db_path)]. *)
Definition backup_db_member (ud : string) : string :=
  stored_name (posixpath.basename (posixpath.join2 ud "goldshop.db")).

(** ** More predicates of the statements *)

(** A row is either sold with quantity 0, or has no invoice, no sale
    stamp and quantity 1. *)
Definition neat (r : product) : Prop :=
  (sold r = true /\ quantity (cols r) = Some 0)
  \/ (sold_invoice (cols r) = None /\ sold_at (cols r) = None
      /\ quantity (cols r) = Some 1).

Definition tidy (a : app) : Prop :=
  Forall neat (products (db a))
  /\ forall prod, current_product a = Some prod -> neat prod.

(** The ids of the rows differ, and none is above the counter of
    [AUTOINCREMENT]. *)
Definition ids_ok (d : database) : Prop :=
  NoDup (map id (products d))
  /\ Forall (fun r => id r <= products_seq d) (products d).

(** ** The order of the stamps *)

(** The texts [{x:0<width>d}] for [x] from 0 to [n] have [width]
    characters each, and each sorts before the next. *)
Definition steps_up (width : nat) (n : Z) : bool :=
  forallb
    (fun i =>
       let x := Z.of_nat i in
       Nat.eqb (String.length (fmt_0d width x)) width
       && Nat.eqb (String.length (fmt_0d width (x + 1))) width
       && text_ltb (fmt_0d width x) (fmt_0d width (x + 1)))
    (seq 0 (Z.to_nat n)).

(** The minutes from the start of the proleptic Gregorian calendar to
    the time [t]. *)
Definition minute_number (t : datetime) : Z :=
  (ymd2ord (year t) (month t) (day t) * 24 + hour t) * 60 + minute t.

(** Every row of [d'] has the id of a row of [d], or an id above the
    counter of [d]. *)
Definition ids_come_from (d d' : database) : Prop :=
  forall r', In r' (products d') ->
             In (id r') (map id (products d)) \/ products_seq d < id r'.

(** * Properties *)

(** ** The calendar conversion *)

Lemma py_getitem_g_d_m (gm : Z) :
  1 <= gm <= 12 ->
  exists before, py_getitem g_d_m (gm - 1) = Some before /\ 0 <= before <= 334.
Proof.
  intros Hgm.
  assert (Hcases : gm = 1 \/ gm = 2 \/ gm = 3 \/ gm = 4 \/ gm = 5 \/ gm = 6 \/
                   gm = 7 \/ gm = 8 \/ gm = 9 \/ gm = 10 \/ gm = 11 \/ gm = 12)
    by lia.
  repeat (destruct Hcases as [-> | Hcases]); try subst gm;
    (eexists; split; [reflexivity | lia]).
Qed.

Lemma jalali_of_days_range (d : Z) :
  let '(jy, jm, jd) := jalali_of_days d in
  1 <= jm <= 12 /\ 1 <= jd <= 31.
Proof.
  unfold jalali_of_days.
  pose proof (Z.mod_pos_bound d 12053 ltac:(lia)) as H1.
  set (a := d mod 12053) in *.
  pose proof (Z.mod_pos_bound a 1461 ltac:(lia)) as H2.
  set (b := a mod 1461) in *.
  destruct (Z.gtb_spec b 365) as [Hb | Hb].
  - pose proof (Z.mod_pos_bound (b - 1) 365 ltac:(lia)) as H3.
    set (c := (b - 1) mod 365) in *.
    destruct (Z.ltb_spec c 186) as [Hc | Hc];
      Z.div_mod_to_equations; lia.
  - destruct (Z.ltb_spec b 186) as [Hc | Hc];
      Z.div_mod_to_equations; lia.
Qed.

Lemma gregorian_to_jalali_total (gy gm gd : Z) :
  1 <= gm <= 12 ->
  exists jy jm jd,
    gregorian_to_jalali gy gm gd = Some (jy, jm, jd)
    /\ 1 <= jm <= 12 /\ 1 <= jd <= 31.
Proof.
  intros Hgm. unfold gregorian_to_jalali.
  destruct (py_getitem_g_d_m gm Hgm) as [before [-> _]].
  match goal with
  | |- context [jalali_of_days ?d] =>
      pose proof (jalali_of_days_range d) as Hr;
      destruct (jalali_of_days d) as [[jy jm] jd]
  end.
  exists jy, jm, jd. split; [reflexivity | exact Hr].
Qed.

Lemma month_name_in_range (jm : Z) :
  1 <= jm <= 12 ->
  exists nm, nth_error months (Z.to_nat (jm - 1)) = Some nm
             /\ month_name jm = Some nm
             /\ nm <> unknown_month.
Proof.
  intros Hjm.
  assert (Hcases : jm = 1 \/ jm = 2 \/ jm = 3 \/ jm = 4 \/ jm = 5 \/ jm = 6 \/
                   jm = 7 \/ jm = 8 \/ jm = 9 \/ jm = 10 \/ jm = 11 \/ jm = 12)
    by lia.
  repeat (destruct Hcases as [-> | Hcases]); try subst jm;
    (eexists; split; [reflexivity | split; [reflexivity | discriminate]]).
Qed.

(** A few reference dates. *)
Example nowruz_1403 : gregorian_to_jalali 2024 3 20 = Some (1403, 1, 1).
Proof. reflexivity. Qed.

Example last_day_of_1403 : gregorian_to_jalali 2025 3 20 = Some (1403, 12, 30).
Proof. reflexivity. Qed.

Example nowruz_1404 : gregorian_to_jalali 2025 3 21 = Some (1404, 1, 1).
Proof. reflexivity. Qed.

Example y2k : gregorian_to_jalali 2000 1 1 = Some (1378, 10, 11).
Proof. reflexivity. Qed.

(** The table lookup wraps for [gm = 0] and fails beyond. *)
Example month_zero_wraps : py_getitem g_d_m (0 - 1) = Some 334.
Proof. reflexivity. Qed.

Example month_13_raises : gregorian_to_jalali 2024 13 1 = None.
Proof. reflexivity. Qed.

(** C1: for every valid Gregorian date, [gregorian_to_jalali] returns a
    result, which the date alone determines (no failure, nothing read
    besides the arguments), and [gregorian_to_jalali(2024, 3, 20)] is
    [(1403, 1, 1)]. *)
Theorem gregorian_to_jalali_deterministic (gy gm gd : Z) :
  valid_gregorian gy gm gd ->
  (exists j,
      gregorian_to_jalali gy gm gd = Some j
      /\ forall gy' gm' gd',
          (gy', gm', gd') = (gy, gm, gd) ->
          gregorian_to_jalali gy' gm' gd' = Some j)
  /\ gregorian_to_jalali 2024 3 20 = Some (1403, 1, 1).
Proof.
  intros [Hgm _]. split; [| reflexivity].
  destruct (gregorian_to_jalali_total gy gm gd Hgm) as (jy & jm & jd & E & _).
  exists (jy, jm, jd). split; [exact E |].
  intros gy' gm' gd' Heq. injection Heq as -> -> ->. exact E.
Qed.

Lemma gregorian_to_jalali_deterministic_witness :
  valid_gregorian 2024 3 20
  /\ (exists j,
         gregorian_to_jalali 2024 3 20 = Some j
         /\ forall gy' gm' gd',
             (gy', gm', gd') = (2024, 3, 20) ->
             gregorian_to_jalali gy' gm' gd' = Some j)
  /\ gregorian_to_jalali 2024 3 20 = Some (1403, 1, 1).
Proof.
  assert (H : valid_gregorian 2024 3 20)
    by (unfold valid_gregorian; vm_compute; intuition discriminate).
  split; [exact H | exact (gregorian_to_jalali_deterministic 2024 3 20 H)].
Defined.

(** C9: for every input with [1 <= gm <= 12], [gregorian_to_jalali]
    returns [(jy, jm, jd)] with [1 <= jm <= 12] and [1 <= jd <= 31], and
    the lookup [months[jm - 1]] of [get_jalali_date_persian_string] finds a
    month name. *)
Theorem jalali_month_day_in_range (gy gm gd : Z) :
  1 <= gm <= 12 ->
  exists jy jm jd,
    gregorian_to_jalali gy gm gd = Some (jy, jm, jd)
    /\ 1 <= jm <= 12 /\ 1 <= jd <= 31
    /\ (exists nm, py_getitem months (jm - 1) = Some nm
                   /\ nth_error months (Z.to_nat (jm - 1)) = Some nm)
    /\ forall h mi s us,
        exists text,
          get_jalali_date_persian_string (mk_datetime gy gm gd h mi s us)
          = Some text.
Proof.
  intros Hgm.
  destruct (gregorian_to_jalali_total gy gm gd Hgm)
    as (jy & jm & jd & E & Hjm & Hjd).
  exists jy, jm, jd. repeat split; try lia; try exact E.
  - destruct (month_name_in_range jm Hjm) as (nm & Hn & _).
    exists nm. split; [| exact Hn].
    unfold py_getitem. destruct (Z.leb_spec 0 (jm - 1)); [exact Hn | lia].
  - intros h mi s us. unfold get_jalali_date_persian_string. cbn [year month day].
    rewrite E.
    destruct (month_name_in_range jm Hjm) as (nm & _ & -> & _).
    eexists. reflexivity.
Qed.

Lemma jalali_month_day_in_range_witness :
  1 <= 11 <= 12
  /\ exists jy jm jd,
      gregorian_to_jalali 2026 11 3 = Some (jy, jm, jd)
      /\ 1 <= jm <= 12 /\ 1 <= jd <= 31
      /\ (exists nm, py_getitem months (jm - 1) = Some nm
                     /\ nth_error months (Z.to_nat (jm - 1)) = Some nm)
      /\ forall h mi s us,
          exists text,
            get_jalali_date_persian_string (mk_datetime 2026 11 3 h mi s us)
            = Some text.
Proof.
  split; [lia | apply (jalali_month_day_in_range 2026 11 3); lia].
Defined.

(** ** Rows and statements *)

Lemma select_by_id_none (pid : Z) (d : database) :
  select_by_id pid d = None <-> forall r, In r (products d) -> id r <> pid.
Proof.
  unfold select_by_id. split.
  - intros Hnone r Hin Heq.
    pose proof (find_none _ _ Hnone r Hin) as Hf. cbn in Hf.
    apply Z.eqb_neq in Hf. contradiction.
  - intros Hall. destruct (find _ _) as [r |] eqn:Hf; [| reflexivity].
    apply find_some in Hf. destruct Hf as [Hin Heq].
    apply Z.eqb_eq in Heq. exfalso. exact (Hall r Hin Heq).
Qed.

Lemma update_where_id_rows (pid : Z) (f : fields -> fields) (rows : list product) :
  Forall2
    (fun r r' =>
       id r' = id r
       /\ (id r <> pid -> r' = r)
       /\ (id r = pid -> cols r' = f (cols r)))
    rows (update_where_id pid f rows).
Proof.
  induction rows as [| r rows IH]; cbn; constructor; [| exact IH].
  destruct (Z.eqb_spec (id r) pid) as [Heq | Hne]; cbn.
  - split; [reflexivity |]. split; [intros Hne; contradiction | reflexivity].
  - split; [reflexivity |]. split; [reflexivity | intros Heq; contradiction].
Qed.

Lemma update_where_id_absent (pid : Z) (f : fields -> fields) (rows : list product) :
  (forall r, In r rows -> id r <> pid) -> update_where_id pid f rows = rows.
Proof.
  induction rows as [| r rows IH]; intros Hall; cbn; [reflexivity |].
  destruct (Z.eqb_spec (id r) pid) as [Heq | Hne].
  - exfalso. exact (Hall r (or_introl eq_refl) Heq).
  - f_equal. apply IH. intros r' Hin. apply Hall. right. exact Hin.
Qed.

Lemma set_products_same (d : database) : set_products d (products d) = d.
Proof. destruct d; reflexivity. Qed.

Section DBHelper_facts.
Context {python : PyInt}.

(** C8: for an existing product id, [mark_as_sold] keeps the number and
    the order of the rows of [products]; the row with that id keeps its
    id, product_code, name, category, base_number, weight, purity, notes
    and created_at; every other row is unchanged, and so is the rest of
    the database. *)
Theorem mark_as_sold_frame (pid : pyval) (pid_int : Z) (invoice : string)
  (sold_image sold_thumb : option string) (now : datetime) (d : database) :
  py_int pid = Some pid_int ->
  (exists r, In r (products d) /\ id r = pid_int) ->
  let d' := mark_as_sold pid invoice sold_image sold_thumb now d in
  Forall2
    (fun r r' =>
       id r' = id r
       /\ (id r <> pid_int -> r' = r)
       /\ kept_columns (cols r) (cols r'))
    (products d) (products d')
  /\ products_seq d' = products_seq d
  /\ bases d' = bases d
  /\ bases_seq d' = bases_seq d.
Proof.
  intros Hint _ d'. subst d'. unfold mark_as_sold. rewrite Hint.
  assert (Hrefl : Forall2
            (fun r r' => id r' = id r /\ (id r <> pid_int -> r' = r)
                         /\ kept_columns (cols r) (cols r'))
            (products d) (products d)).
  { induction (products d); constructor; [| assumption].
    unfold kept_columns. intuition reflexivity. }
  destruct (select_by_id pid_int d) as [r0 |];
    [| split; [exact Hrefl | auto]].
  destruct (get_jalali_datetime_string now) as [stamp |];
    [| split; [exact Hrefl | auto]].
  cbn [products products_seq bases bases_seq set_products].
  split; [| auto].
  eapply Forall2_impl; [| apply update_where_id_rows].
  cbn. intros r r' (Hid & Hother & Hthis).
  split; [exact Hid |]. split; [exact Hother |].
  destruct (Z.eq_dec (id r) pid_int) as [Heq | Hne].
  - rewrite (Hthis Heq). unfold kept_columns; cbn. intuition reflexivity.
  - rewrite (Hother Hne). unfold kept_columns. intuition reflexivity.
Qed.

(** C10: when [int(pid)] raises, [delete_product] and [mark_as_sold]
    return with the database (and the files) as they were; [mark_as_sold]
    also does when no row of [products] has the id. *)
Theorem unparsable_pid_changes_nothing (pid : pyval) (invoice : string)
  (sold_image sold_thumb : option string) (now : datetime)
  (d : database) (fs : filesystem) :
  (py_int pid = None ->
   delete_product pid (d, fs) = (d, fs)
   /\ mark_as_sold pid invoice sold_image sold_thumb now d = d)
  /\ (forall pid_int,
        py_int pid = Some pid_int ->
        (forall r, In r (products d) -> id r <> pid_int) ->
        mark_as_sold pid invoice sold_image sold_thumb now d = d).
Proof.
  split.
  - intros Hnone. unfold delete_product, mark_as_sold. rewrite Hnone.
    split; reflexivity.
  - intros pid_int Hint Habsent. unfold mark_as_sold. rewrite Hint.
    apply select_by_id_none in Habsent. rewrite Habsent. reflexivity.
Qed.

End DBHelper_facts.

(** ** Queries *)

Lemma insert_desc_perm (p : product) (l : list product) :
  Permutation (insert_desc p l) (p :: l).
Proof.
  induction l as [| q l IH]; cbn; [apply Permutation_refl |].
  destruct (id q <=? id p); [apply Permutation_refl |].
  eapply Permutation_trans; [apply perm_skip, IH | apply perm_swap].
Qed.

Lemma order_by_id_desc_perm (rows : list product) :
  Permutation (order_by_id_desc rows) rows.
Proof.
  induction rows as [| r rows IH]; cbn; [constructor |].
  eapply Permutation_trans; [apply insert_desc_perm |].
  apply perm_skip, IH.
Qed.

Lemma get_all_products_all (d : database) :
  Permutation (get_all_products true d) (products d).
Proof. apply order_by_id_desc_perm. Qed.

Lemma get_all_products_in (include_sold : bool) (d : database) (r : product) :
  In r (get_all_products include_sold d) -> In r (products d).
Proof.
  unfold get_all_products. intros Hin.
  apply (Permutation_in _ (order_by_id_desc_perm _)) in Hin.
  destruct include_sold; [exact Hin |].
  apply filter_In in Hin. tauto.
Qed.

Lemma find_product_in (include_sold : bool) (pid : Z) (d : database) (r : product) :
  find_product include_sold pid d = Some r -> In r (products d) /\ id r = pid.
Proof.
  unfold find_product. intros Hf. apply find_some in Hf.
  destruct Hf as [Hin Heq]. split.
  - eapply get_all_products_in; eassumption.
  - apply Z.eqb_eq; exact Heq.
Qed.

(** The rows come out with the largest id first. *)
Lemma insert_desc_sorted (p : product) (l : list product) :
  Sorted (fun a b => id b <= id a) l ->
  Sorted (fun a b => id b <= id a) (insert_desc p l).
Proof.
  induction l as [| q l IH]; intros Hs; cbn.
  - constructor; constructor.
  - destruct (Z.leb_spec (id q) (id p)) as [Hle | Hgt].
    + constructor; [exact Hs | constructor; exact Hle].
    + inversion Hs as [| ? ? Hs' Hhd]; subst.
      constructor; [apply IH; exact Hs' |].
      destruct l as [| q' l']; cbn.
      * constructor; lia.
      * destruct (id q' <=? id p); constructor; [lia |].
        inversion Hhd; subst; assumption.
Qed.

Lemma order_by_id_desc_sorted (rows : list product) :
  Sorted (fun a b => id b <= id a) (order_by_id_desc rows).
Proof.
  induction rows as [| r rows IH]; cbn; [constructor |].
  apply insert_desc_sorted, IH.
Qed.

(** ** Export *)

Lemma csv_row_by_header (p : product) : csv_row p = map (getitem p) csv_header.
Proof. reflexivity. Qed.

(** The cells of a row are the columns of the row of the table: every
    key of the header is a key of the dict, and its value is the value of
    the column, [None] for [NULL]. *)
Lemma csv_row_fields (p : product) :
  csv_row p
  = [Some (CInt (id p));
     Some (match product_code (cols p) with Some s => CStr s | None => CNone end);
     Some (match name (cols p) with Some s => CStr s | None => CNone end);
     Some (match category (cols p) with Some s => CStr s | None => CNone end);
     Some (match base_number (cols p) with Some s => CStr s | None => CNone end);
     Some (match weight (cols p) with Some x => CFloat x | None => CNone end);
     Some (match quantity (cols p) with Some n => CInt n | None => CNone end);
     Some (match purity (cols p) with Some s => CStr s | None => CNone end);
     Some (match notes (cols p) with Some s => CStr s | None => CNone end);
     Some (match image (cols p) with Some s => CStr s | None => CNone end);
     Some (match sold_invoice (cols p) with Some s => CStr s | None => CNone end);
     Some (match created_at (cols p) with Some s => CStr s | None => CNone end);
     Some (match sold_at (cols p) with Some s => CStr s | None => CNone end)].
Proof. reflexivity. Qed.

(** C5: [export_all_csv] writes the header id, product_code, name,
    category, base_number, weight, quantity, purity, notes, image,
    sold_invoice, created_at, sold_at and then, for every product of the
    table, sold or not, one row of thirteen cells: the id of the product
    and its columns product_code, name, category, base_number, weight,
    quantity, purity, notes, image, sold_invoice, created_at and sold_at,
    in this order, a [NULL] column being handed to the writer as [None];
    the rows come with the largest id first, and with no product no file
    is written. *)
Theorem export_all_csv_columns (d : database) :
  let text := fun o : option string =>
    match o with Some s => CStr s | None => CNone end in
  let int := fun o : option Z =>
    match o with Some n => CInt n | None => CNone end in
  let real := fun o : option float =>
    match o with Some x => CFloat x | None => CNone end in
  (products d = [] -> export_all_csv d = None)
  /\ (products d <> [] ->
      exists prods,
        export_all_csv d
        = Some (["id"; "product_code"; "name"; "category"; "base_number";
                 "weight"; "quantity"; "purity"; "notes"; "image";
                 "sold_invoice"; "created_at"; "sold_at"],
                map (fun p =>
                       [Some (CInt (id p));
                        Some (text (product_code (cols p)));
                        Some (text (name (cols p)));
                        Some (text (category (cols p)));
                        Some (text (base_number (cols p)));
                        Some (real (weight (cols p)));
                        Some (int (quantity (cols p)));
                        Some (text (purity (cols p)));
                        Some (text (notes (cols p)));
                        Some (text (image (cols p)));
                        Some (text (sold_invoice (cols p)));
                        Some (text (created_at (cols p)));
                        Some (text (sold_at (cols p)))])
                  prods)
        /\ Permutation prods (products d)
        /\ Sorted (fun a b => id b <= id a) prods).
Proof.
  cbv zeta. unfold export_all_csv. split.
  - intros Hempty. unfold get_all_products. rewrite Hempty. reflexivity.
  - intros Hne. exists (get_all_products true d).
    pose proof (get_all_products_all d) as Hperm.
    split; [| split; [exact Hperm |]].
    + destruct (get_all_products true d) as [| p ps] eqn:E.
      * apply Permutation_nil in Hperm. contradiction.
      * rewrite (map_ext _ _ csv_row_fields). reflexivity.
    + apply order_by_id_desc_sorted.
Qed.

(** ** The base photographs *)

Lemma text_eqb_refl (s : string) : text_eqb s s = true.
Proof. apply String.eqb_refl. Qed.

Lemma pair_is_same_pair (c b p : option string) (i : Z) (r : base) :
  same_pair r (mk_base i c b p) = pair_is c b r.
Proof. reflexivity. Qed.

Lemma existsb_same_pair (c b p : option string) (i : Z) (rows : list base) :
  existsb (fun q => same_pair q (mk_base i c b p)) rows
  = existsb (pair_is c b) rows.
Proof.
  induction rows as [| q rows IH]; cbn; [reflexivity |].
  rewrite IH. reflexivity.
Qed.

Lemma sql_eq_trans (x y z : option string) :
  sql_eq x y = true -> sql_eq z y = true -> sql_eq x z = true.
Proof.
  destruct x as [x |], y as [y |], z as [z |]; cbn; try discriminate.
  unfold text_eqb. intros H1 H2.
  apply String.eqb_eq in H1, H2. subst. apply String.eqb_refl.
Qed.

Lemma pair_is_both (c b : option string) (r r' : base) :
  pair_is c b r = true -> pair_is c b r' = true -> same_pair r r' = true.
Proof.
  unfold pair_is, same_pair. intros H1 H2.
  apply andb_true_iff in H1, H2. destruct H1, H2.
  apply andb_true_iff. split; eapply sql_eq_trans; eassumption.
Qed.

Lemma unique_pairs_count (c b : option string) (rows : list base) :
  unique_pairs rows = true ->
  (List.length (filter (pair_is c b) rows) <= 1)%nat.
Proof.
  induction rows as [| r rows IH]; cbn; [lia |].
  intros Hu. apply andb_true_iff in Hu. destruct Hu as [Hfresh Hu].
  specialize (IH Hu).
  destruct (pair_is c b r) eqn:Hr; cbn; [| exact IH].
  destruct (filter (pair_is c b) rows) as [| r' rest] eqn:Hf; cbn; [lia |].
  exfalso.
  assert (Hin : In r' (filter (pair_is c b) rows)) by (rewrite Hf; left; reflexivity).
  apply filter_In in Hin. destruct Hin as [Hin Hr'].
  apply negb_true_iff in Hfresh.
  assert (Hex : existsb (same_pair r) rows = true).
  { apply existsb_exists. exists r'. split; [exact Hin |].
    eapply pair_is_both; eassumption. }
  congruence.
Qed.

Lemma unique_pairs_app (rows : list base) (r : base) :
  unique_pairs rows = true ->
  existsb (fun q => same_pair q r) rows = false ->
  unique_pairs (rows ++ [r])%list = true.
Proof.
  induction rows as [| q rows IH]; cbn; intros Hu Hnew; [reflexivity |].
  apply andb_true_iff in Hu. destruct Hu as [Hfresh Hu].
  apply orb_false_iff in Hnew. destruct Hnew as [Hq Hnew].
  apply andb_true_iff. split; [| apply IH; assumption].
  apply negb_true_iff. apply negb_true_iff in Hfresh.
  rewrite existsb_app, Hfresh. cbn. rewrite Hq. reflexivity.
Qed.

Lemma filter_none {A : Type} (f : A -> bool) (l : list A) :
  existsb f l = false -> filter f l = [].
Proof.
  induction l as [| x l IH]; cbn; [reflexivity |].
  intros H. apply orb_false_iff in H. destruct H as [-> H]. exact (IH H).
Qed.

Lemma find_none_app {A : Type} (f : A -> bool) (l : list A) (x : A) :
  existsb f l = false -> f x = true -> find f (l ++ [x])%list = Some x.
Proof.
  induction l as [| y l IH]; cbn; intros H Hx.
  - rewrite Hx. reflexivity.
  - apply orb_false_iff in H. destruct H as [-> H]. exact (IH H Hx).
Qed.

Section set_image.
Variables (c b p : option string).

Let retarget (r : base) : base :=
  if pair_is c b r
  then mk_base (base_id r) (b_category r) (b_base_number r) p
  else r.

Lemma pair_is_retarget (c' b' : option string) (r : base) :
  pair_is c' b' (retarget r) = pair_is c' b' r.
Proof. unfold retarget. destruct (pair_is c b r); reflexivity. Qed.

Lemma filter_retarget (rows : list base) :
  filter (pair_is c b) (map retarget rows)
  = map retarget (filter (pair_is c b) rows).
Proof.
  induction rows as [| r rows IH]; cbn; [reflexivity |].
  rewrite pair_is_retarget. destruct (pair_is c b r); cbn; rewrite IH; reflexivity.
Qed.

Lemma find_retarget (rows : list base) :
  existsb (pair_is c b) rows = true ->
  exists r, find (pair_is c b) (map retarget rows) = Some r /\ b_image r = p.
Proof.
  induction rows as [| r rows IH]; cbn; [discriminate |].
  rewrite pair_is_retarget. destruct (pair_is c b r) eqn:Hr; cbn.
  - intros _. exists (retarget r). split; [reflexivity |].
    unfold retarget. rewrite Hr. reflexivity.
  - exact IH.
Qed.

Lemma same_pair_retarget (r q : base) :
  same_pair (retarget r) (retarget q) = same_pair r q.
Proof.
  unfold retarget, same_pair.
  destruct (pair_is c b r), (pair_is c b q); reflexivity.
Qed.

Lemma unique_pairs_retarget (rows : list base) :
  unique_pairs (map retarget rows) = unique_pairs rows.
Proof.
  induction rows as [| r rows IH]; cbn; [reflexivity |].
  rewrite IH. f_equal. f_equal.
  clear IH. induction rows as [| q rows IH]; cbn; [reflexivity |].
  rewrite same_pair_retarget, IH. reflexivity.
Qed.

End set_image.

(** C7, as the program has it: for a category [c] that [strip] leaves as it
    is, a base number [b] and an image path [p], on a table that satisfies
    its UNIQUE constraint, after [set_base_image(c, b, p)] exactly one row
    of [bases] has the pair [(c, b)] and [get_base_image(c, b)] returns
    [p]. *)
Theorem set_then_get_base_image (c b p : string) (d : database) :
  strip c = c ->
  unique_pairs (bases d) = true ->
  let d' := set_base_image (Some c) (Some b) (Some p) d in
  List.length (filter (pair_is (Some c) (Some b)) (bases d')) = 1%nat
  /\ get_base_image c (Some b) d' = Some p
  /\ unique_pairs (bases d') = true
  /\ products d' = products d.
Proof.
  intros Hstrip Hu d'. subst d'. unfold set_base_image, get_base_image.
  rewrite Hstrip.
  destruct (existsb (pair_is (Some c) (Some b)) (bases d)) eqn:Hex;
    cbn [bases products set_bases].
  - split; [| split; [| split; [| reflexivity]]].
    + rewrite filter_retarget, length_map.
      pose proof (unique_pairs_count (Some c) (Some b) _ Hu) as Hle.
      apply existsb_exists in Hex. destruct Hex as (r & Hin & Hr).
      assert (Hin' : In r (filter (pair_is (Some c) (Some b)) (bases d)))
        by (apply filter_In; split; assumption).
      destruct (filter (pair_is (Some c) (Some b)) (bases d));
        [contradiction | cbn in *; lia].
    + destruct (find_retarget (Some c) (Some b) (Some p) _ Hex) as (r & -> & Hr).
      exact Hr.
    + rewrite unique_pairs_retarget. exact Hu.
  - set (new := mk_base _ (Some c) (Some b) (Some p)).
    assert (Hnew : pair_is (Some c) (Some b) new = true).
    { unfold pair_is, new; cbn. rewrite !text_eqb_refl. reflexivity. }
    assert (Hu' : unique_pairs (bases d ++ [new])%list = true).
    { apply unique_pairs_app; [exact Hu |].
      unfold new. rewrite existsb_same_pair. exact Hex. }
    rewrite Hu'. cbn [bases products set_bases].
    split; [| split; [| split; [exact Hu' | reflexivity]]].
    + rewrite filter_app, (filter_none _ _ Hex). cbn. rewrite Hnew. reflexivity.
    + rewrite (find_none_app _ _ _ Hex Hnew). reflexivity.
Qed.

(** C7, as the claim states it, fails for a category with a leading
    space: [set_base_image] stores the category as given, [get_base_image]
    looks for the stripped one. *)
Lemma set_then_get_base_image_counterexample :
  ~ (forall c b p : string,
        get_base_image c (Some b)
          (set_base_image (Some c) (Some b) (Some p) empty_database)
        = Some p).
Proof.
  intros H. specialize (H " انگشتر" "12" "/data/images/a.jpg").
  vm_compute in H. discriminate H.
Qed.

Lemma set_then_get_base_image_witness :
  strip "انگشتر" = "انگشتر"
  /\ unique_pairs (bases empty_database) = true
  /\ get_base_image "انگشتر" (Some "12")
       (set_base_image (Some "انگشتر") (Some "12") (Some "/data/images/a.jpg")
          empty_database)
     = Some "/data/images/a.jpg".
Proof.
  split; [reflexivity | split; [reflexivity |]].
  apply (set_then_get_base_image "انگشتر" "12" "/data/images/a.jpg" empty_database);
    reflexivity.
Defined.

(** ** What the statements do to the rows of [products] *)

Lemma insert_product_ok (f : fields) (d d' : database) (i : Z) :
  insert_product f d = Ok (d', i) ->
  products d' = (products d ++ [mk_product i f])%list
  /\ unique_codes (products d') = true
  /\ bases d' = bases d.
Proof.
  unfold insert_product.
  destruct (unique_codes _) eqn:Hu; [| discriminate].
  intros H. injection H as <- <-. cbn. auto.
Qed.

Lemma update_product_ok (pid : Z) (p : fields) (d d' : database) :
  update_product pid p d = Ok d' ->
  products d' = update_where_id pid (fun _ => p) (products d)
  /\ unique_codes (products d') = true
  /\ bases d' = bases d.
Proof.
  unfold update_product.
  destruct (unique_codes _) eqn:Hu; [| discriminate].
  intros H. injection H as <-. cbn. auto.
Qed.

Lemma Forall_update_where_id (P : product -> Prop) (pid : Z)
  (f : fields -> fields) (rows : list product) :
  Forall P rows ->
  (forall r, In r rows -> id r = pid -> P (mk_product (id r) (f (cols r)))) ->
  Forall P (update_where_id pid f rows).
Proof.
  induction rows as [| r rows IH]; intros Hall Hnew; cbn; constructor.
  - destruct (Z.eqb_spec (id r) pid) as [Heq | Hne].
    + apply Hnew; [left; reflexivity | exact Heq].
    + inversion Hall; assumption.
  - apply IH; [inversion Hall; assumption |].
    intros r' Hin. apply Hnew. right. exact Hin.
Qed.

Lemma Forall_filter (P : product -> Prop) (keep : product -> bool)
  (rows : list product) :
  Forall P rows -> Forall P (filter keep rows).
Proof.
  intros Hall. apply Forall_forall. intros r Hin.
  apply filter_In in Hin. destruct Hin as [Hin _].
  revert r Hin. apply Forall_forall. exact Hall.
Qed.

Lemma shrinks_refl (d : database) : shrinks d d.
Proof.
  split; [| reflexivity]. exists (fun _ => true).
  induction (products d) as [| r rows IH]; cbn; [reflexivity |].
  f_equal. exact IH.
Qed.

Lemma filter_filter (f g : product -> bool) (rows : list product) :
  filter g (filter f rows) = filter (fun r => f r && g r) rows.
Proof.
  induction rows as [| r rows IH]; cbn; [reflexivity |].
  destruct (f r); cbn; [destruct (g r) |]; rewrite IH; reflexivity.
Qed.

Lemma shrinks_trans (d1 d2 d3 : database) :
  shrinks d1 d2 -> shrinks d2 d3 -> shrinks d1 d3.
Proof.
  intros [[k1 H1] B1] [[k2 H2] B2]. split; [| congruence].
  exists (fun r => k1 r && k2 r). rewrite H2, H1. apply filter_filter.
Qed.

Lemma delete_shrinks (pid : Z) (d : database) :
  shrinks d (set_products d (delete_where_id pid (products d))).
Proof. split; [eexists; reflexivity | reflexivity]. Qed.

Lemma delete_old_row_shrinks (db_path : string) (d : database)
  (fs : filesystem) (n : Z) (r : product) :
  shrinks d (fst (fst (delete_old_row db_path (d, fs, n) r))).
Proof.
  unfold delete_old_row.
  destruct (remove_if_exists (image (cols r)) fs) as [fs1 |];
    [| apply shrinks_refl].
  destruct (remove_if_exists (thumb (cols r)) fs1) as [fs2 |];
    [| apply shrinks_refl].
  apply delete_shrinks.
Qed.

Lemma delete_old_rows_shrink (db_path : string) (rows : list product)
  (d : database) (fs : filesystem) (n : Z) :
  shrinks d (fst (fst (fold_left (delete_old_row db_path) rows (d, fs, n)))).
Proof.
  revert d fs n. induction rows as [| r rows IH]; intros d fs n; cbn [fold_left].
  - apply shrinks_refl.
  - pose proof (delete_old_row_shrinks db_path d fs n r) as H1.
    destruct (delete_old_row db_path (d, fs, n) r) as [[d1 fs1] n1].
    eapply shrinks_trans; [exact H1 | apply IH].
Qed.

Lemma delete_old_sold_products_shrinks (db_path : string) (months : Z)
  (now : datetime) (d : database) (fs : filesystem) :
  shrinks d (fst (fst (delete_old_sold_products db_path months now (d, fs)))).
Proof.
  unfold delete_old_sold_products.
  destruct (minus_days now (months * 30)); [| apply shrinks_refl].
  apply delete_old_rows_shrink.
Qed.

Lemma delete_product_shrinks `{PyInt} (pid : pyval) (d : database)
  (fs : filesystem) :
  shrinks d (fst (delete_product pid (d, fs))).
Proof.
  unfold delete_product. destruct (py_int pid); [| apply shrinks_refl].
  apply delete_shrinks.
Qed.

Lemma confirm_delete_shrinks `{PyInt} (pid : Z) (d : database)
  (fs : filesystem) :
  shrinks d (fst (confirm_delete pid (d, fs))).
Proof.
  unfold confirm_delete. cbn [fst].
  destruct (find_product true pid d); [| apply shrinks_refl].
  apply delete_product_shrinks.
Qed.

(** ** Sold rows have quantity zero *)

Lemma shrinks_sold_zero (d d' : database) :
  shrinks d d' -> all_sold_zero d -> all_sold_zero d'.
Proof.
  intros [[keep Hk] _] Hall. unfold all_sold_zero. rewrite Hk.
  apply Forall_filter. exact Hall.
Qed.

Lemma add_product_sold_zero (p : fields) (d d' : database) (i : Z) :
  add_product p d = Ok (d', i) ->
  (truthy (sold_invoice p) = true -> quantity p = Some 0) ->
  all_sold_zero d -> all_sold_zero d'.
Proof.
  unfold add_product. intros Hadd Hp Hall.
  apply insert_product_ok in Hadd. destruct Hadd as (Hrows & _).
  unfold all_sold_zero. rewrite Hrows. apply Forall_app. split; [exact Hall |].
  constructor; [| constructor].
  unfold sold_zero, sold. cbn.
  destruct (truthy (sold_invoice p)) eqn:Ht; [intros _; apply Hp; reflexivity |].
  cbn. discriminate.
Qed.

Lemma update_sold_zero (pid : Z) (f : fields -> fields) (d : database) :
  (forall f0, truthy (sold_invoice (f f0)) = true -> quantity (f f0) = Some 0) ->
  all_sold_zero d ->
  all_sold_zero (set_products d (update_where_id pid f (products d))).
Proof.
  intros Hf Hall. unfold all_sold_zero. cbn.
  apply Forall_update_where_id; [exact Hall |].
  intros r _ _. unfold sold_zero, sold. cbn. apply Hf.
Qed.

Section sales.
Context {python : PyInt}.

Lemma mark_as_sold_sold_zero (pid : pyval) (invoice : string)
  (si st : option string) (now : datetime) (d : database) :
  all_sold_zero d -> all_sold_zero (mark_as_sold pid invoice si st now d).
Proof.
  intros Hall. unfold mark_as_sold.
  destruct (py_int pid) as [pid_int |]; [| exact Hall].
  destruct (select_by_id pid_int d) as [r |]; [| exact Hall].
  destruct (get_jalali_datetime_string now) as [stamp |]; [| exact Hall].
  apply update_sold_zero; [| exact Hall]. reflexivity.
Qed.

Lemma do_sell_with_invoice_sold_zero (prod : product) (invoice_str : string)
  (env : sale_env) (now : datetime) (d : database) :
  sold_zero prod ->
  all_sold_zero d ->
  all_sold_zero (do_sell_with_invoice prod invoice_str env now d).
Proof.
  intros Hprod Hall. unfold do_sell_with_invoice.
  destruct (_ =? "")%string; [exact Hall |].
  destruct (negb (sold_dir_made env)); [exact Hall |].
  destruct (quantity (cols prod)) as [q |] eqn:Hq;
    [| apply mark_as_sold_sold_zero; exact Hall].
  destruct (negb (q =? 0) && (q >? 1)) eqn:Hmany;
    [| apply mark_as_sold_sold_zero; exact Hall].
  apply andb_true_iff in Hmany. destruct Hmany as [_ Hgt].
  assert (Hunsold : truthy (sold_invoice (cols prod)) = false).
  { destruct (truthy (sold_invoice (cols prod))) eqn:Ht; [| reflexivity].
    specialize (Hprod Ht). rewrite Hq in Hprod. injection Hprod as ->.
    discriminate Hgt. }
  match goal with
  | |- context [match ?x with Some _ => _ | None => d end] =>
      destruct x as [stamp0 |]; [| exact Hall]
  end.
  destruct (update_product _ _ d) as [d1 |] eqn:Hupd; [| exact Hall].
  assert (Hall1 : all_sold_zero d1).
  { apply update_product_ok in Hupd. destruct Hupd as (Hrows & _).
    unfold all_sold_zero. rewrite Hrows.
    apply Forall_update_where_id; [exact Hall |].
    intros r _ _. unfold sold_zero, sold. cbn. rewrite Hunsold. discriminate. }
  destruct (name (cols prod)) as [nm |]; [| exact Hall1].
  destruct (get_jalali_datetime_string now) as [stamp |]; [| exact Hall1].
  destruct (add_product _ d1) as [[d2 i] |] eqn:Hadd; [| exact Hall1].
  eapply add_product_sold_zero; [exact Hadd | | exact Hall1].
  reflexivity.
Qed.

End sales.

Lemma restore_sold_product_sold_zero (pid : Z) (d : database) :
  all_sold_zero d -> all_sold_zero (restore_sold_product pid d).
Proof.
  intros Hall. unfold restore_sold_product.
  destruct (find_product true pid d); [| exact Hall].
  apply update_sold_zero; [| exact Hall]. cbn. discriminate.
Qed.

Lemma restore_invoice_products_sold_zero (invoice : string) (d : database) :
  all_sold_zero d -> all_sold_zero (restore_invoice_products invoice d).
Proof.
  unfold restore_invoice_products.
  generalize (filter
                (fun p => match sold_invoice (cols p) with
                          | Some i => (i =? invoice)%string
                          | None => false
                          end)
                (get_all_products true d)).
  intros chosen. revert d.
  induction chosen as [| p chosen IH]; intros d Hall; cbn [fold_left];
    [exact Hall |].
  apply IH. apply update_sold_zero; [| exact Hall]. cbn. discriminate.
Qed.

Lemma save_entries_sold_zero (category base_number : string) (now : datetime)
  (entries : list entry) (idx : nat) (d d' : database) :
  save_entries category base_number now idx entries d = Some d' ->
  all_sold_zero d -> all_sold_zero d'.
Proof.
  revert idx d. induction entries as [| e rest IH]; intros idx d; cbn.
  - intros H. injection H as <-. auto.
  - unfold save_entry.
    destruct (unused_code _ _ _ _) as [code |]; [| discriminate].
    destruct (get_jalali_datetime_string now) as [stamp |];
      [| intros H; injection H as <-; auto].
    destruct (add_product _ d) as [[d1 i] |] eqn:Hadd;
      [| intros H; injection H as <-; auto].
    intros Hrest Hall. eapply IH; [exact Hrest |].
    eapply add_product_sold_zero; [exact Hadd | | exact Hall].
    cbn. discriminate.
Qed.

Lemma in_sold_zero (d : database) (r : product) :
  all_sold_zero d -> In r (products d) -> sold_zero r.
Proof. intros Hall. revert r. apply Forall_forall. exact Hall. Qed.

Lemma run_sales_invariant `{PyInt} (e : event) (a a' : app) :
  run e a = Some a' -> sales_invariant a -> sales_invariant a'.
Proof.
  intros Hrun [Hall Hcur].
  destruct e; unfold run in Hrun.
  - destruct (save_batch_products _ _ _ _ _) as [d' |] eqn:Hs; [| discriminate].
    injection Hrun as <-. split; [| exact Hcur]. cbn [db].
    eapply save_entries_sold_zero; [exact Hs | exact Hall].
  - destruct (find_product true pid (db a)) as [prod |] eqn:Hf;
      injection Hrun as <-; [| split; assumption].
    split; [exact Hall |]. cbn. intros p Hp. injection Hp as <-.
    apply find_product_in in Hf. eapply in_sold_zero; [exact Hall | tauto].
  - destruct (find_product false pid (db a)) as [prod |] eqn:Hf;
      injection Hrun as <-; [| split; assumption].
    split; [exact Hall |]. cbn. intros p Hp. injection Hp as <-.
    apply find_product_in in Hf. eapply in_sold_zero; [exact Hall | tauto].
  - destruct (current_product a) as [prod |] eqn:Hc; injection Hrun as <-.
    + split; cbn.
      * apply do_sell_with_invoice_sold_zero;
          [apply Hcur; reflexivity | exact Hall].
      * exact Hcur.
    + split; [exact Hall |]. intros p Hp. congruence.
  - injection Hrun as <-. split; [| exact Hcur]. cbn [db].
    apply restore_sold_product_sold_zero, Hall.
  - injection Hrun as <-. split; [| exact Hcur]. cbn [db].
    apply restore_invoice_products_sold_zero, Hall.
  - injection Hrun as <-. split; [| exact Hcur]. cbn [db].
    eapply shrinks_sold_zero;
      [exact (confirm_delete_shrinks pid (db a) fs) | exact Hall].
  - injection Hrun as <-. split; [| exact Hcur]. cbn [db].
    eapply shrinks_sold_zero;
      [exact (delete_old_sold_products_shrinks db_path 3 now (db a) fs)
      | exact Hall].
  - injection Hrun as <-. split; [| exact Hcur]. cbn [db].
    unfold all_sold_zero, set_base_image.
    destruct (existsb _ _); [exact Hall |].
    destruct (unique_pairs _); exact Hall.
  - injection Hrun as <-. split; [| exact Hcur]. constructor.
Qed.

Lemma reachable_sales_invariant `{PyInt} (a : app) :
  reachable a -> sales_invariant a.
Proof.
  induction 1 as [| e a a' _ IH Hrun].
  - split; [constructor | discriminate].
  - eapply run_sales_invariant; eassumption.
Qed.

Lemma get_jalali_datetime_string_total (now : datetime) :
  1 <= month now <= 12 ->
  exists stamp, get_jalali_datetime_string now = Some stamp.
Proof.
  intros Hm. unfold get_jalali_datetime_string.
  destruct (gregorian_to_jalali_total (year now) (month now) (day now) Hm)
    as (jy & jm & jd & -> & _).
  eexists. reflexivity.
Qed.

Lemma truthy_nonempty (s : string) : s <> "" -> truthy (Some s) = true.
Proof.
  intros Hs. cbn. apply negb_true_iff. apply String.eqb_neq. exact Hs.
Qed.

Lemma Forall2_left {A B : Type} (R : A -> B -> Prop) (l : list A)
  (l' : list B) (x : A) :
  Forall2 R l l' -> In x l -> exists y, In y l' /\ R x y.
Proof.
  induction 1 as [| a b l l' Hab _ IH]; intros Hin; [contradiction |].
  destruct Hin as [<- | Hin].
  - exists b. split; [left; reflexivity | exact Hab].
  - destruct (IH Hin) as (y & Hy & Hxy). exists y. split; [right |]; assumption.
Qed.

Lemma Forall2_right {A B : Type} (R : A -> B -> Prop) (l : list A)
  (l' : list B) (y : B) :
  Forall2 R l l' -> In y l' -> exists x, In x l /\ R x y.
Proof.
  induction 1 as [| a b l l' Hab _ IH]; intros Hin; [contradiction |].
  destruct Hin as [<- | Hin].
  - exists a. split; [left; reflexivity | exact Hab].
  - destruct (IH Hin) as (x & Hx & Hxy). exists x. split; [right |]; assumption.
Qed.

Lemma mark_as_sold_sets `{PyInt} (pid : pyval) (pid_int : Z) (invoice : string)
  (si st : option string) (now : datetime) (d : database) (r : product) :
  py_int pid = Some pid_int ->
  In r (products d) -> id r = pid_int ->
  1 <= month now <= 12 ->
  exists stamp,
    get_jalali_datetime_string now = Some stamp
    /\ (exists r', In r' (products (mark_as_sold pid invoice si st now d))
                   /\ id r' = pid_int)
    /\ forall r',
        In r' (products (mark_as_sold pid invoice si st now d)) ->
        id r' = pid_int ->
        quantity (cols r') = Some 0
        /\ sold_at (cols r') = Some stamp
        /\ sold_invoice (cols r') = Some invoice.
Proof.
  intros Hint Hin Hid Hm.
  destruct (get_jalali_datetime_string_total now Hm) as [stamp Hstamp].
  exists stamp. split; [exact Hstamp |].
  unfold mark_as_sold. rewrite Hint, Hstamp.
  destruct (select_by_id pid_int d) as [r0 |] eqn:Hsel.
  2:{ exfalso. exact (proj1 (select_by_id_none pid_int d) Hsel r Hin Hid). }
  cbn [products set_products].
  pose proof (update_where_id_rows pid_int
                (sold_columns invoice
                   (if truthy si then si else image (cols r0))
                   (if truthy st then st else thumb (cols r0)) stamp)
                (products d)) as Hrows.
  split.
  - destruct (Forall2_left _ _ _ r Hrows Hin) as (r' & Hin' & Hr').
    exists r'. split; [exact Hin' | lia].
  - intros r' Hin' Hid'.
    destruct (Forall2_right _ _ _ r' Hrows Hin') as (q & _ & Hq).
    destruct Hq as (Hsame & _ & Hcols).
    rewrite Hcols by lia. cbn. auto.
Qed.

(** C3: in every state that the application reaches from a new database
    (adding products, selling, restoring, deleting, cleaning up), a row
    of [products] whose sold_invoice is not empty has quantity 0; and
    [mark_as_sold] on an existing row sets its quantity to 0, its sold_at
    to the time stamp and its sold_invoice to the invoice. *)
Theorem sold_rows_have_quantity_zero `{PyInt} (a : app) :
  reachable a ->
  (forall r s,
      In r (products (db a)) ->
      sold_invoice (cols r) = Some s -> s <> "" ->
      quantity (cols r) = Some 0)
  /\ forall pid pid_int invoice si st now r,
      py_int pid = Some pid_int ->
      In r (products (db a)) -> id r = pid_int ->
      1 <= month now <= 12 ->
      exists stamp,
        get_jalali_datetime_string now = Some stamp
        /\ (exists r',
               In r' (products (mark_as_sold pid invoice si st now (db a)))
               /\ id r' = pid_int)
        /\ forall r',
            In r' (products (mark_as_sold pid invoice si st now (db a))) ->
            id r' = pid_int ->
            quantity (cols r') = Some 0
            /\ sold_at (cols r') = Some stamp
            /\ sold_invoice (cols r') = Some invoice.
Proof.
  intros Hreach. split.
  - intros r s Hin Hs Hne.
    destruct (reachable_sales_invariant a Hreach) as [Hall _].
    apply (in_sold_zero _ _ Hall Hin).
    unfold sold. rewrite Hs. apply truthy_nonempty. exact Hne.
  - intros pid pid_int invoice si st now r. apply mark_as_sold_sets.
Qed.

(** ** Product codes are unique *)

Lemma codes_of_filter_in (keep : product -> bool) (rows : list product)
  (c : string) :
  existsb (text_eqb c) (codes_of (filter keep rows)) = true ->
  existsb (text_eqb c) (codes_of rows) = true.
Proof.
  induction rows as [| r rows IH]; cbn; [auto |].
  destruct (keep r); cbn; destruct (product_code (cols r)); cbn; auto.
  - intros H. apply orb_true_iff in H. apply orb_true_iff.
    destruct H; [left | right]; auto.
  - intros H. apply orb_true_iff. right. auto.
Qed.

Lemma unique_codes_filter (keep : product -> bool) (rows : list product) :
  unique_codes rows = true -> unique_codes (filter keep rows) = true.
Proof.
  unfold unique_codes.
  induction rows as [| r rows IH]; cbn; [auto |].
  destruct (keep r); cbn; destruct (product_code (cols r)) as [c |]; cbn; auto.
  - intros H. apply andb_true_iff in H. destruct H as [Hfresh Hd].
    apply andb_true_iff. split; [| auto].
    apply negb_true_iff. apply negb_true_iff in Hfresh.
    destruct (existsb (text_eqb c) (codes_of (filter keep rows))) eqn:E;
      [| reflexivity].
    apply codes_of_filter_in in E. congruence.
  - intros H. apply andb_true_iff in H. destruct H as [_ Hd]. auto.
Qed.

Lemma shrinks_unique_codes (d d' : database) :
  shrinks d d' ->
  unique_codes (products d) = true -> unique_codes (products d') = true.
Proof.
  intros [[keep Hk] _] Hu. rewrite Hk. apply unique_codes_filter. exact Hu.
Qed.

Lemma codes_of_update (pid : Z) (f : fields -> fields) (rows : list product) :
  (forall f0, product_code (f f0) = product_code f0) ->
  codes_of (update_where_id pid f rows) = codes_of rows.
Proof.
  intros Hf. unfold update_where_id.
  induction rows as [| r rows IH]; cbn; [reflexivity |].
  destruct (id r =? pid); cbn; rewrite ?Hf, IH; reflexivity.
Qed.

Lemma update_unique_codes (pid : Z) (f : fields -> fields) (d : database) :
  (forall f0, product_code (f f0) = product_code f0) ->
  unique_codes (products d) = true ->
  unique_codes (products (set_products d (update_where_id pid f (products d))))
  = true.
Proof.
  intros Hf Hu. cbn. unfold unique_codes. rewrite codes_of_update; assumption.
Qed.

Lemma mark_as_sold_unique_codes `{PyInt} (pid : pyval) (invoice : string)
  (si st : option string) (now : datetime) (d : database) :
  unique_codes (products d) = true ->
  unique_codes (products (mark_as_sold pid invoice si st now d)) = true.
Proof.
  intros Hu. unfold mark_as_sold.
  destruct (py_int pid) as [pid_int |]; [| exact Hu].
  destruct (select_by_id pid_int d) as [r |]; [| exact Hu].
  destruct (get_jalali_datetime_string now) as [stamp |]; [| exact Hu].
  apply update_unique_codes; [reflexivity | exact Hu].
Qed.

Lemma do_sell_with_invoice_unique_codes `{PyInt} (prod : product)
  (invoice_str : string) (env : sale_env) (now : datetime) (d : database) :
  unique_codes (products d) = true ->
  unique_codes (products (do_sell_with_invoice prod invoice_str env now d))
  = true.
Proof.
  intros Hu. unfold do_sell_with_invoice.
  destruct (_ =? "")%string; [exact Hu |].
  destruct (negb (sold_dir_made env)); [exact Hu |].
  destruct (quantity (cols prod)) as [q |];
    [| apply mark_as_sold_unique_codes; exact Hu].
  destruct (negb (q =? 0) && (q >? 1));
    [| apply mark_as_sold_unique_codes; exact Hu].
  match goal with
  | |- context [match ?x with Some _ => _ | None => d end] =>
      destruct x as [stamp0 |]; [| exact Hu]
  end.
  destruct (update_product _ _ d) as [d1 |] eqn:Hupd; [| exact Hu].
  apply update_product_ok in Hupd. destruct Hupd as (_ & Hu1 & _).
  destruct (name (cols prod)) as [nm |]; [| exact Hu1].
  destruct (get_jalali_datetime_string now) as [stamp |]; [| exact Hu1].
  destruct (add_product _ d1) as [[d2 i] |] eqn:Hadd; [| exact Hu1].
  unfold add_product in Hadd. apply insert_product_ok in Hadd. tauto.
Qed.

Lemma restore_sold_product_unique_codes (pid : Z) (d : database) :
  unique_codes (products d) = true ->
  unique_codes (products (restore_sold_product pid d)) = true.
Proof.
  intros Hu. unfold restore_sold_product.
  destruct (find_product true pid d); [| exact Hu].
  apply update_unique_codes; [reflexivity | exact Hu].
Qed.

Lemma restore_invoice_products_unique_codes (invoice : string) (d : database) :
  unique_codes (products d) = true ->
  unique_codes (products (restore_invoice_products invoice d)) = true.
Proof.
  unfold restore_invoice_products.
  generalize (filter
                (fun p => match sold_invoice (cols p) with
                          | Some i => (i =? invoice)%string
                          | None => false
                          end)
                (get_all_products true d)).
  intros chosen. revert d.
  induction chosen as [| p chosen IH]; intros d Hu; cbn [fold_left];
    [exact Hu |].
  apply IH. apply update_unique_codes; [reflexivity | exact Hu].
Qed.

Lemma save_entries_unique_codes (category base_number : string)
  (now : datetime) (entries : list entry) (idx : nat) (d d' : database) :
  save_entries category base_number now idx entries d = Some d' ->
  unique_codes (products d) = true -> unique_codes (products d') = true.
Proof.
  revert idx d. induction entries as [| e rest IH]; intros idx d; cbn.
  - intros H. injection H as <-. auto.
  - unfold save_entry.
    destruct (unused_code _ _ _ _) as [code |]; [| discriminate].
    destruct (get_jalali_datetime_string now) as [stamp |];
      [| intros H; injection H as <-; auto].
    destruct (add_product _ d) as [[d1 i] |] eqn:Hadd;
      [| intros H; injection H as <-; auto].
    intros Hrest _. eapply IH; [exact Hrest |].
    unfold add_product in Hadd. apply insert_product_ok in Hadd. tauto.
Qed.

Lemma run_unique_codes `{PyInt} (e : event) (a a' : app) :
  run e a = Some a' ->
  unique_codes (products (db a)) = true ->
  unique_codes (products (db a')) = true.
Proof.
  intros Hrun Hu.
  destruct e; unfold run in Hrun.
  - destruct (save_batch_products _ _ _ _ _) as [d' |] eqn:Hs; [| discriminate].
    injection Hrun as <-. cbn [db].
    eapply save_entries_unique_codes; [exact Hs | exact Hu].
  - destruct (find_product true pid (db a)); injection Hrun as <-; exact Hu.
  - destruct (find_product false pid (db a)); injection Hrun as <-; exact Hu.
  - destruct (current_product a) as [prod |]; injection Hrun as <-;
      [| exact Hu].
    cbn [db]. apply do_sell_with_invoice_unique_codes, Hu.
  - injection Hrun as <-. cbn [db].
    apply restore_sold_product_unique_codes, Hu.
  - injection Hrun as <-. cbn [db].
    apply restore_invoice_products_unique_codes, Hu.
  - injection Hrun as <-. cbn [db].
    exact (shrinks_unique_codes _ _ (confirm_delete_shrinks pid (db a) fs) Hu).
  - injection Hrun as <-. cbn [db].
    exact (shrinks_unique_codes _ _
             (delete_old_sold_products_shrinks db_path 3 now (db a) fs) Hu).
  - injection Hrun as <-. cbn [db]. unfold set_base_image.
    destruct (existsb _ _); [exact Hu |].
    destruct (unique_pairs _); exact Hu.
  - injection Hrun as <-. reflexivity.
Qed.

Lemma reachable_unique_codes `{PyInt} (a : app) :
  reachable a -> unique_codes (products (db a)) = true.
Proof.
  induction 1 as [| e a a' _ IH Hrun]; [reflexivity |].
  eapply run_unique_codes; eassumption.
Qed.

(** *** The candidate codes are pairwise different *)

Lemma to_int_nonnil (n : Z) :
  Z.to_int n <> Decimal.Pos Nil /\ Z.to_int n <> Decimal.Neg Nil.
Proof.
  destruct n as [| p | p]; cbn; split; try discriminate;
    intros E; injection E as E;
    exact (DecimalPos.Unsigned.to_uint_nonnil p E).
Qed.

Lemma py_str_inj (a b : Z) : py_str a = py_str b -> a = b.
Proof.
  unfold py_str. intros E.
  apply DecimalZ.to_int_inj.
  destruct (to_int_nonnil a) as [Ha1 Ha2], (to_int_nonnil b) as [Hb1 Hb2].
  pose proof (NilZero.isi _ Ha1 Ha2) as Ia.
  pose proof (NilZero.isi _ Hb1 Hb2) as Ib.
  rewrite E in Ia. congruence.
Qed.

Lemma append_inj_r (p x y : string) : (p ++ x = p ++ y)%string -> x = y.
Proof.
  induction p as [| c p IH]; cbn; [auto |].
  intros E. injection E as E. auto.
Qed.

Lemma code_inj (prefix : string) (a b : Z) :
  (prefix ++ py_str a = prefix ++ py_str b)%string -> a = b.
Proof. intros E. apply py_str_inj, (append_inj_r prefix), E. Qed.

(** *** The search of [save_batch_products] ends *)

Lemma mem_filter_other (x y : string) (l : list string) :
  x <> y ->
  mem x (filter (fun c => negb (text_eqb y c)) l) = mem x l.
Proof.
  intros Hne. unfold mem, text_eqb.
  induction l as [| c l IH]; cbn; [reflexivity |].
  destruct (String.eqb_spec y c) as [-> | Hyc]; cbn.
  - rewrite IH. destruct (String.eqb_spec x c); [contradiction | reflexivity].
  - rewrite IH. reflexivity.
Qed.

Lemma filter_shorter (y : string) (l : list string) :
  mem y l = true ->
  (List.length (filter (fun c => negb (text_eqb y c)) l) < List.length l)%nat.
Proof.
  unfold mem. induction l as [| c l IH]; cbn; [discriminate |].
  destruct (text_eqb y c); cbn.
  - intros _. pose proof (filter_length_le (fun c => negb (text_eqb y c)) l). lia.
  - intros H. specialize (IH H). lia.
Qed.

Section search.
Variable g : Z -> string.
Hypothesis g_inj : forall a b, g a = g b -> a = b.

(** Among [n + 1] consecutive candidates, one is not in a list of [n]
    strings; take the first. *)
Lemma first_unused (n : nat) :
  forall (l : list string) (seq : Z),
    (List.length l <= n)%nat ->
    exists k, seq <= k <= seq + Z.of_nat n
              /\ mem (g k) l = false
              /\ forall j, seq <= j < k -> mem (g j) l = true.
Proof.
  induction n as [| n IH]; intros l seq Hlen.
  - destruct l; [| cbn in Hlen; lia].
    exists seq. split; [lia |]. split; [reflexivity | intros; lia].
  - destruct (mem (g seq) l) eqn:Hseq.
    + pose proof (filter_shorter _ _ Hseq) as Hshort.
      destruct (IH (filter (fun c => negb (text_eqb (g seq) c)) l) (seq + 1))
        as (k & Hk & Hfree & Hbelow); [lia |].
      exists k. split; [lia |]. split.
      * rewrite mem_filter_other in Hfree; [exact Hfree |].
        intros E. apply g_inj in E. lia.
      * intros j Hj. destruct (Z.eq_dec j seq) as [-> | Hne]; [exact Hseq |].
        rewrite <- (mem_filter_other (g j) (g seq) l).
        -- apply Hbelow. lia.
        -- intros E. apply g_inj in E. contradiction.
    + exists seq. split; [lia |]. split; [exact Hseq | intros; lia].
Qed.

End search.

Lemma get_product_by_code_mem (code : string) (d : database) :
  get_product_by_code code d = None
  <-> mem code (codes_of (products d)) = false.
Proof.
  unfold get_product_by_code, mem.
  induction (products d) as [| r rows IH]; cbn; [tauto |].
  destruct (product_code (cols r)) as [c |]; cbn; [| exact IH].
  unfold text_eqb. rewrite (String.eqb_sym c code).
  destruct (code =? c)%string; cbn; [| exact IH].
  split; discriminate.
Qed.

Lemma codes_of_length (rows : list product) :
  (List.length (codes_of rows) <= List.length rows)%nat.
Proof.
  induction rows as [| r rows IH]; cbn; [lia |].
  destruct (product_code (cols r)); cbn; lia.
Qed.

Lemma unused_code_first (d : database) (prefix : string) (turns : nat) :
  forall seq k,
    seq <= k <= seq + Z.of_nat turns ->
    get_product_by_code (prefix ++ py_str k) d = None ->
    (forall j, seq <= j < k ->
               get_product_by_code (prefix ++ py_str j) d <> None) ->
    unused_code turns d prefix seq = Some (prefix ++ py_str k).
Proof.
  induction turns as [| turns IH]; intros seq k Hk Hfree Hbelow.
  - assert (k = seq) by lia. subst k. cbn. rewrite Hfree. reflexivity.
  - cbn [unused_code].
    destruct (Z.eq_dec k seq) as [-> | Hne].
    + rewrite Hfree. reflexivity.
    + destruct (get_product_by_code (prefix ++ py_str seq) d) eqn:Hseq.
      * apply IH; [lia | exact Hfree |]. intros j Hj. apply Hbelow. lia.
      * exfalso. apply (Hbelow seq); [lia | exact Hseq].
Qed.

(** With as many turns as the table has rows, the loop ends, on the first
    sequence number from [seq] on whose code no row has. *)
Lemma unused_code_total (d : database) (prefix : string) (seq : Z) :
  exists k,
    seq <= k
    /\ unused_code (List.length (products d)) d prefix seq
       = Some (prefix ++ py_str k)
    /\ get_product_by_code (prefix ++ py_str k) d = None
    /\ forall j, seq <= j < k ->
                 get_product_by_code (prefix ++ py_str j) d <> None.
Proof.
  destruct (first_unused (fun k => prefix ++ py_str k) (code_inj prefix)
              (List.length (products d)) (codes_of (products d)) seq
              (codes_of_length _))
    as (k & Hk & Hfree & Hbelow).
  apply get_product_by_code_mem in Hfree.
  assert (Hbelow' : forall j, seq <= j < k ->
                      get_product_by_code (prefix ++ py_str j) d <> None).
  { intros j Hj Hnone. apply get_product_by_code_mem in Hnone.
    rewrite (Hbelow j Hj) in Hnone. discriminate. }
  exists k. split; [lia |]. split; [| split; assumption].
  apply unused_code_first; assumption.
Qed.

Lemma codes_of_app (rows rows' : list product) :
  codes_of (rows ++ rows')%list = (codes_of rows ++ codes_of rows')%list.
Proof.
  induction rows as [| r rows IH]; cbn; [reflexivity |].
  destruct (product_code (cols r)); cbn; rewrite IH; reflexivity.
Qed.

Lemma distinct_snoc (l : list string) (c : string) :
  distinct l = true -> mem c l = false -> distinct (l ++ [c])%list = true.
Proof.
  unfold mem. induction l as [| x l IH]; cbn; [reflexivity |].
  intros Hd Hc. apply andb_true_iff in Hd. destruct Hd as [Hx Hd].
  apply orb_false_iff in Hc. destruct Hc as [Hcx Hc].
  apply andb_true_iff. split; [| apply IH; assumption].
  apply negb_true_iff. apply negb_true_iff in Hx.
  rewrite existsb_app, Hx. cbn.
  unfold text_eqb in *. rewrite String.eqb_sym, Hcx. reflexivity.
Qed.

(** The [INSERT] of a row whose code no row has does not fail. *)
Lemma add_product_unused_code (p : fields) (code : string) (d : database) :
  product_code p = Some code ->
  get_product_by_code code d = None ->
  unique_codes (products d) = true ->
  exists d' i,
    add_product p d = Ok (d', i)
    /\ exists f, products d' = (products d ++ [mk_product i f])%list
                 /\ product_code f = Some code.
Proof.
  intros Hcode Hfree Hu. unfold add_product, insert_product.
  apply get_product_by_code_mem in Hfree.
  match goal with
  | |- context [unique_codes ?rows] =>
      assert (Hu' : unique_codes rows = true)
  end.
  { unfold unique_codes. rewrite codes_of_app. cbn. rewrite Hcode.
    apply distinct_snoc; assumption. }
  rewrite Hu'. eexists. eexists. split; [reflexivity |].
  eexists. split; [reflexivity | exact Hcode].
Qed.

Lemma save_entry_succeeds (category base_number : string) (now : datetime)
  (idx : nat) (e : entry) (d : database) :
  unique_codes (products d) = true ->
  1 <= month now <= 12 ->
  exists d' i f code,
    save_entry category base_number now idx e d = Some (Ok d')
    /\ products d' = (products d ++ [mk_product i f])%list
    /\ product_code f = Some code
    /\ get_product_by_code code d = None.
Proof.
  intros Hu Hm. unfold save_entry.
  destruct (unused_code_total d (prefix_of category)
              (get_next_seq_for_category category d))
    as (k & _ & -> & Hfree & _).
  destruct (get_jalali_datetime_string_total now Hm) as [stamp ->].
  match goal with
  | |- context [add_product ?p d] =>
      destruct (add_product_unused_code p _ d eq_refl Hfree Hu)
        as (d' & i & -> & f & Hrows & Hcode)
  end.
  exists d', i, f. eexists. repeat split; eassumption.
Qed.

Lemma save_entries_total (category base_number : string) (now : datetime)
  (entries : list entry) :
  forall (idx : nat) (d : database),
    exists d', save_entries category base_number now idx entries d = Some d'.
Proof.
  induction entries as [| e rest IH]; intros idx d; cbn.
  - eexists; reflexivity.
  - unfold save_entry.
    destruct (unused_code_total d (prefix_of category)
                (get_next_seq_for_category category d))
      as (k & _ & -> & _).
    destruct (get_jalali_datetime_string now); [| eexists; reflexivity].
    destruct (add_product _ d) as [[d1 i] |]; [apply IH | eexists; reflexivity].
Qed.

(** No event is stopped by the bound of the search. *)
Lemma run_total `{PyInt} (e : event) (a : app) : exists a', run e a = Some a'.
Proof.
  destruct e; cbn [run]; try (eexists; reflexivity).
  - unfold save_batch_products.
    destruct (save_entries_total (strip_or category_text "عمومی")
                (strip_or base_number_text "-") now entries 0%nat (db a))
      as [d' ->].
    eexists; reflexivity.
  - destruct (find_product true pid (db a)); eexists; reflexivity.
  - destruct (find_product false pid (db a)); eexists; reflexivity.
  - destruct (current_product a); eexists; reflexivity.
Qed.

Lemma in_codes_of (rows : list product) (r : product) (c : string) :
  In r rows -> product_code (cols r) = Some c -> mem c (codes_of rows) = true.
Proof.
  unfold mem. induction rows as [| q rows IH]; cbn; [contradiction |].
  intros [-> | Hin] Hc.
  - rewrite Hc. cbn. rewrite text_eqb_refl. reflexivity.
  - destruct (product_code (cols q)); cbn; [apply orb_true_iff; right |]; auto.
Qed.

Lemma unique_codes_nth (rows : list product) :
  unique_codes rows = true ->
  forall i j r1 r2 c,
    nth_error rows i = Some r1 -> nth_error rows j = Some r2 ->
    product_code (cols r1) = Some c -> product_code (cols r2) = Some c ->
    i = j.
Proof.
  unfold unique_codes.
  induction rows as [| r rows IH]; intros Hu i j r1 r2 c H1 H2 C1 C2.
  - destruct i; discriminate.
  - assert (Hu' : distinct (codes_of rows) = true).
    { cbn in Hu. destruct (product_code (cols r)); [| exact Hu].
      cbn in Hu. apply andb_true_iff in Hu. tauto. }
    assert (Hhead : forall q, In q rows -> product_code (cols r) = Some c ->
                              product_code (cols q) = Some c -> False).
    { intros q Hin Cr Cq. cbn in Hu. rewrite Cr in Hu. cbn in Hu.
      apply andb_true_iff in Hu. destruct Hu as [Hfresh _].
      apply negb_true_iff in Hfresh.
      pose proof (in_codes_of rows q c Hin Cq) as Hmem. unfold mem in Hmem.
      congruence. }
    destruct i as [| i], j as [| j]; cbn in H1, H2.
    + reflexivity.
    + injection H1 as <-. exfalso.
      exact (Hhead r2 (nth_error_In _ _ H2) C1 C2).
    + injection H2 as <-. exfalso.
      exact (Hhead r1 (nth_error_In _ _ H1) C2 C1).
    + f_equal. exact (IH Hu' i j r1 r2 c H1 H2 C1 C2).
Qed.

(** C4: in every state that the application reaches from a new database,
    no two rows of [products] share a product code; the search of
    [save_batch_products] ends on the first sequence number whose code
    [get_product_by_code] does not find, and the [INSERT] of that code is
    accepted by the UNIQUE constraint. *)
Theorem product_codes_unique `{PyInt} (a : app) :
  reachable a ->
  (forall i j r1 r2 c,
      nth_error (products (db a)) i = Some r1 ->
      nth_error (products (db a)) j = Some r2 ->
      product_code (cols r1) = Some c -> product_code (cols r2) = Some c ->
      i = j)
  /\ (forall prefix seq,
        exists k,
          seq <= k
          /\ unused_code (List.length (products (db a))) (db a) prefix seq
             = Some (prefix ++ py_str k)
          /\ get_product_by_code (prefix ++ py_str k) (db a) = None
          /\ forall j, seq <= j < k ->
                       get_product_by_code (prefix ++ py_str j) (db a) <> None)
  /\ (forall category base_number now idx e,
        1 <= month now <= 12 ->
        exists d' i f code,
          save_entry category base_number now idx e (db a) = Some (Ok d')
          /\ products d' = (products (db a) ++ [mk_product i f])%list
          /\ product_code f = Some code
          /\ get_product_by_code code (db a) = None)
  /\ forall e, exists a', run e a = Some a' /\ reachable a'.
Proof.
  intros Hreach.
  pose proof (reachable_unique_codes a Hreach) as Hu.
  split; [apply unique_codes_nth; exact Hu |].
  split; [intros prefix seq; apply unused_code_total |].
  split; [intros category base_number now idx e Hm;
          apply save_entry_succeeds; assumption |].
  intros e. destruct (run_total e a) as [a' Hrun].
  exists a'. split; [exact Hrun | eapply reachable_run; eassumption].
Qed.

(** ** Auto-deletion *)

(** The shop of the examples is what the program makes of a ring entered,
    opened and sold today. *)
Lemma shop_ring_sold_reachable : @reachable decimal_int shop_ring_sold.
Proof.
  apply (@reachable_run decimal_int
           (Sell "1405/08/12" (mk_sale_env true None None) today)
           (mk_app (mk_database [ring_row] 1 [] 0) (Some ring_row)));
    [| reflexivity].
  apply (@reachable_run decimal_int (OpenDetail 1) shop_with_ring);
    [| reflexivity].
  apply (@reachable_run decimal_int (SaveBatch "انگشتر" "12" [ring] today)
           initial); [| reflexivity].
  apply reachable_initial.
Qed.

(** The rows that the cleanup selects are the sold ones whose created_at,
    as a byte string, sorts before the ISO cutoff. *)
Lemma old_sold_spec (cutoff_date : string) (r : product) :
  old_sold cutoff_date r = true
  <-> truthy (sold_invoice (cols r)) = true
      /\ exists stamp, created_at (cols r) = Some stamp
                       /\ text_ltb stamp cutoff_date = true.
Proof.
  unfold old_sold, sold, sql_lt. split.
  - intros H. apply andb_true_iff in H. destruct H as [Hs Hlt].
    split; [exact Hs |].
    destruct (created_at (cols r)) as [stamp |]; [| discriminate].
    exists stamp. split; [reflexivity | exact Hlt].
  - intros (Hs & stamp & -> & Hlt). rewrite Hs, Hlt. reflexivity.
Qed.

(** C2, at a failing input: a ring entered and sold today, 2026-11-03
    (created_at "1405/08/12 10:00"), is within the three months, yet the
    cleanup run the same day with the cutoff "2026-08-05T10:00:00"
    deletes its row and its image files and returns 1. *)
Theorem auto_cleanup_deletes_todays_sale :
  products (db shop_ring_sold) = [ring_sold]
  /\ created_at (cols ring_sold) = get_jalali_datetime_string today
  /\ (exists cutoff, minus_days today (3 * 30) = Ok cutoff
                     /\ isoformat cutoff = "2026-08-05T10:00:00")
  /\ old_sold "2026-08-05T10:00:00" ring_sold = true
  /\ delete_old_sold_products "/data/goldshop.db" 3 today
       (db shop_ring_sold, ring_files)
     = (mk_database [] 1 [] 0, mk_filesystem [] [], 1).
Proof.
  split; [reflexivity |]. split; [reflexivity |].
  split; [eexists; split; reflexivity |].
  split; reflexivity.
Qed.

(** The same happens to every sale: a Jalali stamp begins with the digit
    1 for the Gregorian years 1700 to 2500, an ISO date of the years 2000
    to 9999 begins with a digit from 2 to 9. *)
Lemma jalali_year_range (gy gm gd : Z) :
  1700 <= gy <= 2500 -> 1 <= gm <= 12 -> 1 <= gd <= 31 ->
  exists jy jm jd,
    gregorian_to_jalali gy gm gd = Some (jy, jm, jd) /\ 1000 <= jy <= 1999.
Proof.
  intros Hy Hm Hd. unfold gregorian_to_jalali.
  destruct (py_getitem_g_d_m gm Hm) as [before [-> Hb]].
  set (gy2 := if gm >? 2 then gy + 1 else gy).
  assert (Hgy2 : gy <= gy2 <= gy + 1) by (unfold gy2; destruct (gm >? 2); lia).
  clearbody gy2.
  unfold jalali_of_days.
  set (d0 := 355666 + 365 * gy + (gy2 + 3) / 4 - (gy2 + 99) / 100
             + (gy2 + 399) / 400 + gd + before).
  assert (Hd0 : 355666 + 365 * gy + gy / 4 - gy / 100 - 2 <= d0
                <= 355666 + 365 * gy + gy / 4 - gy / 100 + gy / 400 + 400).
  { unfold d0. Z.div_mod_to_equations. lia. }
  clearbody d0.
  set (a := d0 mod 12053). set (q := d0 / 12053).
  set (b := a mod 1461). set (q2 := a / 1461).
  destruct (b >? 365) eqn:Hb365;
    match goal with |- context [if ?c then _ else _] => destruct c end;
    (eexists; eexists; eexists; split; [reflexivity |]);
    subst a q b q2; Z.div_mod_to_equations; lia.
Qed.

Lemma heads_in_range_spec (p : ascii -> bool) (lo n y : Z) :
  heads_in_range p lo n = true ->
  lo <= y < lo + n ->
  head_is p (fmt_0d 4 y) = true.
Proof.
  intros Hall Hy. unfold heads_in_range in Hall.
  rewrite forallb_forall in Hall.
  specialize (Hall (Z.to_nat (y - lo))).
  replace (lo + Z.of_nat (Z.to_nat (y - lo))) with y in Hall by lia.
  apply Hall. apply in_seq. lia.
Qed.

Lemma jalali_years_begin_with_1 :
  heads_in_range (Ascii.eqb "1") 1000 1000 = true.
Proof. vm_compute. reflexivity. Qed.

Lemma iso_years_begin_after_1 : heads_in_range after_one 2000 8000 = true.
Proof. vm_compute. reflexivity. Qed.

Lemma head_is_append (p : ascii -> bool) (s t : string) :
  head_is p s = true -> head_is p (s ++ t) = true.
Proof. destruct s; cbn; [discriminate | auto]. Qed.

Lemma heads_ltb (s t : string) :
  head_is (Ascii.eqb "1") s = true -> head_is after_one t = true ->
  text_ltb s t = true.
Proof.
  destruct s as [| c s]; [discriminate |].
  destruct t as [| c' t]; [discriminate |].
  cbn [head_is]. intros Hc Hc'. apply Ascii.eqb_eq in Hc. subst c.
  unfold text_ltb, String.ltb. cbn [String.compare].
  unfold after_one in Hc'.
  destruct (Ascii.compare "1" c'); [discriminate | reflexivity | discriminate].
Qed.

(** Whatever the day of the sale, the cleanup takes the row for an old
    one. *)
Theorem stamped_sales_are_always_old (created cutoff : datetime)
  (stamp : string) (r : product) :
  1700 <= year created <= 2500 ->
  1 <= month created <= 12 ->
  1 <= day created <= 31 ->
  get_jalali_datetime_string created = Some stamp ->
  created_at (cols r) = Some stamp ->
  sold r = true ->
  2000 <= year cutoff <= 9999 ->
  old_sold (isoformat cutoff) r = true.
Proof.
  intros Hy Hm Hd Hstamp Hcreated Hsold Hcut.
  apply old_sold_spec. split; [exact Hsold |].
  exists stamp. split; [exact Hcreated |].
  unfold get_jalali_datetime_string in Hstamp.
  destruct (jalali_year_range _ _ _ Hy Hm Hd) as (jy & jm & jd & E & Hjy).
  rewrite E in Hstamp. injection Hstamp as <-.
  apply heads_ltb.
  - apply head_is_append.
    apply (heads_in_range_spec _ 1000 1000);
      [exact jalali_years_begin_with_1 | lia].
  - unfold isoformat. apply head_is_append.
    apply (heads_in_range_spec _ 2000 8000);
      [exact iso_years_begin_after_1 | lia].
Qed.

(** ** Paths *)

Section paths.
Import posixpath.

Lemma split_nonempty (s : string) : split s <> [].
Proof.
  destruct s as [| c s]; cbn; [discriminate |].
  destruct (Ascii.eqb c sep); [discriminate |].
  destruct (split s); discriminate.
Qed.

Lemma split_sep_free (s : string) : has_sep s = false -> split s = [s].
Proof.
  induction s as [| c s IH]; cbn; [reflexivity |].
  intros H. apply orb_false_iff in H. destruct H as [-> H].
  rewrite (IH H). reflexivity.
Qed.

Lemma split_app_sep (x y : string) :
  split (x ++ String "/" y) = (split x ++ split y)%list.
Proof.
  induction x as [| c x IH]; cbn.
  - reflexivity.
  - rewrite IH. destruct (Ascii.eqb c sep); [reflexivity |].
    pose proof (split_nonempty x) as Hne.
    destruct (split x) as [| h t]; [contradiction | reflexivity].
Qed.

Lemma split_components_sep_free (s : string) :
  Forall (fun c => has_sep c = false) (split s).
Proof.
  induction s as [| c s IH]; cbn; [repeat constructor |].
  destruct (Ascii.eqb c sep) eqn:Hc; [constructor; [reflexivity | exact IH] |].
  destruct (split s) as [| h t]; [repeat constructor; cbn; rewrite Hc; reflexivity |].
  inversion IH as [| ? ? Hh Ht]; subst.
  constructor; [cbn; rewrite Hc; exact Hh | exact Ht].
Qed.

Lemma endswith_sep_app (s : string) :
  endswith_sep s = true -> exists x, s = x ++ String "/" "".
Proof.
  induction s as [| c s IH]; cbn; [discriminate |].
  destruct s as [| c' s'].
  - intros H. apply Ascii.eqb_eq in H. subst c. exists "". reflexivity.
  - intros H. destruct (IH H) as [x Hx]. exists (String c x).
    cbn. rewrite <- Hx. reflexivity.
Qed.

Lemma append_assoc (a b c : string) : ((a ++ b) ++ c = a ++ (b ++ c))%string.
Proof. induction a as [| x a IH]; cbn; [reflexivity | rewrite IH; reflexivity]. Qed.

Lemma norm_comps_app (abs : bool) (l1 l2 acc : list string) :
  norm_comps abs acc (l1 ++ l2)%list = norm_comps abs (norm_comps abs acc l1) l2.
Proof.
  revert acc. induction l1 as [| c l1 IH]; intros acc; cbn; [reflexivity |].
  destruct ((c =? "") || (c =? "."))%string; [apply IH |].
  match goal with |- context [if ?b then _ else _] => destruct b end;
    [apply IH |].
  destruct acc; apply IH.
Qed.

Lemma norm_comps_empty_last (abs : bool) (l acc : list string) :
  norm_comps abs acc (l ++ [""])%list = norm_comps abs acc l.
Proof. rewrite norm_comps_app. reflexivity. Qed.

(** [join(a, b)] for a relative [b] continues the components of [a]. *)
Lemma norm_comps_join2 (a b : string) (acc : list string) :
  a <> "" -> startswith b "/" = false ->
  norm_comps true acc (split (join2 a b))
  = norm_comps true (norm_comps true acc (split a)) (split b).
Proof.
  intros Ha Hb. unfold join2. rewrite Hb.
  destruct (a =? "")%string eqn:Ea; [apply String.eqb_eq in Ea; contradiction |].
  cbn [orb]. destruct (endswith_sep a) eqn:Hend.
  - destruct (endswith_sep_app a Hend) as [x ->].
    rewrite append_assoc. cbn [append].
    rewrite !split_app_sep, !norm_comps_app. reflexivity.
  - cbn [append]. rewrite split_app_sep, norm_comps_app. reflexivity.
Qed.

Lemma norm_comps_plain (l acc : list string) :
  Forall plain l -> norm_comps true acc l = (List.rev l ++ acc)%list.
Proof.
  revert acc. induction l as [| c l IH]; intros acc Hl; cbn; [reflexivity |].
  inversion Hl as [| ? ? (H1 & H2 & H3 & _) Hl']; subst.
  apply String.eqb_neq in H1, H2, H3. rewrite H1, H2, H3. cbn.
  rewrite IH by assumption. rewrite <- app_assoc. reflexivity.
Qed.

(** In an absolute path the loop keeps plain components only. *)
Lemma norm_comps_abs_plain (l acc : list string) :
  Forall (fun c => has_sep c = false) l ->
  Forall plain acc -> Forall plain (norm_comps true acc l).
Proof.
  revert acc. induction l as [| c l IH]; intros acc Hl Hacc; cbn; [exact Hacc |].
  inversion Hl as [| ? ? Hc Hl']; subst.
  destruct (c =? "")%string eqn:E1; [apply IH; assumption |].
  destruct (c =? ".")%string eqn:E2; [apply IH; assumption |].
  cbn [orb]. destruct (c =? "..")%string eqn:E3; cbn [negb orb andb].
  - destruct acc as [| top acc']; [apply IH; assumption |].
    inversion Hacc as [| ? ? (_ & _ & Htop & _) Hacc']; subst.
    apply String.eqb_neq in Htop. rewrite Htop.
    apply IH; assumption.
  - apply IH; [assumption |]. constructor; [| exact Hacc].
    apply String.eqb_neq in E1, E2, E3. repeat split; assumption.
Qed.

Lemma resolve_plain (p : string) : Forall plain (resolve p).
Proof.
  unfold resolve. apply Forall_rev.
  apply norm_comps_abs_plain; [apply split_components_sep_free | constructor].
Qed.

Lemma split_join_comps (l : list string) :
  l <> [] -> Forall (fun c => has_sep c = false) l ->
  split (join_comps l) = l.
Proof.
  unfold join_comps.
  induction l as [| x l IH]; intros Hne Hl; [contradiction |].
  inversion Hl as [| ? ? Hx Hl']; subst.
  destruct l as [| y l].
  - cbn. apply split_sep_free, Hx.
  - change (concat "/" (x :: y :: l))
      with (x ++ String "/" (concat "/" (y :: l))).
    rewrite split_app_sep, (split_sep_free x Hx), IH; [reflexivity | discriminate | exact Hl'].
Qed.

Lemma filter_nonempty_plain (l : list string) :
  Forall (fun c => c <> "") l ->
  filter (fun x => negb (x =? "")%string) l = l.
Proof.
  induction 1 as [| c l Hc _ IH]; cbn; [reflexivity |].
  apply String.eqb_neq in Hc. rewrite Hc. cbn. rewrite IH. reflexivity.
Qed.

Lemma nonempty_comps_join_comps (l : list string) :
  Forall (fun c => c <> "" /\ has_sep c = false) l ->
  nonempty_comps (join_comps l) = l.
Proof.
  intros Hl. unfold nonempty_comps.
  destruct l as [| x l]; [reflexivity |].
  rewrite split_join_comps.
  - apply filter_nonempty_plain. eapply Forall_impl; [| exact Hl]. cbn. tauto.
  - discriminate.
  - eapply Forall_impl; [| exact Hl]. cbn. tauto.
Qed.

Lemma plain_weaken (l : list string) :
  Forall plain l -> Forall (fun c => c <> "" /\ has_sep c = false) l.
Proof. apply Forall_impl. unfold plain. tauto. Qed.

(** The components of [normpath(s)], for an absolute [s]. *)
Lemma nonempty_comps_normpath_abs (s : string) :
  startswith s "/" = true -> nonempty_comps (normpath s) = resolve s.
Proof.
  intros Habs. unfold normpath.
  destruct s as [| c s]; [discriminate |].
  cbn [String.eqb]. unfold initial_slashes. rewrite Habs.
  pose proof (nonempty_comps_join_comps _ (plain_weaken _ (resolve_plain (String c s))))
    as Hcomps.
  destruct (startswith (String c s) "//" && negb (startswith (String c s) "///"));
    cbn [Nat.eqb negb]; fold (resolve (String c s));
    cbn [append String.eqb]; unfold nonempty_comps in *; cbn [split];
    change (Ascii.eqb "/" sep) with true; cbn [filter String.eqb negb];
    exact Hcomps.
Qed.

(** *** Relative paths *)





(** *** [join] *)

Lemma component_relative (c : string) : component c -> startswith c "/" = false.
Proof.
  intros [Hne Hsep]. destruct c as [| x c]; [contradiction |].
  cbn in Hsep. apply orb_false_iff in Hsep. destruct Hsep as [Hx _].
  cbn [startswith]. unfold sep in Hx. rewrite Ascii.eqb_sym, Hx. reflexivity.
Qed.

Lemma endswith_sep_component (a c : string) :
  component c -> endswith_sep (a ++ c) = false.
Proof.
  intros [Hne Hsep]. induction a as [| x a IH].
  - cbn [append]. clear Hne. induction c as [| y c IHc]; [reflexivity |].
    cbn in Hsep. apply orb_false_iff in Hsep. destruct Hsep as [Hy Hc].
    cbn [endswith_sep]. destruct c; [exact Hy | apply IHc; exact Hc].
  - cbn [append endswith_sep].
    destruct (a ++ c) eqn:E; [| exact IH].
    destruct a; [cbn in E; contradiction | discriminate].
Qed.

Lemma append_nonempty (a b : string) : a <> "" -> a ++ b <> "".
Proof. destruct a; [contradiction | discriminate]. Qed.

Lemma join2_component (a c : string) :
  a <> "" -> component c ->
  exists x, join2 a c = x ++ String "/" c
            /\ split (join2 a c) = (split x ++ [c])%list
            /\ (split a = split x \/ split a = (split x ++ [""])%list).
Proof.
  intros Ha Hc. unfold join2.
  rewrite (component_relative c Hc).
  apply String.eqb_neq in Ha. rewrite Ha. cbn [orb].
  destruct (endswith_sep a) eqn:Hend.
  - destruct (endswith_sep_app a Hend) as [x ->]. exists x.
    rewrite append_assoc. cbn [append].
    rewrite !split_app_sep, (split_sep_free c (proj2 Hc)).
    repeat split. right. reflexivity.
  - exists a. cbn [append].
    rewrite split_app_sep, (split_sep_free c (proj2 Hc)).
    repeat split. left. reflexivity.
Qed.

Lemma join2_nonempty (a c : string) : a <> "" -> component c -> join2 a c <> "".
Proof.
  intros Ha Hc. destruct (join2_component a c Ha Hc) as (x & -> & _).
  destruct x; discriminate.
Qed.

Lemma join2_no_trailing_sep (a c : string) :
  a <> "" -> component c -> endswith_sep (join2 a c) = false.
Proof.
  intros Ha Hc. destruct (join2_component a c Ha Hc) as (x & -> & _).
  change (x ++ String "/" c) with (x ++ (String "/" "" ++ c)).
  rewrite <- append_assoc. apply endswith_sep_component, Hc.
Qed.

Lemma split_join (others : list string) :
  forall acc,
    acc <> "" -> endswith_sep acc = false -> Forall component others ->
    split (join acc others) = (split acc ++ others)%list.
Proof.
  unfold join.
  induction others as [| c others IH]; intros acc Hne Hend Hall; cbn [fold_left].
  - rewrite app_nil_r. reflexivity.
  - inversion Hall as [| ? ? Hc Hall']; subst.
    rewrite IH;
      [| apply join2_nonempty; assumption
       | apply join2_no_trailing_sep; assumption
       | exact Hall'].
    unfold join2. rewrite (component_relative c Hc), Hend.
    apply String.eqb_neq in Hne. rewrite Hne. cbn [orb append].
    rewrite split_app_sep, (split_sep_free c (proj2 Hc)), <- app_assoc.
    reflexivity.
Qed.

Lemma startswith_join2 (a b : string) :
  startswith a "/" = true -> startswith (join2 a b) "/" = true.
Proof.
  intros Ha. unfold join2.
  destruct (startswith b "/") eqn:Hb; [exact Hb |].
  destruct a as [| x a]; [discriminate |].
  destruct ((String x a =? "")%string || endswith_sep (String x a));
    cbn [append startswith] in *; exact Ha.
Qed.


(** *** [relpath] *)

Lemma common_len_app (a x y : list string) :
  common_len (a ++ x) (a ++ y) = (List.length a + common_len x y)%nat.
Proof.
  induction a as [| c a IH]; cbn; [reflexivity |].
  rewrite String.eqb_refl, IH. reflexivity.
Qed.

Lemma skipn_app_length (a l : list string) (n : nat) :
  skipn (List.length a + n) (a ++ l) = skipn n l.
Proof. induction a as [| c a IH]; cbn; [reflexivity | exact IH]. Qed.

Lemma nonempty_of_absolute (s : string) : startswith s "/" = true -> s <> "".
Proof. destruct s; [discriminate | discriminate]. Qed.

Lemma abspath_comps (cwd p : string) :
  startswith cwd "/" = true -> startswith p "/" = false ->
  nonempty_comps (abspath cwd p)
  = List.rev (norm_comps true (norm_comps true [] (split cwd)) (split p)).
Proof.
  intros Hcwd Hp. unfold abspath. rewrite Hp.
  rewrite nonempty_comps_normpath_abs by (apply startswith_join2; exact Hcwd).
  unfold resolve. rewrite norm_comps_join2;
    [reflexivity | apply nonempty_of_absolute; exact Hcwd | exact Hp].
Qed.


(** *** Containment *)



Lemma plain_component (c : string) : plain c -> component c.
Proof. unfold plain, component. tauto. Qed.


Lemma basename_join2 (a c : string) :
  a <> "" -> component c -> basename (join2 a c) = c.
Proof.
  intros Ha Hc. destruct (join2_component a c Ha Hc) as (x & -> & _).
  destruct Hc as [_ Hsep].
  assert (Hhas : forall y, has_sep (y ++ String "/" c) = true).
  { induction y as [| d y IH]; cbn; [reflexivity |].
    rewrite IH. apply orb_true_r. }
  induction x as [| d x IH]; cbn [append basename].
  - rewrite Hsep. reflexivity.
  - rewrite Hhas. exact IH.
Qed.






End paths.



(** ** The theorems at work in the shop of the examples *)

Lemma sold_rows_have_quantity_zero_witness :
  @reachable decimal_int shop_ring_sold
  /\ quantity (cols ring_sold) = Some 0.
Proof.
  split; [exact shop_ring_sold_reachable |].
  apply (proj1 (@sold_rows_have_quantity_zero decimal_int shop_ring_sold
                  shop_ring_sold_reachable)
           ring_sold "1405/08/12");
    [left; reflexivity | reflexivity | discriminate].
Defined.

Lemma product_codes_unique_witness :
  @reachable decimal_int shop_ring_sold
  /\ (forall i j r1 r2 c,
         nth_error (products (db shop_ring_sold)) i = Some r1 ->
         nth_error (products (db shop_ring_sold)) j = Some r2 ->
         product_code (cols r1) = Some c -> product_code (cols r2) = Some c ->
         i = j)
  /\ unused_code 1 (db shop_ring_sold) "R" 1 = Some "R2".
Proof.
  split; [exact shop_ring_sold_reachable |].
  split; [| reflexivity].
  apply (@product_codes_unique decimal_int shop_ring_sold
           shop_ring_sold_reachable).
Defined.

Lemma export_all_csv_columns_witness :
  products (db shop_ring_sold) <> []
  /\ exists prods,
      export_all_csv (db shop_ring_sold)
      = Some (["id"; "product_code"; "name"; "category"; "base_number";
               "weight"; "quantity"; "purity"; "notes"; "image";
               "sold_invoice"; "created_at"; "sold_at"],
              map (fun p =>
                     [Some (CInt (id p));
                      Some (of_text (product_code (cols p)));
                      Some (of_text (name (cols p)));
                      Some (of_text (category (cols p)));
                      Some (of_text (base_number (cols p)));
                      Some (of_real (weight (cols p)));
                      Some (of_int (quantity (cols p)));
                      Some (of_text (purity (cols p)));
                      Some (of_text (notes (cols p)));
                      Some (of_text (image (cols p)));
                      Some (of_text (sold_invoice (cols p)));
                      Some (of_text (created_at (cols p)));
                      Some (of_text (sold_at (cols p)))])
                prods)
      /\ Permutation prods (products (db shop_ring_sold))
      /\ Sorted (fun a b => id b <= id a) prods.
Proof.
  assert (H : products (db shop_ring_sold) <> []) by discriminate.
  split; [exact H |].
  exact (proj2 (export_all_csv_columns (db shop_ring_sold)) H).
Defined.

Lemma mark_as_sold_frame_witness :
  @py_int decimal_int (VInt 1) = Some 1
  /\ (exists r, In r (products (db shop_with_ring)) /\ id r = 1)
  /\ Forall2
       (fun r r' =>
          id r' = id r
          /\ (id r <> 1 -> r' = r)
          /\ kept_columns (cols r) (cols r'))
       (products (db shop_with_ring))
       (products
          (@mark_as_sold decimal_int (VInt 1) "1405/08/12" None None today
             (db shop_with_ring))).
Proof.
  assert (H1 : @py_int decimal_int (VInt 1) = Some 1) by reflexivity.
  assert (H2 : exists r, In r (products (db shop_with_ring)) /\ id r = 1)
    by (exists ring_row; split; [left; reflexivity | reflexivity]).
  split; [exact H1 |]. split; [exact H2 |].
  exact (proj1 (@mark_as_sold_frame decimal_int (VInt 1) 1 "1405/08/12" None
                  None today (db shop_with_ring) H1 H2)).
Defined.

Lemma unparsable_pid_changes_nothing_witness :
  @py_int decimal_int (VStr "R1") = None
  /\ @delete_product decimal_int (VStr "R1") (db shop_with_ring, ring_files)
     = (db shop_with_ring, ring_files)
  /\ @mark_as_sold decimal_int (VStr "R1") "1405/08/12" None None today
       (db shop_with_ring)
     = db shop_with_ring
  /\ @mark_as_sold decimal_int (VStr " 7 ") "1405/08/12" None None today
       (db shop_with_ring)
     = db shop_with_ring.
Proof.
  assert (H1 : @py_int decimal_int (VStr "R1") = None) by reflexivity.
  assert (H2 : @py_int decimal_int (VStr " 7 ") = Some 7) by reflexivity.
  assert (H3 : forall r, In r (products (db shop_with_ring)) -> id r <> 7)
    by (intros r [<- | []]; discriminate).
  split; [exact H1 |].
  split; [| split].
  - exact (proj1 (proj1 (@unparsable_pid_changes_nothing decimal_int
                           (VStr "R1") "1405/08/12" None None today
                           (db shop_with_ring) ring_files) H1)).
  - exact (proj2 (proj1 (@unparsable_pid_changes_nothing decimal_int
                           (VStr "R1") "1405/08/12" None None today
                           (db shop_with_ring) ring_files) H1)).
  - exact (proj2 (@unparsable_pid_changes_nothing decimal_int
                    (VStr " 7 ") "1405/08/12" None None today
                    (db shop_with_ring) ring_files) 7 H2 H3).
Defined.

(** * Further properties of the program *)

(** ** The calendar: every day has its own, well-formed Jalali date *)

Lemma jalali_of_days_stages (d : Z) :
  jalali_of_days d
  = let a := d mod 12053 in
    let '(yo, doy) := year_day (a mod 1461) in
    let '(jm, jd) := month_day doy in
    (-1595 + 33 * (d / 12053) + 4 * (a / 1461) + yo, jm, jd).
Proof.
  unfold jalali_of_days, year_day, month_day. cbv zeta.
  destruct (_ >? 365); cbv beta iota; destruct (_ <? 186);
    rewrite ?Z.add_0_r; reflexivity.
Qed.

Ltac split_pair E E1 E2 :=
  pose proof (f_equal fst E) as E1; pose proof (f_equal snd E) as E2;
  cbn [fst snd] in E1, E2.

Lemma month_day_inj (x y : Z) :
  0 <= x <= 365 -> 0 <= y <= 365 -> month_day x = month_day y -> x = y.
Proof.
  unfold month_day. intros Hx Hy.
  destruct (Z.ltb_spec x 186), (Z.ltb_spec y 186);
    intros E; split_pair E E1 E2; Z.div_mod_to_equations; lia.
Qed.

Lemma year_day_range (b : Z) :
  0 <= b < 1461 ->
  0 <= fst (year_day b) <= 3 /\ 0 <= snd (year_day b) <= 365.
Proof.
  unfold year_day. intros Hb.
  destruct (Z.gtb_spec b 365); cbn [fst snd]; Z.div_mod_to_equations; lia.
Qed.

Lemma year_day_inj (x y : Z) :
  0 <= x < 1461 -> 0 <= y < 1461 -> year_day x = year_day y -> x = y.
Proof.
  unfold year_day. intros Hx Hy.
  destruct (Z.gtb_spec x 365), (Z.gtb_spec y 365);
    intros E; split_pair E E1 E2; Z.div_mod_to_equations; lia.
Qed.

(** The 33-year cycle of 12053 days holds eight four-year cycles and one
    year more; the decomposition loses nothing. *)
Lemma jalali_of_days_inj (d1 d2 : Z) :
  jalali_of_days d1 = jalali_of_days d2 -> d1 = d2.
Proof.
  rewrite !jalali_of_days_stages. cbv zeta.
  pose proof (Z.div_mod d1 12053 ltac:(lia)) as E1.
  pose proof (Z.mod_pos_bound d1 12053 ltac:(lia)) as B1.
  pose proof (Z.div_mod d2 12053 ltac:(lia)) as E2.
  pose proof (Z.mod_pos_bound d2 12053 ltac:(lia)) as B2.
  set (a1 := d1 mod 12053) in *. set (q1 := d1 / 12053) in *.
  set (a2 := d2 mod 12053) in *. set (q2 := d2 / 12053) in *.
  clearbody a1 q1 a2 q2.
  pose proof (Z.div_mod a1 1461 ltac:(lia)) as F1.
  pose proof (Z.mod_pos_bound a1 1461 ltac:(lia)) as C1.
  pose proof (Z.div_mod a2 1461 ltac:(lia)) as F2.
  pose proof (Z.mod_pos_bound a2 1461 ltac:(lia)) as C2.
  set (b1 := a1 mod 1461) in *. set (r1 := a1 / 1461) in *.
  set (b2 := a2 mod 1461) in *. set (r2 := a2 / 1461) in *.
  clearbody b1 r1 b2 r2.
  pose proof (year_day_range b1 C1) as R1.
  pose proof (year_day_range b2 C2) as R2.
  pose proof (year_day_inj b1 b2 C1 C2) as Hyd.
  assert (L1 : r1 = 8 -> fst (year_day b1) = 0).
  { intros ->. unfold year_day.
    destruct (Z.gtb_spec b1 365); [lia | reflexivity]. }
  assert (L2 : r2 = 8 -> fst (year_day b2) = 0).
  { intros ->. unfold year_day.
    destruct (Z.gtb_spec b2 365); [lia | reflexivity]. }
  destruct (year_day b1) as [yo1 doy1], (year_day b2) as [yo2 doy2].
  cbn [fst snd] in *.
  pose proof (month_day_inj doy1 doy2 ltac:(lia) ltac:(lia)) as Hmd.
  destruct (month_day doy1) as [m1 dd1], (month_day doy2) as [m2 dd2].
  intros E.
  pose proof (f_equal (fun t => fst (fst t)) E) as Ey.
  pose proof (f_equal (fun t => snd (fst t)) E) as Em.
  pose proof (f_equal snd E) as Ed. cbn [fst snd] in Ey, Em, Ed. subst m2 dd2.
  specialize (Hmd eq_refl). subst doy2.
  assert (q1 = q2 /\ r1 = r2 /\ yo1 = yo2) as (-> & -> & ->) by lia.
  specialize (Hyd eq_refl). lia.
Qed.

Lemma days_before_year_step (y : Z) :
  days_before_year (y + 1)
  = days_before_year y + 365 + (if is_leap y then 1 else 0).
Proof.
  unfold days_before_year, is_leap. cbv zeta.
  replace (y + 1 - 1) with y by lia.
  destruct (Z.eqb_spec (y mod 4) 0), (Z.eqb_spec (y mod 100) 0),
    (Z.eqb_spec (y mod 400) 0); cbn [andb orb negb];
    Z.div_mod_to_equations; lia.
Qed.

Lemma days_before_year_mono (y1 y2 : Z) :
  y1 <= y2 -> days_before_year y1 <= days_before_year y2.
Proof.
  intros H.
  assert (Hall : forall k, 0 <= k ->
                   days_before_year y1 <= days_before_year (y1 + k)).
  { apply (natlike_ind
             (fun k => days_before_year y1 <= days_before_year (y1 + k))).
    - rewrite Z.add_0_r. apply Z.le_refl.
    - intros x Hx IH. replace (y1 + Z.succ x) with (y1 + x + 1) by lia.
      rewrite days_before_year_step. destruct (is_leap (y1 + x)); lia. }
  replace y2 with (y1 + (y2 - y1)) by lia. apply Hall. lia.
Qed.

Ltac month_tables :=
  repeat match goal with
         | |- context [nth ?n DAYS_BEFORE_MONTH 0] =>
             let v := eval vm_compute in (nth n DAYS_BEFORE_MONTH 0) in
             change (nth n DAYS_BEFORE_MONTH 0) with v
         end;
  cbn [Z.gtb Z.eqb Z.compare Pos.compare Pos.compare_cont Pos.eqb
       andb orb negb] in *.

Ltac twelve m :=
  let C := fresh "C" in
  assert (C : m = 1 \/ m = 2 \/ m = 3 \/ m = 4 \/ m = 5 \/ m = 6 \/
              m = 7 \/ m = 8 \/ m = 9 \/ m = 10 \/ m = 11 \/ m = 12) by lia;
  repeat (destruct C as [-> | C]); try subst m.

Lemma ymd2ord_bounds (y m d : Z) :
  valid_gregorian y m d ->
  days_before_year y < ymd2ord y m d <= days_before_year (y + 1).
Proof.
  intros [Hm Hd]. rewrite days_before_year_step.
  unfold ymd2ord, days_before_month, days_in_month in *.
  generalize (days_before_year y). intros D.
  destruct (is_leap y); twelve m; month_tables; lia.
Qed.

Lemma ymd2ord_month_mono (y m1 d1 m2 d2 : Z) :
  valid_gregorian y m1 d1 -> valid_gregorian y m2 d2 -> m1 < m2 ->
  ymd2ord y m1 d1 < ymd2ord y m2 d2.
Proof.
  intros [Hm1 Hd1] [Hm2 Hd2] Hlt.
  unfold ymd2ord, days_before_month, days_in_month in *.
  generalize (days_before_year y). intros D.
  destruct (is_leap y); twelve m1; twelve m2; try lia; month_tables; lia.
Qed.

Lemma ymd2ord_inj (y1 m1 d1 y2 m2 d2 : Z) :
  valid_gregorian y1 m1 d1 -> valid_gregorian y2 m2 d2 ->
  ymd2ord y1 m1 d1 = ymd2ord y2 m2 d2 ->
  (y1, m1, d1) = (y2, m2, d2).
Proof.
  intros V1 V2 E.
  pose proof (ymd2ord_bounds _ _ _ V1) as B1.
  pose proof (ymd2ord_bounds _ _ _ V2) as B2.
  assert (y1 = y2).
  { destruct (Z.lt_trichotomy y1 y2) as [Hlt | [Heq | Hgt]]; [| exact Heq |].
    - pose proof (days_before_year_mono (y1 + 1) y2 ltac:(lia)). lia.
    - pose proof (days_before_year_mono (y2 + 1) y1 ltac:(lia)). lia. }
  subst y2.
  assert (m1 = m2).
  { destruct (Z.lt_trichotomy m1 m2) as [Hlt | [Heq | Hgt]]; [| exact Heq |].
    - pose proof (ymd2ord_month_mono _ _ _ _ _ V1 V2 Hlt). lia.
    - pose proof (ymd2ord_month_mono _ _ _ _ _ V2 V1 Hgt). lia. }
  subst m2. unfold ymd2ord in E. f_equal. lia.
Qed.

Lemma g_d_m_is_days_before_month (gm : Z) :
  1 <= gm <= 12 ->
  py_getitem g_d_m (gm - 1) = Some (nth (Z.to_nat gm) DAYS_BEFORE_MONTH 0).
Proof. intros Hm. twelve gm; reflexivity. Qed.

(** The number that [gregorian_to_jalali] counts the days with is the
    ordinal of the date, shifted by a constant. *)
Lemma gregorian_day_number (gy gm gd : Z) :
  1 <= gm <= 12 ->
  gregorian_to_jalali gy gm gd
  = Some (jalali_of_days (ymd2ord gy gm gd + 356032)).
Proof.
  intros Hm. unfold gregorian_to_jalali.
  rewrite (g_d_m_is_days_before_month gm Hm). f_equal. f_equal.
  unfold ymd2ord, days_before_month, days_before_year, is_leap. cbv zeta.
  generalize (nth (Z.to_nat gm) DAYS_BEFORE_MONTH 0). intros T.
  destruct (Z.gtb_spec gm 2); cbn [andb].
  - destruct (Z.eqb_spec (gy mod 4) 0), (Z.eqb_spec (gy mod 100) 0),
      (Z.eqb_spec (gy mod 400) 0); cbn [andb orb negb];
      Z.div_mod_to_equations; lia.
  - Z.div_mod_to_equations; lia.
Qed.

(** X1: two different valid Gregorian dates never get the same Jalali
    date from [gregorian_to_jalali]. *)
Theorem gregorian_to_jalali_injective (y1 m1 d1 y2 m2 d2 : Z) :
  valid_gregorian y1 m1 d1 -> valid_gregorian y2 m2 d2 ->
  (y1, m1, d1) <> (y2, m2, d2) ->
  gregorian_to_jalali y1 m1 d1 <> gregorian_to_jalali y2 m2 d2.
Proof.
  intros V1 V2 Hne.
  rewrite (gregorian_day_number y1 m1 d1 (proj1 V1)).
  rewrite (gregorian_day_number y2 m2 d2 (proj1 V2)).
  intros E. injection E as E. apply jalali_of_days_inj in E.
  apply Hne. apply ymd2ord_inj; [assumption | assumption | lia].
Qed.

Lemma gregorian_to_jalali_injective_witness :
  gregorian_to_jalali 2024 2 29 <> gregorian_to_jalali 2024 3 1.
Proof.
  apply gregorian_to_jalali_injective;
    [unfold valid_gregorian; vm_compute; intuition discriminate
    | unfold valid_gregorian; vm_compute; intuition discriminate
    | discriminate].
Defined.

(** X2: the day that [gregorian_to_jalali] returns fits the month it
    returns: at most 31 in the months 1 to 6, at most 30 in the months 7
    to 12. *)
Theorem jalali_day_fits_month (gy gm gd : Z) :
  1 <= gm <= 12 ->
  exists jy jm jd,
    gregorian_to_jalali gy gm gd = Some (jy, jm, jd)
    /\ (jm <= 6 -> 1 <= jd <= 31)
    /\ (7 <= jm -> 1 <= jd <= 30).
Proof.
  intros Hm. rewrite (gregorian_day_number gy gm gd Hm).
  rewrite jalali_of_days_stages. cbv zeta.
  match goal with
  | |- context [year_day ?b] =>
      pose proof (year_day_range b
                    (Z.mod_pos_bound _ 1461 ltac:(lia))) as [_ Hdoy];
      destruct (year_day b) as [yo doy]
  end.
  cbn [snd] in Hdoy. unfold month_day.
  destruct (Z.ltb_spec doy 186);
    (eexists; eexists; eexists; split; [reflexivity |]);
    split; intros; Z.div_mod_to_equations; lia.
Qed.

Lemma jalali_day_fits_month_witness :
  exists jy jm jd,
    gregorian_to_jalali 2025 3 20 = Some (jy, jm, jd)
    /\ (jm <= 6 -> 1 <= jd <= 31)
    /\ (7 <= jm -> 1 <= jd <= 30).
Proof. apply jalali_day_fits_month. lia. Defined.

(** ** Invoice numbers in English digits *)

Lemma string_pairs_ind (P : string -> Prop) :
  P "" ->
  (forall c, P (String c "")) ->
  (forall c1 c2 r, P r -> P (String c2 r) -> P (String c1 (String c2 r))) ->
  forall s, P s.
Proof.
  intros H0 H1 H2.
  assert (Hboth : forall s, P s /\ forall c, P (String c s)).
  { induction s as [| c s [IH1 IH2]].
    - split; [exact H0 | exact H1].
    - split; [apply IH2 |]. intros c0. apply H2; [exact IH1 | apply IH2]. }
  intros s. apply Hboth.
Qed.

Lemma convert_step (c1 c2 : ascii) (r : string) :
  convert_to_english_numbers (String c1 (String c2 r))
  = if byte_is c1 219 && byte_in c2 176 185
    then String (ascii_of_N (N_of_ascii c2 - 176 + 48))
           (convert_to_english_numbers r)
    else if byte_is c1 217 && byte_in c2 160 169
    then String (ascii_of_N (N_of_ascii c2 - 160 + 48))
           (convert_to_english_numbers r)
    else String c1 (convert_to_english_numbers (String c2 r)).
Proof. reflexivity. Qed.

Lemma digit_byte (c : ascii) (lo : N) :
  (lo <= N_of_ascii c <= lo + 9)%N ->
  (48 <= N_of_ascii (ascii_of_N (N_of_ascii c - lo + 48)) <= 57)%N.
Proof.
  intros H. rewrite N_ascii_embedding; lia.
Qed.

Lemma byte_in_spec (c : ascii) (lo hi : N) :
  byte_in c lo hi = true <-> (lo <= N_of_ascii c <= hi)%N.
Proof.
  unfold byte_in. rewrite andb_true_iff, !N.leb_le. tauto.
Qed.

Lemma byte_is_spec (c : ascii) (n : N) :
  byte_is c n = true <-> N_of_ascii c = n.
Proof. unfold byte_is. apply N.eqb_eq. Qed.

(** The first byte of a converted text is the first byte of the text or
    an ASCII digit. *)
Lemma convert_head (c : ascii) (s : string) :
  exists h t,
    convert_to_english_numbers (String c s) = String h t
    /\ (h = c \/ (48 <= N_of_ascii h <= 57)%N).
Proof.
  destruct s as [| c2 r]; [exists c, ""; split; [reflexivity | left; reflexivity] |].
  rewrite convert_step.
  destruct (byte_is c 219 && byte_in c2 176 185) eqn:E1.
  - eexists. eexists. split; [reflexivity |]. right.
    apply andb_true_iff in E1. destruct E1 as [_ E1].
    apply byte_in_spec in E1. apply digit_byte. lia.
  - destruct (byte_is c 217 && byte_in c2 160 169) eqn:E2.
    + eexists. eexists. split; [reflexivity |]. right.
      apply andb_true_iff in E2. destruct E2 as [_ E2].
      apply byte_in_spec in E2. apply digit_byte. lia.
    + eexists. eexists. split; [reflexivity | left; reflexivity].
Qed.

Lemma not_pair_after (c1 h : ascii) (lead lo hi : N) (c2 : ascii) :
  (128 <= lo)%N ->
  byte_is c1 lead && byte_in c2 lo hi = false ->
  h = c2 \/ (48 <= N_of_ascii h <= 57)%N ->
  byte_is c1 lead && byte_in h lo hi = false.
Proof.
  intros Hlo Hpair [-> | Hdigit]; [exact Hpair |].
  destruct (byte_is c1 lead); [| reflexivity]. cbn [andb].
  destruct (byte_in h lo hi) eqn:E; [| reflexivity].
  apply byte_in_spec in E. lia.
Qed.

Lemma convert_idempotent (s : string) :
  convert_to_english_numbers (convert_to_english_numbers s)
  = convert_to_english_numbers s.
Proof.
  induction s as [| c | c1 c2 r IHr IH2] using string_pairs_ind;
    [reflexivity | reflexivity |].
  rewrite convert_step.
  assert (Hafter_digit : forall d t,
             (48 <= N_of_ascii d <= 57)%N ->
             convert_to_english_numbers (String d t)
             = String d (convert_to_english_numbers t)).
  { intros d t Hd. destruct t as [| x t]; [reflexivity |].
    rewrite convert_step.
    assert (E1 : byte_is d 219 = false)
      by (apply N.eqb_neq; lia).
    assert (E2 : byte_is d 217 = false)
      by (apply N.eqb_neq; lia).
    rewrite E1, E2. reflexivity. }
  destruct (byte_is c1 219 && byte_in c2 176 185) eqn:E1.
  - apply andb_true_iff in E1. destruct E1 as [_ E1].
    apply byte_in_spec in E1.
    rewrite Hafter_digit by (apply digit_byte; lia).
    rewrite IHr. reflexivity.
  - destruct (byte_is c1 217 && byte_in c2 160 169) eqn:E2.
    + apply andb_true_iff in E2. destruct E2 as [_ E2].
      apply byte_in_spec in E2.
      rewrite Hafter_digit by (apply digit_byte; lia).
      rewrite IHr. reflexivity.
    + destruct (convert_head c2 r) as (h & t & Hconv & Hh).
      rewrite Hconv in *. rewrite convert_step.
      rewrite (not_pair_after c1 h 219 176 185 c2 ltac:(lia) E1 Hh).
      rewrite (not_pair_after c1 h 217 160 169 c2 ltac:(lia) E2 Hh).
      rewrite IH2. reflexivity.
Qed.

Lemma convert_ascii (s : string) :
  all_ascii s = true -> convert_to_english_numbers s = s.
Proof.
  induction s as [| c | c1 c2 r IHr IH2] using string_pairs_ind;
    [reflexivity | reflexivity |].
  intros H. rewrite convert_step.
  cbn [all_ascii] in H. apply andb_true_iff in H. destruct H as [H1 H].
  apply N.ltb_lt in H1.
  assert (E1 : byte_is c1 219 = false) by (apply N.eqb_neq; lia).
  assert (E2 : byte_is c1 217 = false) by (apply N.eqb_neq; lia).
  rewrite E1, E2. cbn [andb]. rewrite (IH2 H). reflexivity.
Qed.

Lemma convert_all_ascii_kept (s : string) :
  all_ascii s = true -> all_ascii (convert_to_english_numbers s) = true.
Proof. intros H. rewrite (convert_ascii s H). exact H. Qed.

(** X3: [convert_to_english_numbers] leaves a text of ASCII characters
    as it is, and converting a converted text changes nothing more: a
    second pass finds no Persian or Arabic digit to replace. *)
Theorem convert_to_english_numbers_settles (s : string) :
  convert_to_english_numbers (convert_to_english_numbers s)
  = convert_to_english_numbers s
  /\ (all_ascii s = true -> convert_to_english_numbers s = s).
Proof. split; [apply convert_idempotent | apply convert_ascii]. Qed.

Lemma convert_to_english_numbers_settles_witness :
  convert_to_english_numbers "۱۴۰۵/٠٨/12-فاکتور" = "1405/08/12-فاکتور"
  /\ convert_to_english_numbers (convert_to_english_numbers "۱۴۰۵/٠٨/12-فاکتور")
     = convert_to_english_numbers "۱۴۰۵/٠٨/12-فاکتور"
  /\ convert_to_english_numbers "INV-2024/17" = "INV-2024/17".
Proof.
  split; [reflexivity |]. split.
  - apply (proj1 (convert_to_english_numbers_settles "۱۴۰۵/٠٨/12-فاکتور")).
  - apply (proj2 (convert_to_english_numbers_settles "INV-2024/17")).
    reflexivity.
Defined.

(** ** The buffer of the text field *)

Section text_field.
Import ArMDTextField.

Lemma len_app (a b : text) : len (a ++ b)%list = len a + len b.
Proof. unfold len. rewrite length_app. lia. Qed.

Lemma clamp_range (ci : Z) (plain : text) :
  let c := if ci <? 0 then 0 else ci in
  let c := if c >? len plain then len plain else c in
  0 <= c <= len plain.
Proof.
  cbv zeta. unfold len.
  destruct (Z.ltb_spec ci 0).
  - destruct (Z.gtb_spec 0 (Z.of_nat (List.length plain))); lia.
  - destruct (Z.gtb_spec ci (Z.of_nat (List.length plain))); lia.
Qed.

(** X4: [insert_text] keeps every character of the buffer in its place
    and order, puts the new text at the cursor (brought back into the
    buffer when it is outside), and, unless it is an undo, refuses an
    insertion that would make the buffer longer than the limit:
    [max_chars], or 1024 when [max_chars] is 0. *)
Theorem insert_text_bounded (buf : text) (max_chars : Z)
  (substring : option text) (from_undo : bool) (ci : option Z) :
  (exists before after,
      buf = (before ++ after)%list
      /\ (insert_text buf max_chars substring from_undo ci = buf
          \/ insert_text buf max_chars substring from_undo ci
             = (before ++ or_empty substring ++ after)%list))
  /\ (from_undo = false ->
      len buf <= limit max_chars ->
      len (insert_text buf max_chars substring from_undo ci)
      <= limit max_chars)
  /\ (len buf + len (or_empty substring) <= limit max_chars ->
      len (insert_text buf max_chars substring from_undo ci)
      = len buf + len (or_empty substring)).
Proof.
  unfold insert_text.
  pose proof (clamp_range (cursor ci buf) buf) as Hc. cbv zeta in Hc.
  set (c := if (if cursor ci buf <? 0 then 0 else cursor ci buf) >? len buf
            then len buf
            else if cursor ci buf <? 0 then 0 else cursor ci buf) in *.
  assert (Hlen : len (firstn (Z.to_nat c) buf ++ or_empty substring
                      ++ skipn (Z.to_nat c) buf)%list
                 = len buf + len (or_empty substring)).
  { rewrite !len_app.
    rewrite <- (firstn_skipn (Z.to_nat c) buf) at 3.
    rewrite len_app. lia. }
  split; [| split].
  - exists (firstn (Z.to_nat c) buf), (skipn (Z.to_nat c) buf).
    split; [symmetry; apply firstn_skipn |].
    destruct (negb from_undo && _); [left | right]; reflexivity.
  - intros -> Hbuf. cbn [negb andb].
    destruct (Z.gtb_spec (len buf + len (or_empty substring))
                (limit max_chars)); [exact Hbuf |].
    rewrite Hlen. lia.
  - intros Hfits.
    destruct (Z.gtb_spec (len buf + len (or_empty substring))
                (limit max_chars)); [lia |].
    rewrite andb_false_r. exact Hlen.
Qed.

Lemma insert_text_bounded_witness :
  len [1604%N; 1575%N] <= limit 3
  /\ len (insert_text [1604%N; 1575%N] 3 (Some [1605%N; 1606%N]) false (Some 1))
     <= limit 3
  /\ insert_text [1604%N; 1575%N] 3 (Some [1605%N]) false (Some 7)
     = [1604%N; 1575%N; 1605%N].
Proof.
  assert (H : len [1604%N; 1575%N] <= limit 3) by (vm_compute; discriminate).
  split; [exact H |]. split; [| reflexivity].
  exact (proj1 (proj2 (insert_text_bounded [1604%N; 1575%N] 3 (Some [1605%N; 1606%N])
                         false (Some 1)))
           eq_refl H).
Defined.

Lemma removelast_snoc (a : text) (x : N) : removelast (a ++ [x])%list = a.
Proof. apply removelast_last. Qed.

(** X5: [do_backspace] removes the character before the cursor; with the
    cursor at the start (or before) it removes the last character
    instead, and with the cursor beyond the end of the buffer it removes
    nothing. *)
Theorem do_backspace_cases (buf : text) (ci : Z) :
  (0 < ci <= len buf ->
   exists before x after,
     buf = (before ++ x :: after)%list
     /\ len before = ci - 1
     /\ do_backspace buf (Some ci) = (before ++ after)%list)
  /\ (ci <= 0 ->
      forall start x,
        buf = (start ++ [x])%list -> do_backspace buf (Some ci) = start)
  /\ (len buf < ci -> do_backspace buf (Some ci) = buf)
  /\ do_backspace [] (Some ci) = [].
Proof.
  unfold do_backspace, cursor. cbv zeta.
  split; [| split; [| split]].
  - intros Hci.
    destruct (Z.leb_spec ci 0); [lia |]. cbn [andb].
    replace (Z.max 0 (ci - 1)) with (ci - 1) by lia.
    pose proof (firstn_skipn (Z.to_nat (ci - 1)) buf) as Hsplit.
    destruct (skipn (Z.to_nat (ci - 1)) buf) as [| x after] eqn:Hskip.
    + exfalso. apply (f_equal (@List.length N)) in Hsplit.
      rewrite length_app, length_firstn in Hsplit. cbn in Hsplit.
      unfold len in Hci. lia.
    + exists (firstn (Z.to_nat (ci - 1)) buf), x, after.
      split; [symmetry; exact Hsplit |]. split.
      * unfold len. rewrite length_firstn. unfold len in Hci. lia.
      * f_equal.
        replace (Z.to_nat ci) with (1 + Z.to_nat (ci - 1))%nat by lia.
        rewrite <- skipn_skipn, Hskip. reflexivity.
  - intros Hci start x ->.
    destruct (Z.leb_spec ci 0); [| lia]. cbn [andb].
    destruct (Z.eqb_spec (len (start ++ [x])%list) 0) as [E | _].
    + rewrite len_app in E. unfold len in E. cbn in E. lia.
    + apply removelast_snoc.
  - intros Hci. unfold len in Hci.
    destruct (Z.leb_spec ci 0); [lia |]. cbn [andb].
    replace (Z.max 0 (ci - 1)) with (ci - 1) by lia.
    rewrite firstn_all2 by lia. rewrite skipn_all2 by lia.
    apply app_nil_r.
  - destruct (ci <=? 0); [reflexivity |].
    cbn [andb]. rewrite firstn_nil, skipn_nil. reflexivity.
Qed.

Lemma do_backspace_cases_witness :
  0 < 2 <= len [1604%N; 1575%N; 1605%N]
  /\ do_backspace [1604%N; 1575%N; 1605%N] (Some 2) = [1604%N; 1605%N]
  /\ do_backspace [1604%N; 1575%N; 1605%N] (Some 0) = [1604%N; 1575%N]
  /\ do_backspace [1604%N; 1575%N; 1605%N] (Some 4) = [1604%N; 1575%N; 1605%N]
  /\ exists before x after,
      [1604%N; 1575%N; 1605%N] = (before ++ x :: after)%list
      /\ len before = 2 - 1
      /\ do_backspace [1604%N; 1575%N; 1605%N] (Some 2) = (before ++ after)%list.
Proof.
  assert (H : 0 < 2 <= len [1604%N; 1575%N; 1605%N])
    by (vm_compute; split; [reflexivity | discriminate]).
  split; [exact H |].
  split; [reflexivity |]. split; [reflexivity |]. split; [reflexivity |].
  exact (proj1 (do_backspace_cases [1604%N; 1575%N; 1605%N] 2) H).
Defined.

(** X6: a character typed at a cursor inside the buffer and accepted is
    taken back by a backspace from the position after it: the buffer is
    what it was. *)
Theorem backspace_undoes_insert (buf : text) (max_chars : Z) (c : N)
  (from_undo : bool) (ci : Z) :
  0 <= ci <= len buf ->
  len buf + 1 <= limit max_chars ->
  do_backspace (insert_text buf max_chars (Some [c]) from_undo (Some ci))
    (Some (ci + 1))
  = buf.
Proof.
  intros Hci Hfits. unfold insert_text. cbn [or_empty cursor].
  change (len [c]) with 1.
  destruct (Z.gtb_spec (len buf + 1) (limit max_chars)); [lia |].
  rewrite andb_false_r.
  destruct (Z.ltb_spec ci 0); [lia |].
  destruct (Z.gtb_spec ci (len buf)); [lia |].
  unfold do_backspace, cursor. cbv zeta.
  destruct (Z.leb_spec (ci + 1) 0); [lia |]. cbn [andb].
  replace (Z.max 0 (ci + 1 - 1)) with ci by lia.
  assert (Hlen : List.length (firstn (Z.to_nat ci) buf) = Z.to_nat ci).
  { rewrite length_firstn. unfold len in Hci. lia. }
  rewrite firstn_app, Hlen, Nat.sub_diag, firstn_O, app_nil_r.
  rewrite firstn_firstn, Nat.min_id.
  rewrite skipn_app, Hlen.
  replace (Z.to_nat (ci + 1)) with (S (Z.to_nat ci)) by lia.
  rewrite (skipn_all2 (firstn (Z.to_nat ci) buf)) by lia.
  replace (S (Z.to_nat ci) - Z.to_nat ci)%nat with 1%nat by lia.
  cbn [List.app skipn]. apply firstn_skipn.
Qed.

Lemma backspace_undoes_insert_witness :
  0 <= 1 <= len [1604%N; 1575%N]
  /\ len [1604%N; 1575%N] + 1 <= limit 0
  /\ do_backspace (insert_text [1604%N; 1575%N] 0 (Some [1605%N]) false (Some 1))
       (Some (1 + 1))
     = [1604%N; 1575%N].
Proof.
  assert (H1 : 0 <= 1 <= len [1604%N; 1575%N])
    by (vm_compute; split; discriminate).
  assert (H2 : len [1604%N; 1575%N] + 1 <= limit 0) by (vm_compute; discriminate).
  split; [exact H1 |]. split; [exact H2 |].
  exact (backspace_undoes_insert [1604%N; 1575%N] 0 1605 false 1 H1 H2).
Defined.

End text_field.

(** ** Identifiers *)

Lemma max_id_ge (rows : list product) (r : product) :
  In r rows -> id r <= max_id rows.
Proof.
  unfold max_id. induction rows as [| q rows IH]; [contradiction |].
  intros [-> | Hin]; cbn; [lia | specialize (IH Hin); lia].
Qed.

Lemma map_id_update (pid : Z) (f : fields -> fields) (rows : list product) :
  map id (update_where_id pid f rows) = map id rows.
Proof.
  unfold update_where_id. induction rows as [| r rows IH]; cbn; [reflexivity |].
  rewrite IH. destruct (id r =? pid); reflexivity.
Qed.

Lemma NoDup_map_filter (keep : product -> bool) (rows : list product) :
  NoDup (map id rows) -> NoDup (map id (filter keep rows)).
Proof.
  induction rows as [| r rows IH]; cbn; [auto |].
  intros Hnd. inversion Hnd as [| ? ? Hnotin Hnd']; subst.
  destruct (keep r); cbn; [| auto].
  constructor; [| auto].
  intros Hin. apply Hnotin. apply in_map_iff in Hin.
  destruct Hin as (q & Hq & Hin). apply filter_In in Hin.
  apply in_map_iff. exists q. tauto.
Qed.

Lemma insert_product_ids (f : fields) (d d' : database) (i : Z) :
  insert_product f d = Ok (d', i) ->
  products_seq d < i
  /\ (forall r, In r (products d) -> id r < i)
  /\ products_seq d' = i
  /\ products d' = (products d ++ [mk_product i f])%list.
Proof.
  unfold insert_product.
  destruct (unique_codes _); [| discriminate].
  intros H. injection H as <- <-. cbn [products products_seq].
  repeat split; try lia.
  intros r Hin. pose proof (max_id_ge _ _ Hin). lia.
Qed.

Lemma insert_product_ids_ok (f : fields) (d d' : database) (i : Z) :
  insert_product f d = Ok (d', i) -> ids_ok d -> ids_ok d'.
Proof.
  intros Hins [Hnd Hle].
  destruct (insert_product_ids _ _ _ _ Hins) as (Hseq & Hfresh & Hseq' & Hrows).
  unfold ids_ok. rewrite Hrows, Hseq'. split.
  - rewrite map_app. cbn [map id].
    apply NoDup_app; [exact Hnd | repeat constructor; auto | ].
    intros x Hx [<- | []]. apply in_map_iff in Hx.
    destruct Hx as (r & Hr & Hin). specialize (Hfresh r Hin). lia.
  - apply Forall_app. split.
    + eapply Forall_impl; [| exact Hle]. cbn. intros r Hr. lia.
    + repeat constructor. cbn. lia.
Qed.

Lemma update_ids_ok (pid : Z) (f : fields -> fields) (d : database) :
  ids_ok d -> ids_ok (set_products d (update_where_id pid f (products d))).
Proof.
  intros [Hnd Hle]. unfold ids_ok. cbn [products products_seq set_products].
  rewrite map_id_update. split; [exact Hnd |].
  rewrite Forall_forall in *. intros r' Hin.
  unfold update_where_id in Hin. apply in_map_iff in Hin.
  destruct Hin as (r & <- & Hin). specialize (Hle r Hin).
  destruct (id r =? pid); exact Hle.
Qed.

Lemma update_product_ids_ok (pid : Z) (p : fields) (d d' : database) :
  update_product pid p d = Ok d' -> ids_ok d -> ids_ok d'.
Proof.
  unfold update_product. destruct (unique_codes _); [| discriminate].
  intros H. injection H as <-. apply update_ids_ok.
Qed.

Lemma filter_ids_ok (keep : product -> bool) (d : database) :
  ids_ok d -> ids_ok (set_products d (filter keep (products d))).
Proof.
  intros [Hnd Hle]. split; cbn [products products_seq set_products].
  - apply NoDup_map_filter, Hnd.
  - apply Forall_filter, Hle.
Qed.

Lemma delete_old_row_ids_ok (db_path : string) (d : database)
  (fs : filesystem) (n : Z) (r : product) :
  ids_ok d -> ids_ok (fst (fst (delete_old_row db_path (d, fs, n) r))).
Proof.
  intros Hok. unfold delete_old_row.
  destruct (remove_if_exists (image (cols r)) fs) as [fs1 |]; [| exact Hok].
  destruct (remove_if_exists (thumb (cols r)) fs1) as [fs2 |]; [| exact Hok].
  apply filter_ids_ok, Hok.
Qed.

Lemma delete_old_rows_ids_ok (db_path : string) (rows : list product) :
  forall (d : database) (fs : filesystem) (n : Z),
    ids_ok d ->
    ids_ok (fst (fst (fold_left (delete_old_row db_path) rows (d, fs, n)))).
Proof.
  induction rows as [| r rows IH]; intros d fs n Hok; cbn [fold_left];
    [exact Hok |].
  pose proof (delete_old_row_ids_ok db_path d fs n r Hok) as H1.
  destruct (delete_old_row db_path (d, fs, n) r) as [[d1 fs1] n1].
  apply IH. exact H1.
Qed.

Lemma mark_as_sold_ids_ok `{PyInt} (pid : pyval) (invoice : string)
  (si st : option string) (now : datetime) (d : database) :
  ids_ok d -> ids_ok (mark_as_sold pid invoice si st now d).
Proof.
  intros Hok. unfold mark_as_sold.
  destruct (py_int pid) as [pid_int |]; [| exact Hok].
  destruct (select_by_id pid_int d); [| exact Hok].
  destruct (get_jalali_datetime_string now); [| exact Hok].
  apply update_ids_ok, Hok.
Qed.

Lemma do_sell_with_invoice_ids_ok `{PyInt} (prod : product)
  (invoice_str : string) (env : sale_env) (now : datetime) (d : database) :
  ids_ok d -> ids_ok (do_sell_with_invoice prod invoice_str env now d).
Proof.
  intros Hok. unfold do_sell_with_invoice.
  destruct (_ =? "")%string; [exact Hok |].
  destruct (negb (sold_dir_made env)); [exact Hok |].
  destruct (quantity (cols prod)) as [q |];
    [| apply mark_as_sold_ids_ok; exact Hok].
  destruct (negb (q =? 0) && (q >? 1));
    [| apply mark_as_sold_ids_ok; exact Hok].
  match goal with
  | |- context [match ?x with Some _ => _ | None => d end] =>
      destruct x as [stamp0 |]; [| exact Hok]
  end.
  destruct (update_product _ _ d) as [d1 |] eqn:Hupd; [| exact Hok].
  pose proof (update_product_ids_ok _ _ _ _ Hupd Hok) as Hok1.
  destruct (name (cols prod)); [| exact Hok1].
  destruct (get_jalali_datetime_string now); [| exact Hok1].
  destruct (add_product _ d1) as [[d2 i] |] eqn:Hadd; [| exact Hok1].
  unfold add_product in Hadd. eapply insert_product_ids_ok; eassumption.
Qed.

Lemma restore_invoice_products_ids_ok (invoice : string) (d : database) :
  ids_ok d -> ids_ok (restore_invoice_products invoice d).
Proof.
  unfold restore_invoice_products.
  generalize (filter
                (fun p => match sold_invoice (cols p) with
                          | Some i => (i =? invoice)%string
                          | None => false
                          end)
                (get_all_products true d)).
  intros chosen. revert d.
  induction chosen as [| p chosen IH]; intros d Hok; cbn [fold_left];
    [exact Hok |].
  apply IH, update_ids_ok, Hok.
Qed.

Lemma save_entries_ids_ok (category base_number : string) (now : datetime)
  (entries : list entry) :
  forall (idx : nat) (d d' : database),
    save_entries category base_number now idx entries d = Some d' ->
    ids_ok d -> ids_ok d'.
Proof.
  induction entries as [| e rest IH]; intros idx d d'; cbn.
  - intros H. injection H as <-. auto.
  - unfold save_entry.
    destruct (unused_code _ _ _ _); [| discriminate].
    destruct (get_jalali_datetime_string now);
      [| intros H; injection H as <-; auto].
    destruct (add_product _ d) as [[d1 i] |] eqn:Hadd;
      [| intros H; injection H as <-; auto].
    intros Hrest Hok. eapply IH; [exact Hrest |].
    unfold add_product in Hadd. eapply insert_product_ids_ok; eassumption.
Qed.

Lemma run_ids_ok `{PyInt} (e : event) (a a' : app) :
  run e a = Some a' -> ids_ok (db a) -> ids_ok (db a').
Proof.
  intros Hrun Hok. destruct e; unfold run in Hrun.
  - destruct (save_batch_products _ _ _ _ _) as [d' |] eqn:Hs; [| discriminate].
    injection Hrun as <-. cbn [db].
    eapply save_entries_ids_ok; [exact Hs | exact Hok].
  - destruct (find_product true pid (db a)); injection Hrun as <-; exact Hok.
  - destruct (find_product false pid (db a)); injection Hrun as <-; exact Hok.
  - destruct (current_product a); injection Hrun as <-; [| exact Hok].
    cbn [db]. apply do_sell_with_invoice_ids_ok, Hok.
  - injection Hrun as <-. cbn [db]. unfold restore_sold_product.
    destruct (find_product true product_id (db a)); [| exact Hok].
    apply update_ids_ok, Hok.
  - injection Hrun as <-. cbn [db].
    apply restore_invoice_products_ids_ok, Hok.
  - injection Hrun as <-. cbn [db]. unfold confirm_delete. cbn [fst].
    destruct (find_product true pid (db a)); [| exact Hok].
    unfold delete_product. cbn [py_int fst].
    apply filter_ids_ok, Hok.
  - injection Hrun as <-. cbn [db]. unfold delete_old_sold_products.
    destruct (minus_days now _); [| exact Hok].
    apply delete_old_rows_ids_ok, Hok.
  - injection Hrun as <-. cbn [db]. unfold set_base_image.
    destruct (existsb _ _); [exact Hok |].
    destruct (unique_pairs _); exact Hok.
  - injection Hrun as <-. split; constructor.
Qed.

(** The counter of AUTOINCREMENT goes down only when the database file
    is deleted. *)
Lemma fold_seq_le {A : Type} (step : database -> A -> database)
  (l : list A) :
  (forall d x, products_seq d <= products_seq (step d x)) ->
  forall d, products_seq d <= products_seq (fold_left step l d).
Proof.
  intros Hstep. induction l as [| x l IH]; intros d; cbn [fold_left];
    [lia |].
  specialize (IH (step d x)). specialize (Hstep d x). lia.
Qed.

Lemma mark_as_sold_seq `{PyInt} (pid : pyval) (invoice : string)
  (si st : option string) (now : datetime) (d : database) :
  products_seq (mark_as_sold pid invoice si st now d) = products_seq d.
Proof.
  unfold mark_as_sold.
  destruct (py_int pid) as [pid_int |]; [| reflexivity].
  destruct (select_by_id pid_int d); [| reflexivity].
  destruct (get_jalali_datetime_string now); reflexivity.
Qed.

Lemma do_sell_with_invoice_seq `{PyInt} (prod : product)
  (invoice_str : string) (env : sale_env) (now : datetime) (d : database) :
  products_seq d
  <= products_seq (do_sell_with_invoice prod invoice_str env now d).
Proof.
  unfold do_sell_with_invoice.
  destruct (_ =? "")%string; [lia |].
  destruct (negb (sold_dir_made env)); [lia |].
  destruct (quantity (cols prod)) as [q |];
    [| rewrite mark_as_sold_seq; lia].
  destruct (negb (q =? 0) && (q >? 1));
    [| rewrite mark_as_sold_seq; lia].
  match goal with
  | |- context [match ?x with Some _ => _ | None => d end] =>
      destruct x as [stamp0 |]; [| lia]
  end.
  destruct (update_product _ _ d) as [d1 |] eqn:Hupd; [| lia].
  assert (Hseq1 : products_seq d1 = products_seq d).
  { unfold update_product in Hupd.
    destruct (unique_codes _); [| discriminate].
    injection Hupd as <-. reflexivity. }
  destruct (name (cols prod)); [| lia].
  destruct (get_jalali_datetime_string now); [| lia].
  destruct (add_product _ d1) as [[d2 i] |] eqn:Hadd; [| lia].
  unfold add_product in Hadd. apply insert_product_ids in Hadd. lia.
Qed.

Lemma save_entries_seq (category base_number : string) (now : datetime)
  (entries : list entry) :
  forall (idx : nat) (d d' : database),
    save_entries category base_number now idx entries d = Some d' ->
    products_seq d <= products_seq d'.
Proof.
  induction entries as [| e rest IH]; intros idx d d'; cbn.
  - intros E. injection E as <-. lia.
  - unfold save_entry.
    destruct (unused_code _ _ _ _); [| discriminate].
    destruct (get_jalali_datetime_string now);
      [| intros E; injection E as <-; lia].
    destruct (add_product _ d) as [[d1 i] |] eqn:Hadd;
      [| intros E; injection E as <-; lia].
    intros Hrest. apply IH in Hrest.
    unfold add_product in Hadd. apply insert_product_ids in Hadd. lia.
Qed.

Lemma delete_old_rows_seq (db_path : string) (rows : list product) :
  forall (d : database) (fs : filesystem) (n : Z),
    products_seq
      (fst (fst (fold_left (delete_old_row db_path) rows (d, fs, n))))
    = products_seq d.
Proof.
  induction rows as [| r rows IH]; intros d fs n; cbn [fold_left];
    [reflexivity |].
  assert (Hstep : products_seq (fst (fst (delete_old_row db_path (d, fs, n) r)))
                  = products_seq d).
  { unfold delete_old_row.
    destruct (remove_if_exists (image (cols r)) fs) as [fs1 |];
      [| reflexivity].
    destruct (remove_if_exists (thumb (cols r)) fs1); reflexivity. }
  destruct (delete_old_row db_path (d, fs, n) r) as [[d1 fs1] n1].
  rewrite IH. exact Hstep.
Qed.

Lemma run_seq_le `{PyInt} (e : event) (a a' : app) :
  run e a = Some a' -> e <> DeleteAllData ->
  products_seq (db a) <= products_seq (db a').
Proof.
  intros Hrun Hkeep. destruct e; unfold run in Hrun.
  - destruct (save_batch_products _ _ _ _ _) as [d' |] eqn:Hs; [| discriminate].
    injection Hrun as <-. cbn [db].
    eapply save_entries_seq. exact Hs.
  - destruct (find_product true pid (db a)); injection Hrun as <-; cbn; lia.
  - destruct (find_product false pid (db a)); injection Hrun as <-; cbn; lia.
  - destruct (current_product a); injection Hrun as <-; cbn [db]; [| lia].
    apply do_sell_with_invoice_seq.
  - injection Hrun as <-. cbn [db]. unfold restore_sold_product.
    destruct (find_product true product_id (db a)); cbn; lia.
  - injection Hrun as <-. cbn [db]. unfold restore_invoice_products.
    apply fold_seq_le. intros d x. cbn. lia.
  - injection Hrun as <-. cbn [db]. unfold confirm_delete. cbn [fst].
    destruct (find_product true pid (db a)); [| cbn; lia].
    unfold delete_product. cbn [py_int fst set_products products_seq]. lia.
  - injection Hrun as <-. cbn [db]. unfold delete_old_sold_products.
    destruct (minus_days now _); [| cbn; lia].
    rewrite delete_old_rows_seq. lia.
  - injection Hrun as <-. cbn [db]. unfold set_base_image.
    destruct (existsb _ _); [cbn; lia |].
    destruct (unique_pairs _); cbn; lia.
  - contradiction.
Qed.

(** Where the ids of the rows come from. *)
Lemma ids_come_from_same (d d' : database) :
  map id (products d') = map id (products d) -> ids_come_from d d'.
Proof.
  intros Hids r' Hin. left. rewrite <- Hids. apply in_map, Hin.
Qed.

Lemma ids_come_from_shrinks (d d' : database) :
  shrinks d d' -> ids_come_from d d'.
Proof.
  intros [[keep Hrows] _] r' Hin. left. rewrite Hrows in Hin.
  apply filter_In in Hin. apply in_map. tauto.
Qed.

Lemma ids_come_from_trans (d d1 d2 : database) :
  ids_come_from d d1 -> ids_come_from d1 d2 ->
  products_seq d <= products_seq d1 -> ids_come_from d d2.
Proof.
  intros H1 H2 Hseq r2 Hin.
  destruct (H2 r2 Hin) as [Hold | Hnew]; [| right; lia].
  apply in_map_iff in Hold. destruct Hold as (r1 & <- & Hr1).
  exact (H1 r1 Hr1).
Qed.

Lemma ids_come_from_insert (f : fields) (d d' : database) (i : Z) :
  insert_product f d = Ok (d', i) -> ids_come_from d d'.
Proof.
  intros Hins r' Hin.
  destruct (insert_product_ids _ _ _ _ Hins) as (Hseq & _ & _ & Hrows).
  rewrite Hrows in Hin. apply in_app_or in Hin.
  destruct Hin as [Hin | [<- | []]]; [left; apply in_map, Hin | right].
  exact Hseq.
Qed.

Lemma mark_as_sold_ids `{PyInt} (pid : pyval) (invoice : string)
  (si st : option string) (now : datetime) (d : database) :
  map id (products (mark_as_sold pid invoice si st now d))
  = map id (products d).
Proof.
  unfold mark_as_sold.
  destruct (py_int pid) as [pid_int |]; [| reflexivity].
  destruct (select_by_id pid_int d); [| reflexivity].
  destruct (get_jalali_datetime_string now); [| reflexivity].
  apply map_id_update.
Qed.

Lemma do_sell_with_invoice_ids_come_from `{PyInt} (prod : product)
  (invoice_str : string) (env : sale_env) (now : datetime) (d : database) :
  ids_come_from d (do_sell_with_invoice prod invoice_str env now d).
Proof.
  assert (Hsame : ids_come_from d d) by (apply ids_come_from_same; reflexivity).
  unfold do_sell_with_invoice.
  destruct (_ =? "")%string; [exact Hsame |].
  destruct (negb (sold_dir_made env)); [exact Hsame |].
  destruct (quantity (cols prod)) as [q |];
    [| apply ids_come_from_same, mark_as_sold_ids].
  destruct (negb (q =? 0) && (q >? 1));
    [| apply ids_come_from_same, mark_as_sold_ids].
  match goal with
  | |- context [match ?x with Some _ => _ | None => d end] =>
      destruct x as [stamp0 |]; [| exact Hsame]
  end.
  destruct (update_product _ _ d) as [d1 |] eqn:Hupd; [| exact Hsame].
  assert (H1 : ids_come_from d d1 /\ products_seq d1 = products_seq d).
  { unfold update_product in Hupd.
    destruct (unique_codes _); [| discriminate].
    injection Hupd as <-. split; [| reflexivity].
    apply ids_come_from_same. apply map_id_update. }
  destruct H1 as [H1 Hseq1].
  destruct (name (cols prod)); [| exact H1].
  destruct (get_jalali_datetime_string now); [| exact H1].
  destruct (add_product _ d1) as [[d2 i] |] eqn:Hadd; [| exact H1].
  unfold add_product in Hadd.
  apply (ids_come_from_trans d d1 d2 H1);
    [eapply ids_come_from_insert; exact Hadd | lia].
Qed.

Lemma restore_invoice_products_ids (invoice : string) (d : database) :
  map id (products (restore_invoice_products invoice d))
  = map id (products d).
Proof.
  unfold restore_invoice_products.
  generalize (filter
                (fun p => match sold_invoice (cols p) with
                          | Some i => (i =? invoice)%string
                          | None => false
                          end)
                (get_all_products true d)).
  intros chosen. revert d.
  induction chosen as [| p chosen IH]; intros d; cbn [fold_left];
    [reflexivity |].
  rewrite IH. cbn [products set_products]. apply map_id_update.
Qed.

Lemma save_entries_ids_come_from (category base_number : string)
  (now : datetime) (entries : list entry) :
  forall (idx : nat) (d d' : database),
    save_entries category base_number now idx entries d = Some d' ->
    ids_come_from d d'.
Proof.
  induction entries as [| e rest IH]; intros idx d d'; cbn.
  - intros E. injection E as <-. apply ids_come_from_same. reflexivity.
  - unfold save_entry.
    destruct (unused_code _ _ _ _); [| discriminate].
    destruct (get_jalali_datetime_string now);
      [| intros E; injection E as <-; apply ids_come_from_same; reflexivity].
    destruct (add_product _ d) as [[d1 i] |] eqn:Hadd;
      [| intros E; injection E as <-; apply ids_come_from_same; reflexivity].
    intros Hrest. unfold add_product in Hadd.
    apply (ids_come_from_trans d d1 d');
      [eapply ids_come_from_insert; exact Hadd
      | eapply IH; exact Hrest
      | apply insert_product_ids in Hadd; lia].
Qed.

Lemma run_ids_come_from `{PyInt} (e : event) (a a' : app) :
  run e a = Some a' -> e <> DeleteAllData ->
  ids_come_from (db a) (db a').
Proof.
  intros Hrun Hkeep.
  assert (Hsame : ids_come_from (db a) (db a))
    by (apply ids_come_from_same; reflexivity).
  destruct e; unfold run in Hrun.
  - destruct (save_batch_products _ _ _ _ _) as [d' |] eqn:Hs; [| discriminate].
    injection Hrun as <-. cbn [db].
    eapply save_entries_ids_come_from. exact Hs.
  - destruct (find_product true pid (db a)); injection Hrun as <-; exact Hsame.
  - destruct (find_product false pid (db a)); injection Hrun as <-; exact Hsame.
  - destruct (current_product a); injection Hrun as <-; cbn [db];
      [| exact Hsame].
    apply do_sell_with_invoice_ids_come_from.
  - injection Hrun as <-. cbn [db]. unfold restore_sold_product.
    destruct (find_product true product_id (db a)); [| exact Hsame].
    apply ids_come_from_same. apply map_id_update.
  - injection Hrun as <-. cbn [db].
    apply ids_come_from_same, restore_invoice_products_ids.
  - injection Hrun as <-. cbn [db].
    exact (ids_come_from_shrinks _ _ (confirm_delete_shrinks pid (db a) fs)).
  - injection Hrun as <-. cbn [db].
    exact (ids_come_from_shrinks _ _
             (delete_old_sold_products_shrinks db_path 3 now (db a) fs)).
  - injection Hrun as <-. cbn [db]. apply ids_come_from_same.
    unfold set_base_image.
    destruct (existsb _ _); [reflexivity |].
    destruct (unique_pairs _); reflexivity.
  - contradiction.
Qed.

Lemma run_all_ids `{PyInt} (es : list event) :
  forall a a' : app,
    run_all es a = Some a' -> ~ In DeleteAllData es ->
    products_seq (db a) <= products_seq (db a')
    /\ ids_come_from (db a) (db a')
    /\ (reachable a -> reachable a').
Proof.
  induction es as [| e es IH]; intros a a'; cbn [run_all].
  - intros E _. injection E as <-.
    split; [lia |]. split; [apply ids_come_from_same; reflexivity | auto].
  - destruct (run e a) as [a1 |] eqn:Hrun; [| discriminate].
    intros Hrest Hno.
    assert (He : e <> DeleteAllData)
      by (intros ->; apply Hno; left; reflexivity).
    assert (Hes : ~ In DeleteAllData es)
      by (intros Hin; apply Hno; right; exact Hin).
    destruct (IH a1 a' Hrest Hes) as (Hseq & Hids & Hreach).
    pose proof (run_seq_le e a a1 Hrun He) as Hseq1.
    split; [lia |]. split.
    + exact (ids_come_from_trans _ _ _
               (run_ids_come_from e a a1 Hrun He) Hids Hseq1).
    + intros Ha. apply Hreach. exact (reachable_run e a a1 Ha Hrun).
Qed.

(** X7: an id is given once.  The events are those of the application
    on its own database: batch save, opening a product, quick sale, sale,
    restoring a product or an invoice, deletion, the cleanup of old
    sales, a base photograph, and the deletion of all data; putting back
    a backup archive, which replaces the database file by another one, is
    not among them.  In every state reached by these events from a new
    database, and after any further events without a deletion of all
    data, the rows have different ids, none above the counter of
    AUTOINCREMENT; the counter has not gone down; and every row with an
    id up to the earlier counter has the id of a row that was there
    before.  So the id of a row that was deleted is not given to another
    row. *)
Theorem ids_never_reused `{PyInt} (a a' : app) (es : list event) :
  reachable a ->
  run_all es a = Some a' ->
  ~ In DeleteAllData es ->
  NoDup (map id (products (db a')))
  /\ (forall r, In r (products (db a')) -> id r <= products_seq (db a'))
  /\ products_seq (db a) <= products_seq (db a')
  /\ forall r',
      In r' (products (db a')) -> id r' <= products_seq (db a) ->
      In (id r') (map id (products (db a))).
Proof.
  intros Hreach Hrun Hno.
  destruct (run_all_ids es a a' Hrun Hno) as (Hseq & Hids & Hreach').
  specialize (Hreach' Hreach).
  assert (Hok : ids_ok (db a')).
  { clear Hrun Hseq Hids. induction Hreach' as [| e b b' _ IH Hstep];
      [split; constructor | eapply run_ids_ok; eassumption]. }
  destruct Hok as [Hnd Hle]. split; [exact Hnd |]. split; [| split].
  - apply Forall_forall. exact Hle.
  - exact Hseq.
  - intros r' Hin Hold. destruct (Hids r' Hin) as [Hthere | Hnew];
      [exact Hthere | lia].
Qed.

Lemma ids_never_reused_witness :
  exists a',
    @run_all decimal_int
      [ConfirmDelete 1 ring_files; SaveBatch "انگشتر" "12" [ring] today]
      shop_with_ring
    = Some a'
    /\ map id (products (db a')) = [2]
    /\ forall r',
        In r' (products (db a')) -> id r' <= 1 ->
        In (id r') (map id (products (db shop_with_ring))).
Proof.
  assert (Hreach : @reachable decimal_int shop_with_ring).
  { apply (@reachable_run decimal_int (SaveBatch "انگشتر" "12" [ring] today)
             initial); [| reflexivity].
    apply reachable_initial. }
  eexists. split; [vm_compute; reflexivity |]. split; [reflexivity |].
  refine (proj2 (proj2 (proj2
            (@ids_never_reused decimal_int shop_with_ring _
               [ConfirmDelete 1 ring_files;
                SaveBatch "انگشتر" "12" [ring] today]
               Hreach _ _)))).
  - vm_compute. reflexivity.
  - intros [E | [E | []]]; discriminate E.
Defined.

(** ** One piece per row *)

Lemma shrinks_neat (d d' : database) :
  shrinks d d' -> Forall neat (products d) -> Forall neat (products d').
Proof.
  intros [[keep ->] _]. apply Forall_filter.
Qed.

Lemma update_neat (pid : Z) (f : fields -> fields) (d : database) :
  (forall g, neat (mk_product pid (f g))) ->
  Forall neat (products d) ->
  Forall neat (products (set_products d (update_where_id pid f (products d)))).
Proof.
  intros Hf Hall. cbn [products set_products].
  apply Forall_update_where_id; [exact Hall |].
  intros r _ ->. apply Hf.
Qed.

Lemma sold_columns_neat (pid : Z) (invoice stamp : string)
  (img th : option string) (g : fields) :
  invoice <> "" -> neat (mk_product pid (sold_columns invoice img th stamp g)).
Proof.
  intros Hne. left. unfold sold. cbn. split; [| reflexivity].
  destruct (String.eqb_spec invoice ""); [contradiction | reflexivity].
Qed.

Lemma restored_columns_neat (pid : Z) (g : fields) :
  neat (mk_product pid (restored_columns g)).
Proof. right. cbn. auto. Qed.

Lemma mark_as_sold_neat `{PyInt} (pid : pyval) (invoice : string)
  (si st : option string) (now : datetime) (d : database) :
  invoice <> "" ->
  Forall neat (products d) ->
  Forall neat (products (mark_as_sold pid invoice si st now d)).
Proof.
  intros Hne Hall. unfold mark_as_sold.
  destruct (py_int pid) as [pid_int |]; [| exact Hall].
  destruct (select_by_id pid_int d); [| exact Hall].
  destruct (get_jalali_datetime_string now); [| exact Hall].
  apply update_neat; [| exact Hall].
  intros g. apply sold_columns_neat, Hne.
Qed.

(** With one piece in the row the sale is [mark_as_sold], or nothing. *)
Lemma do_sell_with_invoice_neat `{PyInt} (prod : product)
  (invoice_str : string) (env : sale_env) (now : datetime) (d : database) :
  neat prod ->
  let invoice := convert_to_english_numbers (strip invoice_str) in
  (invoice = "" \/ sold_dir_made env = false ->
   do_sell_with_invoice prod invoice_str env now d = d)
  /\ (invoice <> "" -> sold_dir_made env = true ->
      do_sell_with_invoice prod invoice_str env now d
      = mark_as_sold (VInt (id prod)) invoice
          (or_else (copied_image env) (image (cols prod)))
          (or_else (copied_thumb env) (thumb (cols prod))) now d).
Proof.
  intros Hneat invoice. unfold do_sell_with_invoice. fold invoice. split.
  - intros [-> | ->]; [reflexivity |].
    destruct (invoice =? "")%string; reflexivity.
  - intros Hne ->.
    destruct (String.eqb_spec invoice ""); [contradiction |].
    cbn [negb].
    destruct Hneat as [[_ ->] | (_ & _ & ->)]; reflexivity.
Qed.

Lemma do_sell_with_invoice_keeps_neat `{PyInt} (prod : product)
  (invoice_str : string) (env : sale_env) (now : datetime) (d : database) :
  neat prod ->
  Forall neat (products d) ->
  Forall neat (products (do_sell_with_invoice prod invoice_str env now d)).
Proof.
  intros Hneat Hall.
  destruct (do_sell_with_invoice_neat prod invoice_str env now d Hneat)
    as [Hskip Hsell].
  destruct (String.eqb_spec (convert_to_english_numbers (strip invoice_str)) "")
    as [He | Hne].
  - rewrite Hskip; [exact Hall | left; exact He].
  - destruct (sold_dir_made env) eqn:Hdir.
    + rewrite (Hsell Hne eq_refl). apply mark_as_sold_neat; assumption.
    + rewrite Hskip; [exact Hall | right; reflexivity].
Qed.

Lemma restore_invoice_products_neat (invoice : string) (d : database) :
  Forall neat (products d) ->
  Forall neat (products (restore_invoice_products invoice d)).
Proof.
  unfold restore_invoice_products.
  generalize (filter
                (fun p => match sold_invoice (cols p) with
                          | Some i => (i =? invoice)%string
                          | None => false
                          end)
                (get_all_products true d)).
  intros chosen. revert d.
  induction chosen as [| p chosen IH]; intros d Hall; cbn [fold_left];
    [exact Hall |].
  apply IH, update_neat; [| exact Hall].
  intros g. apply restored_columns_neat.
Qed.

Lemma save_entries_neat (category base_number : string) (now : datetime)
  (entries : list entry) :
  forall (idx : nat) (d d' : database),
    save_entries category base_number now idx entries d = Some d' ->
    Forall neat (products d) -> Forall neat (products d').
Proof.
  induction entries as [| e rest IH]; intros idx d d'; cbn.
  - intros E. injection E as <-. auto.
  - unfold save_entry.
    destruct (unused_code _ _ _ _); [| discriminate].
    destruct (get_jalali_datetime_string now);
      [| intros E; injection E as <-; auto].
    destruct (add_product _ d) as [[d1 i] |] eqn:Hadd;
      [| intros E; injection E as <-; auto].
    intros Hrest Hall. eapply IH; [exact Hrest |].
    unfold add_product in Hadd. apply insert_product_ok in Hadd.
    destruct Hadd as [-> _]. apply Forall_app. split; [exact Hall |].
    constructor; [| constructor]. right. cbn. auto.
Qed.

Lemma run_tidy `{PyInt} (e : event) (a a' : app) :
  run e a = Some a' -> tidy a -> tidy a'.
Proof.
  intros Hrun [Hall Hcur]. unfold tidy.
  destruct e; unfold run in Hrun.
  - destruct (save_batch_products _ _ _ _ _) as [d' |] eqn:Hs; [| discriminate].
    injection Hrun as <-. cbn [db current_product]. split; [| exact Hcur].
    eapply save_entries_neat; [exact Hs | exact Hall].
  - destruct (find_product true pid (db a)) as [prod |] eqn:Hf;
      injection Hrun as <-; cbn [db current_product]; [| split; assumption].
    split; [exact Hall |]. intros p E. injection E as <-.
    apply find_product_in in Hf. destruct Hf as [Hin _].
    revert prod Hin. apply Forall_forall. exact Hall.
  - destruct (find_product false pid (db a)) as [prod |] eqn:Hf;
      injection Hrun as <-; cbn [db current_product]; [| split; assumption].
    split; [exact Hall |]. intros p E. injection E as <-.
    apply find_product_in in Hf. destruct Hf as [Hin _].
    revert prod Hin. apply Forall_forall. exact Hall.
  - destruct (current_product a) as [prod |] eqn:Hc; injection Hrun as <-;
      cbn [db current_product].
    + split; [| exact Hcur].
      apply do_sell_with_invoice_keeps_neat;
        [apply Hcur; reflexivity | exact Hall].
    + split; [exact Hall | rewrite Hc; exact Hcur].
  - injection Hrun as <-. cbn [db current_product]. split; [| exact Hcur].
    unfold restore_sold_product.
    destruct (find_product true product_id (db a)); [| exact Hall].
    apply update_neat; [| exact Hall].
    intros g. apply restored_columns_neat.
  - injection Hrun as <-. cbn [db current_product]. split; [| exact Hcur].
    apply restore_invoice_products_neat, Hall.
  - injection Hrun as <-. cbn [db current_product]. split; [| exact Hcur].
    exact (shrinks_neat _ _ (confirm_delete_shrinks pid (db a) fs) Hall).
  - injection Hrun as <-. cbn [db current_product]. split; [| exact Hcur].
    exact (shrinks_neat _ _
             (delete_old_sold_products_shrinks db_path 3 now (db a) fs) Hall).
  - injection Hrun as <-. cbn [db current_product]. split; [| exact Hcur].
    unfold set_base_image.
    destruct (existsb _ _); [exact Hall |].
    destruct (unique_pairs _); exact Hall.
  - injection Hrun as <-. cbn [db current_product]. split; [constructor | exact Hcur].
Qed.

Lemma reachable_tidy `{PyInt} (a : app) : reachable a -> tidy a.
Proof.
  induction 1 as [| e a a' _ IH Hrun].
  - split; [constructor | discriminate].
  - eapply run_tidy; eassumption.
Qed.

(** X8: every row holds one piece.  In every state that the application
    reaches from a new database a row of [products] is either sold, with
    quantity 0, or has quantity 1 and [NULL] in [sold_invoice] and
    [sold_at]; the same holds for the product of the detail screen.  So
    the sale from that screen never takes the branch for a quantity above
    1, which would write a second row: with an invoice number and the
    invoice directory made it is [mark_as_sold] for the id of the product,
    and otherwise it changes nothing. *)
Theorem sale_never_splits_a_row `{PyInt} (a : app) :
  reachable a ->
  (forall r, In r (products (db a)) ->
     (sold r = true /\ quantity (cols r) = Some 0)
     \/ (sold_invoice (cols r) = None /\ sold_at (cols r) = None
         /\ quantity (cols r) = Some 1))
  /\ (forall prod, current_product a = Some prod ->
        (sold prod = true /\ quantity (cols prod) = Some 0)
        \/ (sold_invoice (cols prod) = None /\ sold_at (cols prod) = None
            /\ quantity (cols prod) = Some 1))
  /\ forall prod invoice_str env now,
      current_product a = Some prod ->
      let invoice := convert_to_english_numbers (strip invoice_str) in
      (invoice = "" \/ sold_dir_made env = false ->
       do_sell_with_invoice prod invoice_str env now (db a) = db a)
      /\ (invoice <> "" -> sold_dir_made env = true ->
          do_sell_with_invoice prod invoice_str env now (db a)
          = mark_as_sold (VInt (id prod)) invoice
              (or_else (copied_image env) (image (cols prod)))
              (or_else (copied_thumb env) (thumb (cols prod))) now (db a)).
Proof.
  intros Hreach. destruct (reachable_tidy a Hreach) as [Hall Hcur].
  split; [| split].
  - apply Forall_forall. exact Hall.
  - exact Hcur.
  - intros prod invoice_str env now Hc.
    apply do_sell_with_invoice_neat, Hcur, Hc.
Qed.

Lemma sale_never_splits_a_row_witness :
  let opened := mk_app (mk_database [ring_row] 1 [] 0) (Some ring_row) in
  @reachable decimal_int opened
  /\ @do_sell_with_invoice decimal_int ring_row "۱۲"
       (mk_sale_env true None None) today (db opened)
     = @mark_as_sold decimal_int (VInt 1) "12" (image (cols ring_row))
         (thumb (cols ring_row)) today (db opened).
Proof.
  intros opened.
  assert (Hreach : @reachable decimal_int opened).
  { apply (@reachable_run decimal_int (OpenDetail 1) shop_with_ring);
      [| reflexivity].
    apply (@reachable_run decimal_int (SaveBatch "انگشتر" "12" [ring] today)
             initial); [| reflexivity].
    apply reachable_initial. }
  split; [exact Hreach |].
  refine (proj2 (proj2 (proj2
                          (@sale_never_splits_a_row decimal_int opened Hreach))
                   ring_row "۱۲" (mk_sale_env true None None) today eq_refl)
            _ eq_refl).
  vm_compute. discriminate.
Defined.


(** ** A sale and its return *)

Lemma NoDup_id_eq (rows : list product) (r r' : product) :
  NoDup (map id rows) -> In r rows -> In r' rows -> id r = id r' -> r = r'.
Proof.
  induction rows as [| q rows IH]; [contradiction |].
  cbn [map]. intros Hnd Hr Hr' Heq.
  inversion Hnd as [| ? ? Hnotin Hnd']; subst.
  destruct Hr as [-> | Hr], Hr' as [-> | Hr'].
  - reflexivity.
  - exfalso. apply Hnotin. rewrite Heq. apply in_map, Hr'.
  - exfalso. apply Hnotin. rewrite <- Heq. apply in_map, Hr.
  - apply IH; assumption.
Qed.

Lemma update_where_id_fix (pid : Z) (f : fields -> fields)
  (rows : list product) :
  (forall r, In r rows -> id r = pid -> f (cols r) = cols r) ->
  update_where_id pid f rows = rows.
Proof.
  unfold update_where_id.
  induction rows as [| r rows IH]; intros Hfix; cbn [map]; [reflexivity |].
  rewrite IH by (intros q Hq; apply Hfix; right; exact Hq).
  destruct (Z.eqb_spec (id r) pid) as [Heq | Hne]; [| reflexivity].
  rewrite (Hfix r (or_introl eq_refl) Heq). destruct r; reflexivity.
Qed.

Lemma update_where_id_twice (pid : Z) (f g : fields -> fields)
  (rows : list product) :
  update_where_id pid g (update_where_id pid f rows)
  = update_where_id pid (fun x => g (f x)) rows.
Proof.
  unfold update_where_id. rewrite map_map. apply map_ext. intros r.
  destruct (id r =? pid) eqn:E; [cbn [id cols] |]; rewrite E; reflexivity.
Qed.

Lemma in_update_where_id (pid : Z) (f : fields -> fields)
  (rows : list product) (r' : product) :
  In r' (update_where_id pid f rows) ->
  exists r, In r rows
            /\ ((id r = pid /\ r' = mk_product (id r) (f (cols r)))
                \/ (id r <> pid /\ r' = r)).
Proof.
  unfold update_where_id. intros Hin. apply in_map_iff in Hin.
  destruct Hin as (r & <- & Hin). exists r. split; [exact Hin |].
  destruct (Z.eqb_spec (id r) pid); [left | right]; auto.
Qed.

Lemma find_product_finds (pid : Z) (d : database) (r : product) :
  In r (products d) -> id r = pid ->
  exists r', find_product true pid d = Some r'.
Proof.
  intros Hin Heq. destruct (find_product true pid d) as [r' |] eqn:Hf;
    [eexists; reflexivity |].
  unfold find_product in Hf.
  pose proof (find_none _ _ Hf r) as Hnone. cbn beta in Hnone.
  rewrite Heq, Z.eqb_refl in Hnone.
  assert (In r (get_all_products true d)) as Hr
      by exact (Permutation_in _ (Permutation_sym (get_all_products_all d)) Hin).
  specialize (Hnone Hr). discriminate.
Qed.

Lemma select_by_id_unique (d : database) (r : product) :
  NoDup (map id (products d)) -> In r (products d) ->
  select_by_id (id r) d = Some r.
Proof.
  intros Hnd Hin. unfold select_by_id.
  destruct (find _ (products d)) as [q |] eqn:Hf.
  - apply find_some in Hf. destruct Hf as [Hq Heq].
    apply Z.eqb_eq in Heq. f_equal.
    apply (NoDup_id_eq (products d)); assumption.
  - pose proof (find_none _ _ Hf r Hin) as Hnone. cbn beta in Hnone.
    rewrite Z.eqb_refl in Hnone. discriminate.
Qed.

(** What the sale of a row with one piece writes. *)
Lemma do_sell_with_invoice_row `{PyInt} (prod : product)
  (invoice_str : string) (env : sale_env) (now : datetime) (d : database) :
  NoDup (map id (products d)) ->
  In prod (products d) ->
  neat prod ->
  do_sell_with_invoice prod invoice_str env now d = d
  \/ exists stamp,
      convert_to_english_numbers (strip invoice_str) <> ""
      /\ do_sell_with_invoice prod invoice_str env now d
         = set_products d
             (update_where_id (id prod)
                (sold_columns (convert_to_english_numbers (strip invoice_str))
                   (or_else (copied_image env) (image (cols prod)))
                   (or_else (copied_thumb env) (thumb (cols prod))) stamp)
                (products d)).
Proof.
  intros Hnd Hin Hneat.
  destruct (do_sell_with_invoice_neat prod invoice_str env now d Hneat)
    as [Hskip Hsell].
  destruct (String.eqb_spec (convert_to_english_numbers (strip invoice_str)) "")
    as [He | Hne]; [left; apply Hskip; left; exact He |].
  destruct (sold_dir_made env) eqn:Hdir;
    [| left; apply Hskip; right; reflexivity].
  rewrite (Hsell Hne eq_refl). unfold mark_as_sold. cbn [py_int].
  rewrite (select_by_id_unique d prod Hnd Hin).
  destruct (get_jalali_datetime_string now) as [stamp |];
    [| left; reflexivity].
  right. exists stamp. split; [exact Hne |]. f_equal. f_equal. f_equal.
  - unfold or_else.
    destruct (truthy (copied_image env)) eqn:Hc; [rewrite Hc; reflexivity |].
    destruct (truthy (image (cols prod))); reflexivity.
  - unfold or_else.
    destruct (truthy (copied_thumb env)) eqn:Hc; [rewrite Hc; reflexivity |].
    destruct (truthy (thumb (cols prod))); reflexivity.
Qed.

(** X9: a sale, then its return.  When a row with one piece, unsold, is
    sold from the detail screen and then restored from the sold list, the
    table has the same rows in the same order; the other rows are as they
    were, and the row of the product has quantity 1 and [NULL] in
    [sold_invoice] and [sold_at] again, with every column that
    [mark_as_sold] leaves alone unchanged.  If [copy_to_sold] made no
    copy, the database is the one before the sale. *)
Theorem restore_undoes_sale `{PyInt} (prod : product) (invoice_str : string)
  (env : sale_env) (now : datetime) (d : database) :
  NoDup (map id (products d)) ->
  In prod (products d) ->
  sold_invoice (cols prod) = None ->
  sold_at (cols prod) = None ->
  quantity (cols prod) = Some 1 ->
  let d' := restore_sold_product (id prod)
              (do_sell_with_invoice prod invoice_str env now d) in
  map id (products d') = map id (products d)
  /\ (forall r', In r' (products d') -> id r' <> id prod ->
                 In r' (products d))
  /\ (forall r', In r' (products d') -> id r' = id prod ->
                 kept_columns (cols prod) (cols r')
                 /\ quantity (cols r') = Some 1
                 /\ sold_invoice (cols r') = None
                 /\ sold_at (cols r') = None)
  /\ (truthy (copied_image env) = false ->
      truthy (copied_thumb env) = false -> d' = d).
Proof.
  intros Hnd Hin Hinv Hat Hq d'.
  assert (Hneat : neat prod) by (right; auto).
  assert (Hshape : exists h,
             d' = set_products d (update_where_id (id prod) h (products d))
             /\ kept_columns (cols prod) (h (cols prod))
             /\ quantity (h (cols prod)) = Some 1
             /\ sold_invoice (h (cols prod)) = None
             /\ sold_at (h (cols prod)) = None
             /\ (truthy (copied_image env) = false ->
                 truthy (copied_thumb env) = false ->
                 h (cols prod) = cols prod)).
  { subst d'.
    destruct (do_sell_with_invoice_row prod invoice_str env now d Hnd Hin Hneat)
      as [-> | (stamp & _ & ->)].
    - exists restored_columns. unfold restore_sold_product.
      destruct (find_product_finds (id prod) d prod Hin eq_refl) as [r' ->].
      split; [reflexivity |].
      unfold kept_columns. cbn. repeat split.
      intros _ _. destruct prod as [i f]. destruct f. cbn in *.
      subst. reflexivity.
    - eexists. unfold restore_sold_product.
      match goal with
      | |- context [find_product true (id prod) ?db] =>
          destruct (find_product_finds (id prod) db
                      (mk_product (id prod)
                         (sold_columns
                            (convert_to_english_numbers (strip invoice_str))
                            (or_else (copied_image env) (image (cols prod)))
                            (or_else (copied_thumb env) (thumb (cols prod)))
                            stamp (cols prod))))
            as [r' ->]
      end.
      + cbn [products set_products]. unfold update_where_id.
        apply in_map_iff. exists prod. rewrite Z.eqb_refl. auto.
      + reflexivity.
      + cbn [products set_products]. rewrite update_where_id_twice.
        split; [destruct d; reflexivity |].
        unfold kept_columns. cbn. repeat split.
        intros Hi Ht. unfold or_else. rewrite Hi, Ht.
        destruct prod as [i f]. destruct f. cbn in *. subst. reflexivity. }
  destruct Hshape as (h & -> & Hkept & Hq' & Hinv' & Hat' & Hsame).
  cbn [products set_products]. split; [apply map_id_update |]. split; [| split].
  - intros r' Hr' Hne. apply in_update_where_id in Hr'.
    destruct Hr' as (r & Hr & [[Heq ->] | [_ ->]]); [| exact Hr].
    cbn in Hne. contradiction.
  - intros r' Hr' Heq. apply in_update_where_id in Hr'.
    destruct Hr' as (r & Hr & [[Hid ->] | [Hne ->]]); [| contradiction].
    assert (r = prod) as ->
        by (apply (NoDup_id_eq (products d)); assumption).
    cbn [cols]. auto.
  - intros Hi Ht. rewrite update_where_id_fix; [apply set_products_same |].
    intros r Hr Hid.
    assert (r = prod) as ->
        by (apply (NoDup_id_eq (products d)); assumption).
    apply Hsame; assumption.
Qed.

Lemma restore_undoes_sale_witness :
  @restore_sold_product 1
    (@do_sell_with_invoice decimal_int ring_row "1405/08/12"
       (mk_sale_env true None None) today (db shop_with_ring))
  = db shop_with_ring.
Proof.
  refine (proj2 (proj2 (proj2
            (@restore_undoes_sale decimal_int ring_row "1405/08/12"
               (mk_sale_env true None None) today (db shop_with_ring)
               _ _ eq_refl eq_refl eq_refl))) eq_refl eq_refl).
  - cbn. repeat constructor. intros [].
  - left. reflexivity.
Defined.

(** ** The return of an invoice *)

Lemma restored_columns_twice (f : fields) :
  restored_columns (restored_columns f) = restored_columns f.
Proof. reflexivity. Qed.

(** The loop of [restore_invoice_products] over the rows [chosen]. *)
Lemma restore_loop_rows (chosen : list product) :
  forall d : database,
    products
      (fold_left
         (fun d p =>
            set_products d
              (update_where_id (id p) restored_columns (products d)))
         chosen d)
    = map (fun r => if existsb (fun p => id p =? id r) chosen
                    then mk_product (id r) (restored_columns (cols r))
                    else r)
        (products d).
Proof.
  induction chosen as [| p chosen IH]; intros d; cbn [fold_left existsb].
  - symmetry. apply map_id.
  - rewrite IH. cbn [products set_products]. unfold update_where_id.
    rewrite map_map. apply map_ext. intros r.
    rewrite (Z.eqb_sym (id p) (id r)).
    destruct (id r =? id p) eqn:E; cbn [orb id cols]; [| reflexivity].
    destruct (existsb _ chosen); reflexivity.
Qed.

Lemma id_member_of_selection (keep : product -> bool)
  (rows chosen : list product) (r : product) :
  NoDup (map id rows) ->
  (forall p, In p chosen <-> In p rows /\ keep p = true) ->
  In r rows ->
  existsb (fun p => id p =? id r) chosen = keep r.
Proof.
  intros Hnd Hsel Hr. destruct (keep r) eqn:Hk.
  - apply existsb_exists. exists r. split; [| apply Z.eqb_refl].
    apply Hsel. auto.
  - destruct (existsb _ chosen) eqn:He; [| reflexivity].
    apply existsb_exists in He. destruct He as (p & Hp & Heq).
    apply Z.eqb_eq in Heq. apply Hsel in Hp. destruct Hp as [Hp Hkp].
    rewrite (NoDup_id_eq rows p r Hnd Hp Hr Heq) in Hkp. congruence.
Qed.

(** X10: the return of an invoice is one [UPDATE ... WHERE sold_invoice
    = invoice].  With different ids in the table,
    [restore_invoice_products(invoice)] puts quantity 1 and [NULL] in
    [sold_invoice] and [sold_at] of exactly the rows that carry the
    invoice, and leaves every other row as it is; afterwards no row
    carries the invoice. *)
Theorem restore_invoice_products_rows (invoice : string) (d : database) :
  NoDup (map id (products d)) ->
  products (restore_invoice_products invoice d)
  = map (fun r => if sql_eq (sold_invoice (cols r)) (Some invoice)
                  then mk_product (id r) (restored_columns (cols r))
                  else r)
      (products d)
  /\ forall r, In r (products (restore_invoice_products invoice d)) ->
               sold_invoice (cols r) <> Some invoice.
Proof.
  intros Hnd.
  assert (Hrows : products (restore_invoice_products invoice d)
                  = map (fun r => if sql_eq (sold_invoice (cols r)) (Some invoice)
                                  then mk_product (id r) (restored_columns (cols r))
                                  else r)
                      (products d)).
  { unfold restore_invoice_products. rewrite restore_loop_rows.
    apply map_ext_in. intros r Hr.
    rewrite (id_member_of_selection
               (fun p => sql_eq (sold_invoice (cols p)) (Some invoice))
               (products d) _ r Hnd); [reflexivity | | exact Hr].
    intros p. rewrite filter_In. split.
    - intros [Hp Hk]. split; [eapply get_all_products_in; exact Hp |].
      unfold sql_eq, text_eqb. destruct (sold_invoice (cols p)); exact Hk.
    - intros [Hp Hk]. split.
      + exact (Permutation_in _
                 (Permutation_sym (get_all_products_all d)) Hp).
      + unfold sql_eq, text_eqb in Hk.
        destruct (sold_invoice (cols p)); exact Hk. }
  split; [exact Hrows |].
  intros r Hr. rewrite Hrows in Hr. apply in_map_iff in Hr.
  destruct Hr as (q & <- & _).
  destruct (sql_eq (sold_invoice (cols q)) (Some invoice)) eqn:E;
    [cbn; discriminate |].
  intros Heq. rewrite Heq in E. cbn in E. unfold text_eqb in E.
  rewrite String.eqb_refl in E. discriminate.
Qed.

Lemma restore_invoice_products_rows_witness :
  products (restore_invoice_products "1405/08/12" (db shop_ring_sold))
  = [ring_row].
Proof.
  refine (eq_trans
            (proj1 (restore_invoice_products_rows "1405/08/12"
                      (db shop_ring_sold) _)) _).
  - cbn. repeat constructor. intros [].
  - reflexivity.
Defined.


(** ** The cleanup of old sales *)

Lemma delete_where_id_absent (pid : Z) (rows : list product) :
  (forall r, In r rows -> id r <> pid) -> delete_where_id pid rows = rows.
Proof.
  unfold delete_where_id.
  induction rows as [| r rows IH]; intros Hall; cbn [filter]; [reflexivity |].
  destruct (Z.eqb_spec (id r) pid) as [Heq | _]; cbn [negb].
  - exfalso. exact (Hall r (or_introl eq_refl) Heq).
  - f_equal. apply IH. intros q Hq. apply Hall. right. exact Hq.
Qed.

Lemma length_delete_where_id (rows : list product) (r : product) :
  NoDup (map id rows) -> In r rows ->
  List.length rows = S (List.length (delete_where_id (id r) rows)).
Proof.
  induction rows as [| q rows IH]; [contradiction |].
  cbn [map]. intros Hnd Hin.
  inversion Hnd as [| ? ? Hnotin Hnd']; subst.
  unfold delete_where_id. cbn [filter]. fold (delete_where_id (id r) rows).
  destruct Hin as [-> | Hin].
  - rewrite Z.eqb_refl. cbn [negb List.length]. f_equal.
    rewrite delete_where_id_absent; [reflexivity |].
    intros x Hx Heq. apply Hnotin. rewrite <- Heq. apply in_map, Hx.
  - destruct (Z.eqb_spec (id q) (id r)) as [Heq | _]; cbn [negb List.length].
    + exfalso. apply Hnotin. rewrite Heq. apply in_map, Hin.
    + f_equal. apply IH; assumption.
Qed.

Lemma os_remove_locked (p : string) (fs fs' : filesystem) :
  os_remove p fs = Ok fs' -> locked fs' = locked fs.
Proof.
  unfold os_remove. destruct (_ || _); [discriminate |].
  intros E. injection E as <-. reflexivity.
Qed.

Lemma remove_if_exists_unlocked (p : option string) (fs : filesystem) :
  locked fs = [] ->
  exists fs', remove_if_exists p fs = Ok fs' /\ locked fs' = [].
Proof.
  intros Hl. unfold remove_if_exists.
  destruct p as [path |]; [| eauto].
  destruct (truthy (Some path)); cbn [andb]; [| eauto].
  unfold os_path_exists, os_remove. rewrite Hl.
  destruct (path_in path (present fs)); cbn; eauto.
Qed.

Lemma filter_after_delete (o : product) (olds rows : list product) :
  filter (fun r => negb (existsb (fun p => id p =? id r) olds))
    (delete_where_id (id o) rows)
  = filter (fun r => negb (existsb (fun p => id p =? id r) (o :: olds))) rows.
Proof.
  unfold delete_where_id.
  induction rows as [| r rows IHr]; cbn [filter existsb]; [reflexivity |].
  rewrite (Z.eqb_sym (id o) (id r)).
  destruct (id r =? id o); cbn [negb orb filter]; [exact IHr |].
  destruct (existsb _ olds); cbn [negb]; [exact IHr |].
  f_equal. exact IHr.
Qed.

(** The loop of [delete_old_sold_products] over the rows [olds] that
    its [SELECT] returned. *)
Lemma delete_old_rows_exact (db_path : string) (olds : list product) :
  forall (d : database) (fs : filesystem) (n : Z),
    NoDup (map id (products d)) ->
    NoDup (map id olds) ->
    incl olds (products d) ->
    let out := fold_left (delete_old_row db_path) olds (d, fs, n) in
    Z.of_nat (List.length (products d)) + n
    = Z.of_nat (List.length (products (fst (fst out)))) + snd out
    /\ (forall r, In r (products d) -> ~ In (id r) (map id olds) ->
                  In r (products (fst (fst out))))
    /\ (locked fs = [] ->
        products (fst (fst out))
        = filter (fun r => negb (existsb (fun o => id o =? id r) olds))
            (products d)).
Proof.
  induction olds as [| o olds IH]; intros d fs n Hnd Hold Hincl;
    cbn [fold_left].
  - cbn. split; [reflexivity |]. split; [auto |].
    intros _. symmetry. apply forallb_filter_id.
    apply forallb_forall. reflexivity.
  - cbn [map] in Hold. inversion Hold as [| ? ? Hnotin Hold']; subst.
    assert (Hincl' : incl olds (products d))
      by (intros x Hx; apply Hincl; right; exact Hx).
    assert (Ho : In o (products d)) by (apply Hincl; left; reflexivity).
    assert (Hkeep :
              forall fs0 n0,
                let out := fold_left (delete_old_row db_path) olds (d, fs0, n0) in
                n0 = n ->
                Z.of_nat (List.length (products d)) + n
                = Z.of_nat (List.length (products (fst (fst out)))) + snd out
                /\ (forall r, In r (products d) ->
                              ~ In (id r) (id o :: map id olds) ->
                              In r (products (fst (fst out))))).
    { intros fs0 n0 out ->.
      destruct (IH d fs0 n Hnd Hold' Hincl') as (H1 & H2 & _).
      split; [exact H1 |].
      intros r Hr Hnot. apply H2; [exact Hr |].
      intros Hin. apply Hnot. right. exact Hin. }
    assert (Hgone :
              forall fs0,
                let d1 := set_products d
                            (delete_where_id (id o) (products d)) in
                let out := fold_left (delete_old_row db_path) olds
                             (d1, fs0, n + 1) in
                Z.of_nat (List.length (products d)) + n
                = Z.of_nat (List.length (products (fst (fst out)))) + snd out
                /\ (forall r, In r (products d) ->
                              ~ In (id r) (id o :: map id olds) ->
                              In r (products (fst (fst out))))
                /\ (locked fs0 = [] ->
                    products (fst (fst out))
                    = filter
                        (fun r =>
                           negb (existsb (fun p => id p =? id r) (o :: olds)))
                        (products d))).
    { intros fs0 d1 out.
      assert (Hnd1 : NoDup (map id (products d1)))
        by (apply NoDup_map_filter, Hnd).
      assert (Hincl1 : incl olds (products d1)).
      { intros x Hx. cbn [d1 products set_products]. unfold delete_where_id.
        apply filter_In. split; [apply Hincl'; exact Hx |].
        destruct (Z.eqb_spec (id x) (id o)) as [Heq | _]; [| reflexivity].
        exfalso. apply Hnotin. rewrite <- Heq. apply in_map, Hx. }
      destruct (IH d1 fs0 (n + 1) Hnd1 Hold' Hincl1) as (H1 & H2 & H3).
      fold out in H1, H2, H3. split; [| split].
      - rewrite <- H1. cbn [d1 products set_products].
        rewrite (length_delete_where_id (products d) o Hnd Ho). lia.
      - intros r Hr Hnot. apply H2.
        + cbn [d1 products set_products]. unfold delete_where_id.
          apply filter_In. split; [exact Hr |].
          destruct (Z.eqb_spec (id r) (id o)) as [Heq | _]; [| reflexivity].
          exfalso. apply Hnot. left. symmetry. exact Heq.
        + intros Hin. apply Hnot. right. exact Hin.
      - intros Hl. rewrite (H3 Hl). cbn [d1 products set_products].
        apply filter_after_delete. }
    cbv zeta in Hkeep, Hgone. cbv zeta.
    destruct (delete_old_row db_path (d, fs, n) o) as [[d1 fs'] n1] eqn:Hst.
    unfold delete_old_row in Hst.
    destruct (remove_if_exists (image (cols o)) fs) as [fs1 |] eqn:E1;
      [destruct (remove_if_exists (thumb (cols o)) fs1) as [fs2 |] eqn:E2 |];
      injection Hst as <- <- <-.
    + { match goal with
        | |- context [fold_left _ olds (_, ?fs3, _)] =>
            destruct (Hgone fs3) as (H1 & H2 & H3)
        end.
        split; [exact H1 |]. split; [exact H2 |].
        intros Hl. apply H3.
        destruct (remove_if_exists_unlocked (image (cols o)) fs Hl)
          as (fs1' & E1' & Hl1).
        rewrite E1 in E1'. injection E1' as <-.
        destruct (remove_if_exists_unlocked (thumb (cols o)) fs1 Hl1)
          as (fs2' & E2' & Hl2).
        rewrite E2 in E2'. injection E2' as <-.
        destruct (sold_invoice (cols o)); [| exact Hl2].
        destruct (_ && _); [| exact Hl2].
        destruct (os_remove _ fs2) as [fs' |] eqn:E3; [| exact Hl2].
        rewrite (os_remove_locked _ _ _ E3). exact Hl2. }
    + destruct (Hkeep fs1 n eq_refl) as [H1 H2].
      split; [exact H1 |]. split; [exact H2 |].
      intros Hl.
      destruct (remove_if_exists_unlocked (image (cols o)) fs Hl)
        as (fs1' & E1' & Hl1).
      rewrite E1 in E1'. injection E1' as <-.
      destruct (remove_if_exists_unlocked (thumb (cols o)) fs1 Hl1)
        as (fs2' & E2' & _).
      rewrite E2 in E2'. discriminate.
    + destruct (Hkeep fs n eq_refl) as [H1 H2].
      split; [exact H1 |]. split; [exact H2 |].
      intros Hl.
      destruct (remove_if_exists_unlocked (image (cols o)) fs Hl)
        as (fs1' & E1' & _).
      rewrite E1 in E1'. discriminate.
Qed.

(** X11: the cleanup deletes what it counts and nothing else.  With
    different ids in the table, the number that
    [delete_old_sold_products] returns is the number of rows that it
    removed; a row that its [SELECT] does not return (unsold, or created
    at or after the cutoff) is never removed; and when the system refuses
    no file removal, every row that the [SELECT] returns is removed. *)
Theorem cleanup_deletes_what_it_counts (db_path : string) (months : Z)
  (now : datetime) (d : database) (fs : filesystem) :
  NoDup (map id (products d)) ->
  let out := delete_old_sold_products db_path months now (d, fs) in
  Z.of_nat (List.length (products d))
  = Z.of_nat (List.length (products (fst (fst out)))) + snd out
  /\ (forall r, In r (products d) ->
        (forall cutoff, minus_days now (months * 30) = Ok cutoff ->
                        old_sold (isoformat cutoff) r = false) ->
        In r (products (fst (fst out))))
  /\ (forall cutoff, minus_days now (months * 30) = Ok cutoff ->
        locked fs = [] ->
        products (fst (fst out))
        = filter (fun r => negb (old_sold (isoformat cutoff) r)) (products d)).
Proof.
  intros Hnd. unfold delete_old_sold_products.
  destruct (minus_days now (months * 30)) as [cutoff | e].
  - cbv zeta.
    assert (Hsel : forall p,
               In p (filter (old_sold (isoformat cutoff)) (products d))
               <-> In p (products d) /\ old_sold (isoformat cutoff) p = true)
      by (intros p; apply filter_In).
    destruct (delete_old_rows_exact db_path
                (filter (old_sold (isoformat cutoff)) (products d)) d fs 0 Hnd)
      as (H1 & H2 & H3).
    + apply NoDup_map_filter, Hnd.
    + intros x Hx. apply Hsel in Hx. tauto.
    + split; [rewrite <- H1; lia |]. split.
      * intros r Hr Hnew. apply H2; [exact Hr |].
        intros Hin. apply in_map_iff in Hin. destruct Hin as (o & Heq & Ho).
        apply Hsel in Ho. destruct Ho as [Ho Hold].
        rewrite (NoDup_id_eq (products d) o r Hnd Ho Hr Heq) in Hold.
        rewrite (Hnew cutoff eq_refl) in Hold. discriminate.
      * intros c E Hl. injection E as <-. rewrite (H3 Hl).
        apply filter_ext_in. intros r Hr. f_equal.
        apply (id_member_of_selection (old_sold (isoformat cutoff))
                 (products d)); assumption.
  - cbn. split; [lia |]. split; [auto | discriminate].
Qed.

Lemma cleanup_deletes_what_it_counts_witness :
  let out := delete_old_sold_products "/data/goldshop.db" 3 today
               (db shop_ring_sold, ring_files) in
  Z.of_nat (List.length (products (db shop_ring_sold)))
  = Z.of_nat (List.length (products (fst (fst out)))) + snd out.
Proof.
  refine (proj1 (cleanup_deletes_what_it_counts "/data/goldshop.db" 3 today
                   (db shop_ring_sold) ring_files _)).
  cbn. repeat constructor. intros [].
Defined.


(** ** The rows of a batch *)




(** ** A new row and its code *)

Lemma find_app_none {A : Type} (f : A -> bool) (l l' : list A) :
  find f l = None -> find f (l ++ l') = find f l'.
Proof.
  induction l as [| x l IH]; cbn; [reflexivity |].
  destruct (f x); [discriminate | exact IH].
Qed.

Lemma find_app_some {A : Type} (f : A -> bool) (l l' : list A) (x : A) :
  find f l = Some x -> find f (l ++ l') = Some x.
Proof.
  induction l as [| y l IH]; cbn; [discriminate |].
  destruct (f y); [auto | exact IH].
Qed.





(** ** The counts of the main screen *)

Lemma same_group_eq (a b : option string) : same_group a b = true <-> a = b.
Proof.
  unfold same_group, text_eqb. destruct a as [x |], b as [y |];
    try (split; [discriminate | congruence]); [| tauto].
  rewrite String.eqb_eq. split; congruence.
Qed.

Lemma same_group_neq (a b : option string) : a <> b -> same_group a b = false.
Proof.
  intros Hne. destruct (same_group a b) eqn:E; [| reflexivity].
  apply same_group_eq in E. contradiction.
Qed.

Lemma same_group_refl (a : option string) : same_group a a = true.
Proof. apply same_group_eq. reflexivity. Qed.

Lemma counts_get_cons (k : option string) (n : Z)
  (rest : list (option string * Z)) (c : option string) :
  counts_get ((k, n) :: rest) c
  = if same_group c k then n else counts_get rest c.
Proof.
  unfold counts_get. cbn [find fst]. destruct (same_group c k); reflexivity.
Qed.

Lemma counts_get_count_in (k c : option string)
  (groups : list (option string * Z)) :
  counts_get (count_in k groups) c
  = counts_get groups c + (if same_group c k then 1 else 0).
Proof.
  induction groups as [| [k' n] rest IH]; cbn [count_in].
  - rewrite counts_get_cons. destruct (same_group c k); reflexivity.
  - destruct (same_group k k') eqn:E; rewrite !counts_get_cons.
    + apply same_group_eq in E. subst k'.
      destruct (same_group c k); lia.
    + rewrite IH. destruct (same_group c k') eqn:E'; [| reflexivity].
      apply same_group_eq in E'. subst k'.
      rewrite same_group_neq; [lia |].
      intros ->. rewrite same_group_refl in E. discriminate.
Qed.

Lemma sum_count_in (k : option string) (groups : list (option string * Z)) :
  fold_right Z.add 0 (map snd (count_in k groups))
  = fold_right Z.add 0 (map snd groups) + 1.
Proof.
  induction groups as [| [k' n] rest IH]; cbn [count_in]; [reflexivity |].
  destruct (same_group k k'); cbn [map snd fold_right]; [lia |].
  rewrite IH. lia.
Qed.

Lemma keys_count_in (k x : option string) (groups : list (option string * Z)) :
  In x (map fst (count_in k groups)) -> x = k \/ In x (map fst groups).
Proof.
  induction groups as [| [k' n] rest IH]; cbn [count_in].
  - cbn. intros [<- | []]. left. reflexivity.
  - destruct (same_group k k'); cbn [map fst In]; [tauto |].
    intros [-> | Hin]; [tauto |]. destruct (IH Hin); tauto.
Qed.

Lemma NoDup_count_in (k : option string) (groups : list (option string * Z)) :
  NoDup (map fst groups) -> NoDup (map fst (count_in k groups)).
Proof.
  induction groups as [| [k' n] rest IH]; cbn [count_in]; intros Hnd.
  - cbn. constructor; [intros [] | constructor].
  - cbn [map fst] in Hnd. inversion Hnd as [| ? ? Hnotin Hnd']; subst.
    destruct (same_group k k') eqn:E; cbn [map fst]; constructor; auto.
    intros Hin. apply keys_count_in in Hin. destruct Hin as [-> | Hin];
      [| contradiction].
    rewrite same_group_refl in E. discriminate.
Qed.

Lemma filter_map_length {A B : Type} (f : A -> B) (p : B -> bool)
  (l : list A) :
  List.length (filter p (map f l))
  = List.length (filter (fun x => p (f x)) l).
Proof.
  induction l as [| x l IH]; cbn [map filter]; [reflexivity |].
  destruct (p (f x)); cbn [List.length]; rewrite IH; reflexivity.
Qed.

Lemma group_counts_facts (keys : list (option string)) :
  forall groups : list (option string * Z),
    let out := fold_left (fun groups k => count_in k groups) keys groups in
    fold_right Z.add 0 (map snd out)
    = fold_right Z.add 0 (map snd groups) + Z.of_nat (List.length keys)
    /\ (NoDup (map fst groups) -> NoDup (map fst out))
    /\ forall c, counts_get out c
                 = counts_get groups c
                   + Z.of_nat (List.length (filter (same_group c) keys)).
Proof.
  induction keys as [| k keys IH]; intros groups; cbn [fold_left].
  - cbn. split; [lia |]. split; [auto |]. intros c. lia.
  - destruct (IH (count_in k groups)) as (Hsum & Hnd & Hget). cbv zeta.
    split; [| split].
    + rewrite Hsum, sum_count_in. cbn [List.length]. lia.
    + intros H0. apply Hnd, NoDup_count_in, H0.
    + intros c. rewrite Hget, counts_get_count_in. cbn [filter].
      destruct (same_group c k); cbn [List.length]; lia.
Qed.

(** X14: the counts of the categories add up to the total that the main
    screen shows.  The keys of [get_category_counts] differ from each
    other; the count of a category (or of [NULL]) is the number of unsold
    rows with it, and the counts together are
    [get_total_products_count]. *)
Theorem category_counts_add_up (d : database) :
  fold_right Z.add 0 (map snd (get_category_counts d))
  = get_total_products_count d
  /\ NoDup (map fst (get_category_counts d))
  /\ forall c,
      counts_get (get_category_counts d) c
      = Z.of_nat
          (List.length
             (filter (fun r => unsold r && same_group c (category (cols r)))
                (products d))).
Proof.
  unfold get_category_counts, group_counts, get_total_products_count.
  destruct (group_counts_facts
              (map (fun r => category (cols r)) (filter unsold (products d)))
              [])
    as (Hsum & Hnd & Hget).
  split; [| split].
  - rewrite Hsum, length_map. cbn. reflexivity.
  - apply Hnd. constructor.
  - intros c. rewrite Hget, filter_map_length, filter_filter.
    unfold counts_get. cbn [find]. lia.
Qed.


(** ** A backup and its restore *)

Section backup.
Import posixpath.

Lemma norm_comps_plain_any (abs : bool) (l acc : list string) :
  Forall plain l -> norm_comps abs acc l = (List.rev l ++ acc)%list.
Proof.
  revert acc. induction l as [| c l IH]; intros acc Hl; cbn; [reflexivity |].
  inversion Hl as [| ? ? (H1 & H2 & H3 & _) Hl']; subst.
  apply String.eqb_neq in H1, H2, H3. rewrite H1, H2, H3. cbn.
  rewrite IH by assumption. rewrite <- app_assoc. reflexivity.
Qed.

Lemma join2_plain_sep (a b : string) :
  a <> "" -> endswith_sep a = false -> startswith b "/" = false ->
  join2 a b = a ++ String "/" b.
Proof.
  intros Ha Hend Hb. unfold join2. rewrite Hb, Hend.
  apply String.eqb_neq in Ha. rewrite Ha. reflexivity.
Qed.

Lemma join_comps_cons (a : string) (l : list string) :
  l <> [] -> join_comps (a :: l) = a ++ String "/" (join_comps l).
Proof. destruct l; [contradiction | reflexivity]. Qed.

Lemma join_is_join_comps (others : list string) :
  forall acc,
    acc <> "" -> endswith_sep acc = false -> Forall component others ->
    join acc others = join_comps (acc :: others).
Proof.
  unfold join.
  induction others as [| c others IH]; intros acc Hne Hend Hall;
    cbn [fold_left]; [reflexivity |].
  inversion Hall as [| ? ? Hc Hall']; subst.
  rewrite IH;
    [| apply join2_nonempty; assumption
     | apply join2_no_trailing_sep; assumption
     | exact Hall'].
  rewrite (join2_plain_sep acc c Hne Hend (component_relative c Hc)).
  destruct others as [| r rest]; [reflexivity |].
  rewrite (join_comps_cons (acc ++ String "/" c) (r :: rest)),
    (join_comps_cons acc (c :: r :: rest)),
    (join_comps_cons c (r :: rest)) by discriminate.
  rewrite append_assoc. reflexivity.
Qed.

Lemma component_no_trailing_sep (c : string) :
  component c -> endswith_sep c = false.
Proof. exact (endswith_sep_component "" c). Qed.

Lemma startswith_app (a b : string) :
  a <> "" -> startswith (a ++ b) "/" = startswith a "/".
Proof. destruct a; [contradiction | reflexivity]. Qed.

Lemma join_comps_relative (first : string) (others : list string) :
  component first -> startswith (join_comps (first :: others)) "/" = false.
Proof.
  intros Hc. destruct others as [| r rest];
    [exact (component_relative first Hc) |].
  rewrite join_comps_cons by discriminate.
  rewrite startswith_app by exact (proj1 Hc).
  exact (component_relative first Hc).
Qed.

Lemma join_comps_nonempty (first : string) (others : list string) :
  first <> "" -> join_comps (first :: others) <> "".
Proof.
  intros Hne. destruct others as [| r rest]; [exact Hne |].
  rewrite join_comps_cons by discriminate. apply append_nonempty, Hne.
Qed.

Lemma join2_join (a first : string) (others : list string) :
  a <> "" -> endswith_sep a = false -> Forall component (first :: others) ->
  join2 a (join first others) = join a (first :: others).
Proof.
  intros Ha Hend Hall. inversion Hall as [| ? ? Hc Hall']; subst.
  rewrite (join_is_join_comps others first (proj1 Hc)
             (component_no_trailing_sep first Hc) Hall').
  rewrite (join_is_join_comps (first :: others) a Ha Hend Hall).
  rewrite (join2_plain_sep a _ Ha Hend (join_comps_relative first others Hc)).
  rewrite (join_comps_cons a (first :: others)) by discriminate. reflexivity.
Qed.

Lemma startswith_join_abs (others : list string) :
  forall acc, startswith acc "/" = true ->
              startswith (join acc others) "/" = true.
Proof.
  unfold join. induction others as [| c others IH]; intros acc Hacc;
    cbn [fold_left]; [exact Hacc |].
  apply IH, startswith_join2, Hacc.
Qed.

Lemma Forall_plain_component (l : list string) :
  Forall plain l -> Forall component l.
Proof.
  intros Hl. eapply Forall_impl; [| exact Hl]. exact plain_component.
Qed.

Lemma Forall_plain_sep_free (l : list string) :
  Forall plain l -> Forall (fun c => has_sep c = false) l.
Proof.
  intros Hl. eapply Forall_impl; [| exact Hl]. intros c Hc. apply Hc.
Qed.

Lemma common_len_prefix (a y : list string) :
  common_len a (a ++ y) = List.length a.
Proof.
  rewrite <- (app_nil_r a) at 1. rewrite common_len_app.
  cbn. apply Nat.add_0_r.
Qed.

Lemma rel_list_below (a : list string) (first : string)
  (others : list string) :
  let path_list := (a ++ first :: others)%list in
  let i := common_len a path_list in
  (repeat ".." (List.length a - i) ++ skipn i path_list)%list
  = first :: others.
Proof.
  cbv zeta. rewrite common_len_prefix, Nat.sub_diag. cbn [repeat List.app].
  rewrite <- (Nat.add_0_r (List.length a)). rewrite skipn_app_length.
  reflexivity.
Qed.

(** [relpath] of a file below the absolute directory [dir]. *)
Lemma relpath_below_dir (cwd dir first : string) (others : list string) :
  startswith dir "/" = true -> endswith_sep dir = false ->
  Forall plain (first :: others) ->
  relpath cwd (join dir (first :: others)) dir = Some (join first others).
Proof.
  intros Hdir Hend Hall. unfold relpath.
  pose proof (startswith_join_abs (first :: others) dir Hdir) as Hfull.
  pose proof (nonempty_of_absolute _ Hfull) as Hne.
  apply String.eqb_neq in Hne. rewrite Hne.
  unfold abspath. rewrite Hdir, Hfull.
  rewrite !nonempty_comps_normpath_abs by assumption.
  unfold resolve.
  rewrite (split_join (first :: others) dir (nonempty_of_absolute _ Hdir) Hend
             (Forall_plain_component _ Hall)).
  rewrite norm_comps_app, (norm_comps_plain _ _ Hall).
  rewrite rev_app_distr, rev_involutive.
  rewrite (rel_list_below (List.rev (norm_comps true [] (split dir)))
             first others).
  reflexivity.
Qed.

(** [relpath] of the relative name [sub/first/...] from [sub]. *)
Lemma relpath_below_sub (cwd sub first : string) (others : list string) :
  startswith cwd "/" = true -> plain sub ->
  Forall plain (first :: others) ->
  relpath cwd (join_comps (sub :: first :: others)) sub
  = Some (join first others).
Proof.
  intros Hcwd Hsub Hall. unfold relpath.
  pose proof (plain_component sub Hsub) as Hsubc.
  pose proof (join_comps_nonempty sub (first :: others) (proj1 Hsub)) as Hne.
  apply String.eqb_neq in Hne. rewrite Hne.
  rewrite (abspath_comps cwd sub Hcwd (component_relative sub Hsubc)).
  rewrite (abspath_comps cwd _ Hcwd
             (join_comps_relative sub (first :: others) Hsubc)).
  set (C := norm_comps true [] (split cwd)).
  assert (Hs : List.rev (norm_comps true C (split sub))
               = (List.rev C ++ [sub])%list).
  { rewrite (split_sep_free sub (proj2 Hsubc)).
    rewrite (norm_comps_plain [sub])
      by (constructor; [exact Hsub | constructor]).
    rewrite rev_app_distr, rev_involutive. reflexivity. }
  assert (Hp : List.rev
                 (norm_comps true C
                    (split (join_comps (sub :: first :: others))))
               = ((List.rev C ++ [sub]) ++ first :: others)%list).
  { rewrite split_join_comps;
      [| discriminate
       | apply Forall_plain_sep_free; constructor; assumption].
    rewrite (norm_comps_plain (sub :: first :: others))
      by (constructor; assumption).
    rewrite rev_app_distr, rev_involutive, <- app_assoc. reflexivity. }
  rewrite Hs, Hp.
  rewrite (rel_list_below (List.rev C ++ [sub]) first others).
  reflexivity.
Qed.

Lemma lstrip_sep_relative (s : string) :
  startswith s "/" = false -> lstrip_sep s = s.
Proof.
  destruct s as [| c s]; [reflexivity |]. cbn [startswith lstrip_sep].
  unfold sep. intros Hc. rewrite andb_true_r in Hc.
  rewrite Ascii.eqb_sym, Hc. reflexivity.
Qed.

Lemma normpath_plain (first : string) (others : list string) :
  Forall plain (first :: others) ->
  normpath (join_comps (first :: others)) = join_comps (first :: others).
Proof.
  intros Hall. inversion Hall as [| ? ? Hfirst _]; subst.
  pose proof (join_comps_nonempty first others (proj1 Hfirst)) as Hne.
  apply String.eqb_neq in Hne.
  unfold normpath, initial_slashes. rewrite Hne.
  rewrite (join_comps_relative first others (plain_component _ Hfirst)).
  cbn [Nat.eqb negb].
  rewrite split_join_comps;
    [| discriminate | apply Forall_plain_sep_free; exact Hall].
  rewrite (norm_comps_plain_any false _ _ Hall), app_nil_r, rev_involutive.
  rewrite Hne. reflexivity.
Qed.

(** The name under which [backup_all] stores a file below a directory. *)
Lemma backup_member_below (cwd sub dir first : string)
  (others : list string) :
  startswith dir "/" = true -> endswith_sep dir = false ->
  plain sub -> Forall plain (first :: others) ->
  backup_member cwd sub dir (walked dir (first :: others))
  = Some (join_comps (sub :: first :: others)).
Proof.
  intros Hdir Hend Hsub Hall. unfold backup_member, walked.
  rewrite (relpath_below_dir cwd dir first others Hdir Hend Hall).
  f_equal. unfold stored_name.
  pose proof (plain_component sub Hsub) as Hsubc.
  rewrite (join2_join sub first others (proj1 Hsub)
             (component_no_trailing_sep sub Hsubc)
             (Forall_plain_component _ Hall)).
  rewrite (join_is_join_comps (first :: others) sub (proj1 Hsub)
             (component_no_trailing_sep sub Hsubc)
             (Forall_plain_component _ Hall)).
  rewrite normpath_plain by (constructor; assumption).
  apply lstrip_sep_relative, join_comps_relative, Hsubc.
Qed.

Lemma plain_images : plain "images".
Proof. unfold plain. repeat split; discriminate. Qed.

Lemma plain_thumbs : plain "thumbs".
Proof. unfold plain. repeat split; discriminate. Qed.

Lemma component_db : component "goldshop.db".
Proof. split; [discriminate | reflexivity]. Qed.

(** X15: what a backup stores, a restore puts back where it was.  For an
    absolute user data directory, a file that [os.walk] finds below the
    images directory (or the thumbs directory) is stored by [backup_all]
    under a name that [_on_restore_selected] writes to the path of that
    same file; and the member stored for the database file is moved to
    the path of the database. *)
Theorem backup_then_restore (cwd ud first : string) (others : list string) :
  startswith cwd "/" = true ->
  startswith ud "/" = true ->
  Forall plain (first :: others) ->
  let images_dir := join2 ud "images" in
  let thumbs_dir := join2 ud "thumbs" in
  let db_path := join2 ud "goldshop.db" in
  (exists member,
      backup_member cwd "images" images_dir (walked images_dir (first :: others))
      = Some member
      /\ restore_member cwd ud member
         = Written [walked images_dir (first :: others)])
  /\ (exists member,
         backup_member cwd "thumbs" thumbs_dir
           (walked thumbs_dir (first :: others))
         = Some member
         /\ restore_member cwd ud member
            = Written [walked thumbs_dir (first :: others)])
  /\ restore_member cwd ud (backup_db_member ud) = Written [db_path; db_path].
Proof.
  intros Hcwd Hud Hall. cbv zeta.
  pose proof (nonempty_of_absolute ud Hud) as Hne.
  pose proof (Forall_plain_component _ Hall) as Hcomp.
  assert (Hdb : basename (join2 ud "goldshop.db") = "goldshop.db")
    by exact (basename_join2 ud "goldshop.db" Hne component_db).
  split; [| split].
  - exists (join_comps ("images" :: first :: others)). split.
    + apply backup_member_below;
        [apply startswith_join2; exact Hud
        | apply join2_no_trailing_sep;
            [exact Hne | exact (plain_component _ plain_images)]
        | exact plain_images | exact Hall].
    + unfold restore_member.
      rewrite normpath_plain by (constructor; [exact plain_images | exact Hall]).
      rewrite Hdb.
      rewrite (relpath_below_sub cwd "images" first others Hcwd plain_images Hall).
      rewrite (join2_join (join2 ud "images") first others)
        by (solve [apply join2_nonempty;
                     [exact Hne | exact (plain_component _ plain_images)]
                  | apply join2_no_trailing_sep;
                     [exact Hne | exact (plain_component _ plain_images)]
                  | exact Hcomp]).
      reflexivity.
  - exists (join_comps ("thumbs" :: first :: others)). split.
    + apply backup_member_below;
        [apply startswith_join2; exact Hud
        | apply join2_no_trailing_sep;
            [exact Hne | exact (plain_component _ plain_thumbs)]
        | exact plain_thumbs | exact Hall].
    + unfold restore_member.
      rewrite normpath_plain by (constructor; [exact plain_thumbs | exact Hall]).
      rewrite Hdb.
      rewrite (relpath_below_sub cwd "thumbs" first others Hcwd plain_thumbs Hall).
      rewrite (join2_join (join2 ud "thumbs") first others)
        by (solve [apply join2_nonempty;
                     [exact Hne | exact (plain_component _ plain_thumbs)]
                  | apply join2_no_trailing_sep;
                     [exact Hne | exact (plain_component _ plain_thumbs)]
                  | exact Hcomp]).
      reflexivity.
  - unfold backup_db_member, stored_name. rewrite Hdb.
    change (lstrip_sep (normpath "goldshop.db")) with "goldshop.db".
    unfold restore_member. rewrite Hdb.
    change (normpath "goldshop.db") with "goldshop.db".
    reflexivity.
Qed.

Lemma backup_then_restore_witness :
  backup_member "/app" "images" "/data/images" "/data/images/rings/a.jpg"
  = Some "images/rings/a.jpg"
  /\ restore_member "/app" "/data" "images/rings/a.jpg"
     = Written ["/data/images/rings/a.jpg"].
Proof.
  assert (Hall : Forall plain ["rings"; "a.jpg"]).
  { constructor; [| constructor; [| constructor]];
      unfold plain; repeat split; discriminate. }
  destruct (proj1 (backup_then_restore "/app" "/data" "rings" ["a.jpg"]
                     eq_refl eq_refl Hall))
    as (member & Hb & Hr).
  vm_compute in Hb. injection Hb as <-. split; [reflexivity | exact Hr].
Defined.

End backup.


(** ** The next code of a category *)









(** *** The digits of [str(n)] *)













(** ** The files of a deleted product *)

Lemma path_in_spec (p : string) (l : list string) :
  path_in p l = true <-> In p l.
Proof.
  unfold path_in. rewrite existsb_exists. split.
  - intros (q & Hq & Heq). apply String.eqb_eq in Heq. subst q. exact Hq.
  - intros Hin. exists p. split; [exact Hin | apply String.eqb_refl].
Qed.

Lemma os_remove_present (p : string) (fs fs' : filesystem) (path : string) :
  os_remove p fs = Ok fs' ->
  (In path (present fs') <-> In path (present fs) /\ path <> p).
Proof.
  unfold os_remove. destruct (_ || _); [discriminate |].
  intros E. injection E as <-. cbn [present]. rewrite filter_In.
  split; intros [Hin Hne]; (split; [exact Hin |]).
  - intros ->. rewrite String.eqb_refl in Hne. discriminate.
  - destruct (String.eqb_spec p path); [congruence | reflexivity].
Qed.

Lemma try_remove_locked (p : option string) (fs : filesystem) :
  locked (try_remove p fs) = locked fs.
Proof.
  unfold try_remove, remove_if_exists. destruct p as [path |]; [| reflexivity].
  destruct (_ && _); [| reflexivity].
  destruct (os_remove path fs) as [fs' |] eqn:E; [| reflexivity].
  exact (os_remove_locked _ _ _ E).
Qed.

Lemma try_remove_present (p : option string) (fs : filesystem)
  (path : string) :
  In path (present (try_remove p fs)) -> In path (present fs).
Proof.
  unfold try_remove, remove_if_exists. destruct p as [q |]; [| auto].
  destruct (_ && _); [| auto].
  destruct (os_remove q fs) as [fs' |] eqn:E; [| auto].
  intros Hin. apply (os_remove_present _ _ _ path E) in Hin. tauto.
Qed.

Lemma try_remove_keeps (p : option string) (fs : filesystem)
  (path : string) :
  In path (present fs) -> p <> Some path ->
  In path (present (try_remove p fs)).
Proof.
  intros Hin Hne. unfold try_remove, remove_if_exists.
  destruct p as [q |]; [| exact Hin].
  destruct (_ && _); [| exact Hin].
  destruct (os_remove q fs) as [fs' |] eqn:E; [| exact Hin].
  apply (os_remove_present _ _ _ path E). split; [exact Hin |].
  intros ->. apply Hne. reflexivity.
Qed.

Lemma try_remove_gone (fs : filesystem) (path : string) :
  path <> "" -> path_in path (locked fs) = false ->
  ~ In path (present (try_remove (Some path) fs)).
Proof.
  intros Hne Hfree. unfold try_remove, remove_if_exists, os_path_exists.
  cbn [truthy]. apply String.eqb_neq in Hne. rewrite Hne. cbn [negb andb].
  destruct (path_in path (present fs)) eqn:Hp.
  - unfold os_remove. rewrite Hfree, Hp. cbn [negb orb present].
    rewrite filter_In. intros [_ Hq]. rewrite String.eqb_refl in Hq.
    discriminate.
  - intros Hin. apply path_in_spec in Hin. congruence.
Qed.

(** X17: what [delete_product] removes.  The row with the id is deleted
    whatever happens to its files, and no other row.  No file is made
    and no file is removed but the image and the thumbnail of that row;
    each of the two that the system lets remove is gone afterwards. *)
Theorem delete_product_row_and_files `{PyInt} (pid : Z) (d : database)
  (fs : filesystem) :
  let out := delete_product (VInt pid) (d, fs) in
  (forall r, In r (products (fst out)) <-> In r (products d) /\ id r <> pid)
  /\ (forall path, In path (present (snd out)) -> In path (present fs))
  /\ (forall path,
         In path (present fs) ->
         (forall row, select_by_id pid d = Some row ->
                      image (cols row) <> Some path
                      /\ thumb (cols row) <> Some path) ->
         In path (present (snd out)))
  /\ (forall row path,
         select_by_id pid d = Some row ->
         image (cols row) = Some path \/ thumb (cols row) = Some path ->
         path <> "" -> path_in path (locked fs) = false ->
         ~ In path (present (snd out))).
Proof.
  cbv zeta. unfold delete_product. cbn [py_int fst snd products set_products].
  split; [| split; [| split]].
  - intros r. unfold delete_where_id. rewrite filter_In.
    destruct (Z.eqb_spec (id r) pid); cbn [negb]; intuition congruence.
  - intros path. destruct (select_by_id pid d) as [row |]; [| auto].
    intros Hin. eapply try_remove_present, try_remove_present, Hin.
  - intros path Hin Hother.
    destruct (select_by_id pid d) as [row |]; [| exact Hin].
    destruct (Hother row eq_refl) as [Hi Ht].
    apply try_remove_keeps; [apply try_remove_keeps |]; assumption.
  - intros row path -> [Hi | Ht] Hne Hfree.
    + intros Hin. apply try_remove_present in Hin. rewrite Hi in Hin.
      exact (try_remove_gone fs path Hne Hfree Hin).
    + rewrite Ht. apply try_remove_gone; [exact Hne |].
      rewrite try_remove_locked. exact Hfree.
Qed.

Lemma delete_product_row_and_files_witness :
  ~ In "/data/images/a.jpg"
      (present (snd (@delete_product decimal_int (VInt 1)
                       (db shop_with_ring, ring_files)))).
Proof.
  refine (proj2 (proj2 (proj2
            (@delete_product_row_and_files decimal_int 1 (db shop_with_ring)
               ring_files)))
            ring_row "/data/images/a.jpg" eq_refl (or_introl eq_refl) _
            eq_refl).
  discriminate.
Defined.

(** ** A sale takes one piece out of stock *)

Lemma update_one_row (f : fields -> fields) (rows : list product)
  (prod : product) :
  NoDup (map id rows) -> In prod rows ->
  exists l1 l2,
    rows = (l1 ++ prod :: l2)%list
    /\ update_where_id (id prod) f rows
       = (l1 ++ mk_product (id prod) (f (cols prod)) :: l2)%list
    /\ (forall r, In r l1 \/ In r l2 -> id r <> id prod).
Proof.
  intros Hnd Hin. destruct (in_split _ _ Hin) as (l1 & l2 & ->).
  exists l1, l2. split; [reflexivity |].
  assert (Hother : forall r, In r l1 \/ In r l2 -> id r <> id prod).
  { intros r Hr Heq.
    assert (r = prod) as ->.
    { apply (NoDup_id_eq (l1 ++ prod :: l2)); [exact Hnd | | exact Hin | exact Heq].
      apply in_or_app. destruct Hr; [left | right; right]; assumption. }
    rewrite map_app in Hnd. cbn [map] in Hnd.
    apply NoDup_remove_2 in Hnd. apply Hnd. apply in_or_app.
    destruct Hr; [left | right]; apply in_map; assumption. }
  split; [| exact Hother].
  unfold update_where_id. rewrite map_app. cbn [map]. rewrite Z.eqb_refl.
  fold (update_where_id (id prod) f l1). fold (update_where_id (id prod) f l2).
  rewrite !update_where_id_absent
    by (intros r Hr; apply Hother; auto).
  reflexivity.
Qed.

(** X18: a sale takes one piece out of stock.  When a product of the
    table with one piece, unsold, is sold from the detail screen with an
    invoice number, the invoice directory made and a month between 1 and
    12, the total of the main screen goes down by one; the inventory list
    loses the rows with the id of the product and nothing else; and the
    full list has the product with the invoice, quantity 0 and the stamp
    of the sale. *)
Theorem sale_takes_one_out_of_stock `{PyInt} (prod : product)
  (invoice_str : string) (env : sale_env) (now : datetime) (d : database) :
  NoDup (map id (products d)) ->
  In prod (products d) ->
  sold_invoice (cols prod) = None ->
  sold_at (cols prod) = None ->
  quantity (cols prod) = Some 1 ->
  convert_to_english_numbers (strip invoice_str) <> "" ->
  sold_dir_made env = true ->
  1 <= month now <= 12 ->
  let d' := do_sell_with_invoice prod invoice_str env now d in
  get_total_products_count d' = get_total_products_count d - 1
  /\ (forall r, In r (get_all_products false d')
                <-> In r (get_all_products false d) /\ id r <> id prod)
  /\ exists r stamp,
      In r (get_all_products true d')
      /\ id r = id prod
      /\ get_jalali_datetime_string now = Some stamp
      /\ sold_invoice (cols r)
         = Some (convert_to_english_numbers (strip invoice_str))
      /\ quantity (cols r) = Some 0
      /\ sold_at (cols r) = Some stamp.
Proof.
  intros Hnd Hin Hinv Hat Hq Hne Hdir Hm d'.
  assert (Hneat : neat prod) by (right; auto).
  destruct (get_jalali_datetime_string_total now Hm) as [stamp Hstamp].
  assert (Hd' : exists img th,
             d' = set_products d
                    (update_where_id (id prod)
                       (sold_columns
                          (convert_to_english_numbers (strip invoice_str))
                          img th stamp)
                       (products d))).
  { subst d'.
    rewrite (proj2 (do_sell_with_invoice_neat prod invoice_str env now d Hneat)
               Hne Hdir).
    unfold mark_as_sold. cbn [py_int].
    rewrite (select_by_id_unique d prod Hnd Hin), Hstamp.
    eexists. eexists. reflexivity. }
  destruct Hd' as (img & th & Hd'). rewrite Hd'. clear Hd' d'.
  destruct (update_one_row
              (sold_columns (convert_to_english_numbers (strip invoice_str))
                 img th stamp)
              (products d) prod Hnd Hin)
    as (l1 & l2 & Hrows & Hupd & Hother).
  assert (Hunsold : unsold prod = true)
    by (unfold unsold; rewrite Hinv; reflexivity).
  assert (Hsold :
            unsold (mk_product (id prod)
                      (sold_columns
                         (convert_to_english_numbers (strip invoice_str))
                         img th stamp (cols prod))) = false).
  { unfold unsold. cbn. apply String.eqb_neq in Hne. rewrite Hne. reflexivity. }
  split; [| split].
  - unfold get_total_products_count. cbn [products set_products].
    rewrite Hupd, Hrows, !filter_app. cbn [filter].
    rewrite Hunsold, Hsold, !length_app. cbn [List.length]. lia.
  - intros r. unfold get_all_products. cbn [products set_products].
    rewrite Hupd, Hrows.
    split.
    + intros Hr.
      apply (Permutation_in _ (order_by_id_desc_perm _)) in Hr.
      rewrite filter_app in Hr. cbn [filter] in Hr. rewrite Hsold in Hr.
      apply in_app_or in Hr.
      assert (Hr' : In r l1 \/ In r l2)
        by (destruct Hr as [Hr | Hr]; apply filter_In in Hr; tauto).
      split; [| apply Hother; exact Hr'].
      apply (Permutation_in _ (Permutation_sym (order_by_id_desc_perm _))).
      rewrite filter_app. cbn [filter]. rewrite Hunsold.
      apply in_or_app. destruct Hr as [Hr | Hr]; [left | right; right]; exact Hr.
    + intros [Hr Hid].
      apply (Permutation_in _ (order_by_id_desc_perm _)) in Hr.
      apply (Permutation_in _ (Permutation_sym (order_by_id_desc_perm _))).
      rewrite filter_app in *. cbn [filter] in *.
      rewrite Hunsold in Hr. rewrite Hsold.
      apply in_app_or in Hr. apply in_or_app.
      destruct Hr as [Hr | [<- | Hr]]; [left | contradiction | right];
        exact Hr.
  - exists (mk_product (id prod)
              (sold_columns (convert_to_english_numbers (strip invoice_str))
                 img th stamp (cols prod))), stamp.
    split; [| cbn; auto].
    apply (Permutation_in _ (Permutation_sym (get_all_products_all _))).
    cbn [products set_products]. rewrite Hupd.
    apply in_or_app. right. left. reflexivity.
Qed.

Lemma sale_takes_one_out_of_stock_witness :
  get_total_products_count
    (@do_sell_with_invoice decimal_int ring_row "۱۴۰۵/۰۸/۱۲"
       (mk_sale_env true None None) today (db shop_with_ring))
  = get_total_products_count (db shop_with_ring) - 1.
Proof.
  refine (proj1 (@sale_takes_one_out_of_stock decimal_int ring_row
                   "۱۴۰۵/۰۸/۱۲" (mk_sale_env true None None) today
                   (db shop_with_ring) _ _ eq_refl eq_refl eq_refl _ eq_refl _)).
  - cbn. repeat constructor. intros [].
  - left. reflexivity.
  - vm_compute. discriminate.
  - cbn. lia.
Defined.


(** ** The photographs of the other groups *)

Lemma sql_eq_some (x y : option string) :
  sql_eq x y = true -> exists s, x = Some s /\ y = Some s.
Proof.
  destruct x as [a |], y as [b |]; cbn; try discriminate.
  unfold text_eqb. intros E. apply String.eqb_eq in E. subst b.
  exists a. auto.
Qed.

Lemma pair_is_pair (c b c' b' : option string) (r : base) :
  pair_is c b r = true -> pair_is c' b' r = true -> (c', b') = (c, b).
Proof.
  unfold pair_is. intros H1 H2.
  apply andb_true_iff in H1, H2. destruct H1 as [Hc Hb], H2 as [Hc' Hb'].
  apply sql_eq_some in Hc, Hb, Hc', Hb'.
  destruct Hc as (x & Hx & ->), Hb as (y & Hy & ->),
    Hc' as (x' & Hx' & ->), Hb' as (y' & Hy' & ->).
  congruence.
Qed.

(** X19: [set_base_image] touches the photograph of one group only.
    For a pair (category, base number) other than the one that is set,
    [get_base_image] gives after [set_base_image] what it gave before. *)
Theorem set_base_image_other_groups (c b p : option string) (c' : string)
  (b' : option string) (d : database) :
  (Some (strip c'), b') <> (c, b) ->
  get_base_image c' b' (set_base_image c b p d) = get_base_image c' b' d.
Proof.
  intros Hother. unfold get_base_image, set_base_image.
  destruct (existsb (pair_is c b) (bases d)) eqn:Hex.
  - cbn [bases set_bases]. clear Hex.
    induction (bases d) as [| r rows IH]; cbn [map find]; [reflexivity |].
    destruct (pair_is c b r) eqn:Hr.
    + unfold pair_is at 1. cbn [b_category b_base_number].
      fold (pair_is (Some (strip c')) b' r).
      destruct (pair_is (Some (strip c')) b' r) eqn:Hr'; [| exact IH].
      exfalso. apply Hother. exact (pair_is_pair c b _ _ r Hr Hr').
    + destruct (pair_is (Some (strip c')) b' r); [reflexivity | exact IH].
  - destruct (unique_pairs _); [| reflexivity].
    cbn [bases set_bases].
    destruct (find (pair_is (Some (strip c')) b') (bases d)) as [r |] eqn:Hf.
    + rewrite (find_app_some _ _ _ _ Hf). reflexivity.
    + rewrite (find_app_none _ _ _ Hf). cbn [find].
      match goal with
      | |- context [pair_is ?x ?y ?new] =>
          destruct (pair_is x y new) eqn:Hnew; [| reflexivity]
      end.
      exfalso. apply Hother.
      unfold pair_is in Hnew. cbn [b_category b_base_number] in Hnew.
      apply andb_true_iff in Hnew. destruct Hnew as [Hc Hb].
      apply sql_eq_some in Hc, Hb.
      destruct Hc as (x & -> & Hx), Hb as (y & -> & Hy). congruence.
Qed.

Lemma set_base_image_other_groups_witness :
  get_base_image "انگشتر" (Some "12")
    (set_base_image (Some "انگشتر") (Some "13") (Some "/data/images/b.jpg")
       (set_base_image (Some "انگشتر") (Some "12")
          (Some "/data/images/a.jpg") empty_database))
  = Some "/data/images/a.jpg".
Proof.
  refine (eq_trans
            (set_base_image_other_groups (Some "انگشتر") (Some "13")
               (Some "/data/images/b.jpg") "انگشتر" (Some "12") _ _) _).
  - vm_compute. discriminate.
  - reflexivity.
Defined.


(** ** The stamps sort by time *)

Lemma ascii_compare_lt_trans (a b c : ascii) :
  Ascii.compare a b = Lt -> Ascii.compare b c = Lt -> Ascii.compare a c = Lt.
Proof.
  unfold Ascii.compare. rewrite !N.compare_lt_iff. lia.
Qed.

Lemma ascii_compare_refl (a : ascii) : Ascii.compare a a = Eq.
Proof. unfold Ascii.compare. apply N.compare_refl. Qed.

Lemma string_compare_lt_trans (a : string) :
  forall b c : string,
    String.compare a b = Lt -> String.compare b c = Lt ->
    String.compare a c = Lt.
Proof.
  induction a as [| x a IH]; intros [| y b] [| z c]; cbn [String.compare];
    try discriminate; try reflexivity.
  destruct (Ascii.compare x y) eqn:E1; try discriminate;
    destruct (Ascii.compare y z) eqn:E2; try discriminate.
  - apply Ascii.compare_eq_iff in E1, E2. subst.
    rewrite ascii_compare_refl. apply IH.
  - apply Ascii.compare_eq_iff in E1. subst. rewrite E2. reflexivity.
  - apply Ascii.compare_eq_iff in E2. subst. rewrite E1. reflexivity.
  - rewrite (ascii_compare_lt_trans x y z E1 E2). reflexivity.
Qed.

(** Two texts that begin with fields of one width compare as the fields
    do, and as the rests do when the fields are equal. *)
Lemma compare_field (a : string) :
  forall b s t : string,
    String.length a = String.length b ->
    String.compare a b = Lt \/ (a = b /\ String.compare s t = Lt) ->
    String.compare (a ++ s) (b ++ t) = Lt.
Proof.
  induction a as [| x a IH]; intros [| y b] s t Hlen Hlt;
    cbn [String.length] in Hlen; try discriminate; cbn [append].
  - destruct Hlt as [Hlt | [_ Hlt]]; [discriminate | exact Hlt].
  - cbn [String.compare]. injection Hlen as Hlen.
    destruct Hlt as [Hlt | [Heq Hlt]].
    + cbn [String.compare] in Hlt.
      destruct (Ascii.compare x y); try discriminate; [| reflexivity].
      apply IH; [exact Hlen | left; exact Hlt].
    + injection Heq as -> ->. rewrite ascii_compare_refl.
      apply IH; [reflexivity | right; split; [reflexivity | exact Hlt]].
Qed.

Lemma string_length_app (a b : string) :
  String.length (a ++ b) = (String.length a + String.length b)%nat.
Proof.
  induction a as [| c a IH]; cbn [append String.length]; [reflexivity |].
  rewrite IH. reflexivity.
Qed.

Lemma string_app_nil_r (a : string) : (a ++ "")%string = a.
Proof.
  induction a as [| c a IH]; cbn [append]; [reflexivity |].
  rewrite IH. reflexivity.
Qed.

Lemma text_ltb_lt (a b : string) :
  text_ltb a b = true <-> String.compare a b = Lt.
Proof.
  unfold text_ltb, String.ltb.
  destruct (String.compare a b); split; congruence.
Qed.

Lemma steps_up_step (width : nat) (n x : Z) :
  steps_up width n = true -> 0 <= x < n ->
  String.length (fmt_0d width x) = width
  /\ String.length (fmt_0d width (x + 1)) = width
  /\ String.compare (fmt_0d width x) (fmt_0d width (x + 1)) = Lt.
Proof.
  unfold steps_up. intros Hall Hx. rewrite forallb_forall in Hall.
  specialize (Hall (Z.to_nat x)). cbv zeta in Hall.
  rewrite Z2Nat.id in Hall by lia.
  assert (Hin : In (Z.to_nat x) (seq 0 (Z.to_nat n))) by (apply in_seq; lia).
  specialize (Hall Hin).
  apply andb_prop in Hall. destruct Hall as [Hall Hlt].
  apply andb_prop in Hall. destruct Hall as [H1 H2].
  apply Nat.eqb_eq in H1, H2. apply text_ltb_lt in Hlt. auto.
Qed.

Lemma steps_up_spec (width : nat) (n x y : Z) :
  steps_up width n = true -> 0 <= x < y -> y <= n ->
  String.length (fmt_0d width x) = width
  /\ String.length (fmt_0d width y) = width
  /\ String.compare (fmt_0d width x) (fmt_0d width y) = Lt.
Proof.
  intros Hall Hxy Hy.
  assert (Hk : forall k : nat,
             x + 1 + Z.of_nat k <= n ->
             String.length (fmt_0d width (x + 1 + Z.of_nat k)) = width
             /\ String.compare (fmt_0d width x)
                  (fmt_0d width (x + 1 + Z.of_nat k)) = Lt).
  { induction k as [| k IH]; intros Hle.
    - replace (x + 1 + Z.of_nat 0) with (x + 1) by lia.
      destruct (steps_up_step width n x Hall) as (_ & H2 & H3); [lia | auto].
    - destruct IH as [_ IH]; [lia |].
      destruct (steps_up_step width n (x + 1 + Z.of_nat k) Hall)
        as (_ & H2 & H3); [lia |].
      replace (x + 1 + Z.of_nat (S k)) with (x + 1 + Z.of_nat k + 1) by lia.
      split; [exact H2 |].
      exact (string_compare_lt_trans _ _ _ IH H3). }
  destruct (steps_up_step width n x Hall) as (H1 & _); [lia |].
  specialize (Hk (Z.to_nat (y - x - 1))). rewrite Z2Nat.id in Hk by lia.
  replace (x + 1 + (y - x - 1)) with y in Hk by lia.
  destruct (Hk Hy) as [H2 H3]. auto.
Qed.

Lemma steps_up_4 : steps_up 4 9999 = true.
Proof. vm_compute. reflexivity. Qed.

Lemma steps_up_2 : steps_up 2 99 = true.
Proof. vm_compute. reflexivity. Qed.

(** A field of the stamp, and what follows it. *)
Lemma stamp_field (width : nat) (n x y : Z) (s t : string) :
  steps_up width n = true -> 0 <= x <= n -> 0 <= y <= n ->
  x < y \/ (x = y /\ String.compare s t = Lt) ->
  String.compare (fmt_0d width x ++ s) (fmt_0d width y ++ t) = Lt.
Proof.
  intros Hall Hx Hy [Hlt | [-> Hrest]].
  - destruct (steps_up_spec width n x y Hall) as (H1 & H2 & H3); [lia.. |].
    apply compare_field; [congruence | left; exact H3].
  - apply compare_field; [reflexivity | right; auto].
Qed.

Lemma stamp_sep (c : ascii) (s t : string) :
  String.compare s t = Lt -> String.compare (String c s) (String c t) = Lt.
Proof.
  intros H. cbn [String.compare]. rewrite ascii_compare_refl. exact H.
Qed.

(** *** The Jalali date grows with the day number *)

Lemma year_day_mono (x y : Z) :
  0 <= x < y -> y < 1461 ->
  fst (year_day x) < fst (year_day y)
  \/ (fst (year_day x) = fst (year_day y)
      /\ snd (year_day x) < snd (year_day y)).
Proof.
  intros Hx Hy. unfold year_day.
  destruct (Z.gtb_spec x 365), (Z.gtb_spec y 365); cbn [fst snd];
    Z.div_mod_to_equations; lia.
Qed.

Lemma month_day_mono (x y : Z) :
  0 <= x < y -> y <= 365 ->
  fst (month_day x) < fst (month_day y)
  \/ (fst (month_day x) = fst (month_day y)
      /\ snd (month_day x) < snd (month_day y)).
Proof.
  intros Hx Hy. unfold month_day.
  destruct (Z.ltb_spec x 186), (Z.ltb_spec y 186); cbn [fst snd];
    Z.div_mod_to_equations; lia.
Qed.

(** The year within the cycle of 33 years and the day of the year. *)
Lemma cycle_year_mono (a1 a2 : Z) :
  0 <= a1 < a2 -> a2 < 12053 ->
  let y1 := 4 * (a1 / 1461) + fst (year_day (a1 mod 1461)) in
  let y2 := 4 * (a2 / 1461) + fst (year_day (a2 mod 1461)) in
  0 <= y1 /\ y2 <= 32
  /\ (y1 < y2
      \/ (y1 = y2
          /\ snd (year_day (a1 mod 1461)) < snd (year_day (a2 mod 1461)))).
Proof.
  intros H1 H2. cbv zeta.
  pose proof (year_day_range (a1 mod 1461)) as R1.
  pose proof (year_day_range (a2 mod 1461)) as R2.
  assert (B1 : 0 <= a1 mod 1461 < 1461) by (apply Z.mod_pos_bound; lia).
  assert (B2 : 0 <= a2 mod 1461 < 1461) by (apply Z.mod_pos_bound; lia).
  specialize (R1 B1). specialize (R2 B2).
  assert (Q1 : 0 <= a1 / 1461 <= 8)
    by (pose proof (Z.div_mod a1 1461 ltac:(lia)); lia).
  assert (Q2 : 0 <= a2 / 1461 <= 8)
    by (pose proof (Z.div_mod a2 1461 ltac:(lia)); lia).
  assert (Hle : a1 / 1461 <= a2 / 1461) by (apply Z.div_le_mono; lia).
  assert (Htop : a2 / 1461 = 8 -> fst (year_day (a2 mod 1461)) = 0).
  { intros H8. unfold year_day.
    assert (a2 mod 1461 <= 364)
      by (pose proof (Z.div_mod a2 1461 ltac:(lia)); lia).
    destruct (Z.gtb_spec (a2 mod 1461) 365); [lia | reflexivity]. }
  split; [lia |]. split; [destruct (Z.eq_dec (a2 / 1461) 8); [rewrite Htop by assumption |]; lia |].
  destruct (Z.eq_dec (a1 / 1461) (a2 / 1461)) as [Heq | Hne].
  - assert (Hb : a1 mod 1461 < a2 mod 1461).
    { pose proof (Z.div_mod a1 1461 ltac:(lia)).
      pose proof (Z.div_mod a2 1461 ltac:(lia)). lia. }
    destruct (year_day_mono (a1 mod 1461) (a2 mod 1461)) as [Hy | [Hy Hd]];
      [lia | lia | left; lia | right; split; [lia | exact Hd]].
  - left. lia.
Qed.

Lemma jalali_of_days_mono (d1 d2 : Z) :
  d1 < d2 ->
  let '(jy1, jm1, jd1) := jalali_of_days d1 in
  let '(jy2, jm2, jd2) := jalali_of_days d2 in
  jy1 < jy2 \/ (jy1 = jy2 /\ (jm1 < jm2 \/ (jm1 = jm2 /\ jd1 < jd2))).
Proof.
  intros Hlt. rewrite !jalali_of_days_stages. cbv zeta.
  assert (B1 : 0 <= d1 mod 12053 < 12053) by (apply Z.mod_pos_bound; lia).
  assert (B2 : 0 <= d2 mod 12053 < 12053) by (apply Z.mod_pos_bound; lia).
  assert (C1 : 0 <= (d1 mod 12053) mod 1461 < 1461)
    by (apply Z.mod_pos_bound; lia).
  assert (C2 : 0 <= (d2 mod 12053) mod 1461 < 1461)
    by (apply Z.mod_pos_bound; lia).
  pose proof (year_day_range _ C1) as R1.
  pose proof (year_day_range _ C2) as R2.
  assert (Hq : d1 / 12053 <= d2 / 12053) by (apply Z.div_le_mono; lia).
  assert (Hdoy :
            4 * (d1 mod 12053 / 1461)
            + fst (year_day ((d1 mod 12053) mod 1461)) <= 32
            /\ 0 <= 4 * (d2 mod 12053 / 1461)
                    + fst (year_day ((d2 mod 12053) mod 1461))).
  { assert (0 <= d1 mod 12053 / 1461 <= 8)
      by (pose proof (Z.div_mod (d1 mod 12053) 1461 ltac:(lia)); lia).
    assert (0 <= d2 mod 12053 / 1461) by (apply Z.div_pos; lia).
    split; [| lia].
    destruct (Z.eq_dec (d1 mod 12053 / 1461) 8) as [H8 | H8]; [| lia].
    assert ((d1 mod 12053) mod 1461 <= 364)
      by (pose proof (Z.div_mod (d1 mod 12053) 1461 ltac:(lia)); lia).
    unfold year_day.
    destruct (Z.gtb_spec ((d1 mod 12053) mod 1461) 365); cbn [fst]; lia. }
  assert (Hcases :
            d1 / 12053 < d2 / 12053
            \/ (d1 / 12053 = d2 / 12053 /\ d1 mod 12053 < d2 mod 12053)).
  { pose proof (Z.div_mod d1 12053 ltac:(lia)).
    pose proof (Z.div_mod d2 12053 ltac:(lia)). lia. }
  destruct (year_day ((d1 mod 12053) mod 1461)) as [yo1 doy1] eqn:E1.
  destruct (year_day ((d2 mod 12053) mod 1461)) as [yo2 doy2] eqn:E2.
  cbn [fst snd] in *.
  destruct (month_day doy1) as [jm1 jd1] eqn:M1.
  destruct (month_day doy2) as [jm2 jd2] eqn:M2.
  destruct Hcases as [Hc | [Hc Ha]]; [left; lia |].
  pose proof (cycle_year_mono (d1 mod 12053) (d2 mod 12053)
                ltac:(lia) ltac:(lia)) as Hcy.
  cbv zeta in Hcy. rewrite E1, E2 in Hcy. cbn [fst snd] in Hcy.
  destruct Hcy as (_ & _ & [Hy | [Hy Hd]]); [left; lia |].
  right. split; [lia |].
  pose proof (month_day_mono doy1 doy2 ltac:(lia) ltac:(lia)) as Hm.
  rewrite M1, M2 in Hm. cbn [fst snd] in Hm. exact Hm.
Qed.

(** *** The day number grows with the date *)

Lemma ymd2ord_mono (y1 m1 d1 y2 m2 d2 : Z) :
  valid_gregorian y1 m1 d1 -> valid_gregorian y2 m2 d2 ->
  y1 < y2 \/ (y1 = y2 /\ (m1 < m2 \/ (m1 = m2 /\ d1 <= d2))) ->
  ymd2ord y1 m1 d1 <= ymd2ord y2 m2 d2.
Proof.
  intros V1 V2 [Hy | [-> [Hm | [-> Hd]]]].
  - pose proof (ymd2ord_bounds y1 m1 d1 V1).
    pose proof (ymd2ord_bounds y2 m2 d2 V2).
    pose proof (days_before_year_mono (y1 + 1) y2 ltac:(lia)). lia.
  - pose proof (ymd2ord_month_mono y2 m1 d1 m2 d2 V1 V2 Hm). lia.
  - unfold ymd2ord. lia.
Qed.

Lemma jalali_year_of_date (gy gm gd : Z) :
  valid_gregorian gy gm gd -> 622 <= gy <= 9999 ->
  exists jy jm jd,
    gregorian_to_jalali gy gm gd = Some (jy, jm, jd)
    /\ 0 <= jy <= 9999 /\ 1 <= jm <= 12 /\ 1 <= jd <= 31.
Proof.
  intros V Hy. rewrite gregorian_day_number by apply V.
  pose proof (jalali_of_days_range (ymd2ord gy gm gd + 356032)) as Hr.
  assert (Vlo : valid_gregorian 622 1 1) by (unfold valid_gregorian; cbn; lia).
  assert (Vhi : valid_gregorian 9999 12 31)
    by (unfold valid_gregorian; cbn; lia).
  assert (Hlo : ymd2ord 622 1 1 <= ymd2ord gy gm gd).
  { apply ymd2ord_mono; [exact Vlo | exact V |].
    destruct V as [Hm Hd]. lia. }
  assert (Hhi : ymd2ord gy gm gd <= ymd2ord 9999 12 31).
  { apply ymd2ord_mono; [exact V | exact Vhi |].
    destruct V as [Hm Hd].
    assert (days_in_month gy gm <= 31).
    { unfold days_in_month. destruct (gm =? 2); [destruct (is_leap gy); lia |].
      destruct (_ || _); lia. }
    lia. }
  assert (Jlo : jalali_of_days (ymd2ord 622 1 1 + 356032) = (0, 10, 11))
    by (vm_compute; reflexivity).
  assert (Jhi : jalali_of_days (ymd2ord 9999 12 31 + 356032) = (9378, 10, 10))
    by (vm_compute; reflexivity).
  assert (Hge : 0 <= fst (fst (jalali_of_days (ymd2ord gy gm gd + 356032)))).
  { destruct (Z.eq_dec (ymd2ord 622 1 1) (ymd2ord gy gm gd)) as [<- | Hne];
      [rewrite Jlo; cbn; lia |].
    pose proof (jalali_of_days_mono (ymd2ord 622 1 1 + 356032)
                  (ymd2ord gy gm gd + 356032) ltac:(lia)) as Hmono.
    rewrite Jlo in Hmono.
    destruct (jalali_of_days (ymd2ord gy gm gd + 356032)) as [[jy jm] jd].
    cbn [fst]. lia. }
  assert (Hle : fst (fst (jalali_of_days (ymd2ord gy gm gd + 356032))) <= 9999).
  { destruct (Z.eq_dec (ymd2ord gy gm gd) (ymd2ord 9999 12 31)) as [-> | Hne];
      [rewrite Jhi; cbn; lia |].
    pose proof (jalali_of_days_mono (ymd2ord gy gm gd + 356032)
                  (ymd2ord 9999 12 31 + 356032) ltac:(lia)) as Hmono.
    rewrite Jhi in Hmono.
    destruct (jalali_of_days (ymd2ord gy gm gd + 356032)) as [[jy jm] jd].
    cbn [fst]. lia. }
  destruct (jalali_of_days (ymd2ord gy gm gd + 356032)) as [[jy jm] jd].
  cbn [fst] in *. exists jy, jm, jd. split; [reflexivity |]. lia.
Qed.

(** X20: the stamps sort by time.  For two times of the years 622 to
    9999, [get_jalali_datetime_string] gives texts of 16 characters each,
    and the text of the earlier minute sorts before the text of the later
    one in the byte order that SQLite uses for [created_at] and
    [sold_at]. *)
Theorem jalali_stamps_sort_by_time (t1 t2 : datetime) :
  valid_gregorian (year t1) (month t1) (day t1) ->
  valid_gregorian (year t2) (month t2) (day t2) ->
  622 <= year t1 <= 9999 -> 622 <= year t2 <= 9999 ->
  0 <= hour t1 <= 23 -> 0 <= hour t2 <= 23 ->
  0 <= minute t1 <= 59 -> 0 <= minute t2 <= 59 ->
  minute_number t1 < minute_number t2 ->
  exists s1 s2,
    get_jalali_datetime_string t1 = Some s1
    /\ get_jalali_datetime_string t2 = Some s2
    /\ String.length s1 = 16%nat
    /\ String.length s2 = 16%nat
    /\ text_ltb s1 s2 = true.
Proof.
  intros V1 V2 Y1 Y2 Hh1 Hh2 Hm1 Hm2 Hlt.
  destruct (jalali_year_of_date _ _ _ V1 Y1)
    as (jy1 & jm1 & jd1 & G1 & Ry1 & Rm1 & Rd1).
  destruct (jalali_year_of_date _ _ _ V2 Y2)
    as (jy2 & jm2 & jd2 & G2 & Ry2 & Rm2 & Rd2).
  unfold get_jalali_datetime_string. rewrite G1, G2.
  eexists. eexists. split; [reflexivity |]. split; [reflexivity |].
  pose proof steps_up_4 as S4. pose proof steps_up_2 as S2.
  assert (Hlen : forall jy jm jd h mi,
             0 <= jy <= 9999 -> 0 <= jm <= 99 -> 0 <= jd <= 99 ->
             0 <= h <= 99 -> 0 <= mi <= 99 ->
             String.length
               (fmt_0d 4 jy ++ "/" ++ fmt_0d 2 jm ++ "/" ++ fmt_0d 2 jd
                ++ " " ++ fmt_0d 2 h ++ ":" ++ fmt_0d 2 mi) = 16%nat).
  { intros jy jm jd h mi Hjy Hjm Hjd Hh Hmi.
    assert (L4 : forall x, 0 <= x <= 9999 -> String.length (fmt_0d 4 x) = 4%nat).
    { intros x Hx. destruct (Z.eq_dec x 9999) as [-> | Hne]; [reflexivity |].
      destruct (steps_up_step 4 9999 x S4); [lia | assumption]. }
    assert (L2 : forall x, 0 <= x <= 99 -> String.length (fmt_0d 2 x) = 2%nat).
    { intros x Hx. destruct (Z.eq_dec x 99) as [-> | Hne]; [reflexivity |].
      destruct (steps_up_step 2 99 x S2); [lia | assumption]. }
    rewrite !string_length_app, L4, !L2 by assumption. reflexivity. }
  split; [apply Hlen; lia |]. split; [apply Hlen; lia |].
  apply text_ltb_lt.
  assert (Hdate :
            ymd2ord (year t1) (month t1) (day t1)
            < ymd2ord (year t2) (month t2) (day t2)
            \/ (ymd2ord (year t1) (month t1) (day t1)
                = ymd2ord (year t2) (month t2) (day t2)
                /\ (hour t1 < hour t2
                    \/ (hour t1 = hour t2 /\ minute t1 < minute t2))))
    by (unfold minute_number in Hlt; lia).
  rewrite gregorian_day_number in G1, G2 by (apply V1 || apply V2).
  injection G1 as G1. injection G2 as G2.
  assert (Hlex :
            jy1 < jy2
            \/ (jy1 = jy2
                /\ (jm1 < jm2
                    \/ (jm1 = jm2
                        /\ (jd1 < jd2
                            \/ (jd1 = jd2
                                /\ (hour t1 < hour t2
                                    \/ (hour t1 = hour t2
                                        /\ minute t1 < minute t2)))))))).
  { destruct Hdate as [Hd | [Hd Ht]].
    - pose proof (jalali_of_days_mono _ _
                    (proj1 (Z.add_lt_mono_r _ _ 356032) Hd)) as Hmono.
      rewrite G1, G2 in Hmono. lia.
    - rewrite Hd, G2 in G1. injection G1 as -> -> ->. lia. }
  apply (stamp_field 4 9999); [exact S4 | lia | lia |].
  destruct Hlex as [Hy | [Hy Hlex]]; [left; exact Hy | right].
  split; [exact Hy |]. apply stamp_sep.
  apply (stamp_field 2 99); [exact S2 | lia | lia |].
  destruct Hlex as [Hm | [Hm Hlex]]; [left; exact Hm | right].
  split; [exact Hm |]. apply stamp_sep.
  apply (stamp_field 2 99); [exact S2 | lia | lia |].
  destruct Hlex as [Hd | [Hd Hlex]]; [left; exact Hd | right].
  split; [exact Hd |]. apply stamp_sep.
  apply (stamp_field 2 99); [exact S2 | lia | lia |].
  destruct Hlex as [Hh | [Hh Hmi]]; [left; exact Hh | right].
  split; [exact Hh |]. apply stamp_sep.
  rewrite <- (string_app_nil_r (fmt_0d 2 (minute t1))).
  rewrite <- (string_app_nil_r (fmt_0d 2 (minute t2))).
  apply (stamp_field 2 99); [exact S2 | lia | lia | left; exact Hmi].
Qed.

Lemma jalali_stamps_sort_by_time_witness :
  exists s1 s2,
    get_jalali_datetime_string (mk_datetime 2026 3 20 23 59 0 0) = Some s1
    /\ get_jalali_datetime_string today = Some s2
    /\ text_ltb s1 s2 = true.
Proof.
  destruct (jalali_stamps_sort_by_time (mk_datetime 2026 3 20 23 59 0 0) today)
    as (s1 & s2 & H1 & H2 & _ & _ & Hlt);
    try (unfold valid_gregorian; cbn; lia); try (cbn; lia).
  - vm_compute. reflexivity.
  - exists s1, s2. auto.
Defined.
